(** * EcoGrid TOU optimizer: a shallow embedding of
      [ecogrid/optimization/tou_optimizer.py]

    The development follows the Python module function by function:
    [TOUOptimizer.optimize], [_baseline_result],
    [_generate_recommendations], [optimize_schedule] and
    [simulate_scenarios].

    Modelling conventions.
    - Python and numpy floats are values of [Q].  Where the code only
      computes numbers the arithmetic is exact and equality of computed
      numbers is stated with [==] ([Qeq]).  The two threshold tests of
      the recommendation rules 1 and 3 compare computed floats, so the
      sums, products and quotients they are taken on are rounded as
      binary64 operations are ([Double]).  NaN and infinities are
      outside the model.
    - Exceptions are values of [exn]; a computation that can raise
      returns a [result].
    - numpy arrays and Python lists of floats are [list Q]; numpy's
      broadcasting rule for one-dimensional arrays is written out.
    - The MILP solver (PuLP with CBC) is an external program: it is a
      parameter [solve] that maps the problem built by the code to a
      status and a value for every variable.
    - A recommendation string is represented by its template and the
      numbers formatted into it. *)

From Stdlib Require Import String DecimalString.
From Stdlib Require Import QArith Qround Qabs Qpower List Bool Lia Lqa.
From Stdlib Require Import PeanoNat Sorted.
Import ListNotations.

Open Scope Q_scope.

(* ================================================================== *)
(** ** Exceptions and the error monad                                  *)
(* ================================================================== *)

(** The built-in exceptions the module can raise. *)
Inductive exn : Type :=
| IndexError
| ValueError
| TypeError
| ZeroDivisionError.

Inductive result (A : Type) : Type :=
| Ok (a : A)
| Raise (e : exn).

Arguments Ok {A} a.
Arguments Raise {A} e.

Definition bind {A B : Type} (m : result A) (k : A -> result B) : result B :=
  match m with
  | Ok a => k a
  | Raise e => Raise e
  end.

Notation "x <- m ;; k" := (bind m (fun x => k))
  (at level 61, m at next level, right associativity).

(** [[f(x) for x in xs]] where [f] may raise: evaluation is left to
    right and stops at the first exception. *)
Fixpoint mapM {A B : Type} (f : A -> result B) (xs : list A) : result (list B) :=
  match xs with
  | [] => Ok []
  | x :: xs' =>
      y <- f x ;;
      ys <- mapM f xs' ;;
      Ok (y :: ys)
  end.

(* ================================================================== *)
(** ** Numbers                                                         *)
(* ================================================================== *)

(** [a < b] on floats. *)
Definition Qlt_bool (a b : Q) : bool := negb (Qle_bool b a).

(** Python's two-argument [max(a, b)]: the first argument wins ties. *)
Definition py_max2 (a b : Q) : Q := if Qlt_bool a b then b else a.

(** Python's two-argument [min(a, b)]. *)
Definition py_min2 (a b : Q) : Q := if Qlt_bool b a then b else a.

(** Built-in [sum(...)]: a left fold starting from the integer 0. *)
Definition py_sum (xs : list Q) : Q := fold_left Qplus xs 0.

(** Built-in [max(xs)] and [np.max(xs)] on a sequence: both raise
    [ValueError] on an empty one. *)
Definition py_max (xs : list Q) : result Q :=
  match xs with
  | [] => Raise ValueError
  | x :: xs' => Ok (fold_left py_max2 xs' x)
  end.

(** Division whose zero-divisor case is an error.  For two Python
    floats this is [ZeroDivisionError]; it is also used at the guarded
    divisions of the module, where the point is that a zero divisor is
    never reached. *)
Definition checked_div (a b : Q) : result Q :=
  if Qeq_bool b 0 then Raise ZeroDivisionError else Ok (a / b).

(** Division of numpy scalars: a zero divisor raises nothing, the
    result is [inf] or [nan] (with a RuntimeWarning).  [None] stands
    for that non-finite value. *)
Definition np_divide (a b : Q) : option Q :=
  if Qeq_bool b 0 then None else Some (a / b).

(** [x or 0] for a variable value that may be [None] (or zero). *)
Definition or_zero (v : option Q) : Q :=
  match v with
  | Some q => if Qeq_bool q 0 then 0 else q
  | None => 0
  end.

(* ================================================================== *)
(** ** Binary64 arithmetic                                             *)
(* ================================================================== *)

(** An operation on Python floats gives the exact result rounded to the
    nearest double, ties to even: 53 significant bits, and below
    [2 ^ -1022] the fixed spacing [2 ^ -1074] of gradual underflow.
    The exponent has no upper bound here: a result of magnitude
    [2 ^ 1024] or more, for which Python gives [inf], is outside the
    model, and [finite] tells the results inside it. *)
Module Double.

(** The integer nearest to [x], the even one of two at equal
    distance. *)
Definition nearest_even (x : Q) : Z :=
  let f := Qfloor x in
  match Qcompare (x - inject_Z f) (1 # 2) with
  | Lt => f
  | Gt => (f + 1)%Z
  | Eq => if Z.even f then f else (f + 1)%Z
  end.

(** For [a > 0], the [k] with [2 ^ k <= a < 2 ^ (k + 1)]. *)
Definition floor_log2 (a : Q) : Z :=
  let k := (Z.log2 (Qnum a) - Z.log2 (Zpos (Qden a)))%Z in
  if Qle_bool (2 ^ k) a then k else (k - 1)%Z.

(** The exponent of the last of the 53 bits of [a > 0]. *)
Definition exponent (a : Q) : Z := Z.max (floor_log2 a - 52) (-1074).

Definition round_magnitude (a : Q) : Q :=
  if Qeq_bool a 0 then 0
  else
    let e := exponent a in
    inject_Z (nearest_even (a / 2 ^ e)) * 2 ^ e.

(** The double nearest to [x]: what [float] makes of a decimal
    literal, and what an operation makes of its exact result. *)
Definition round (x : Q) : Q :=
  if Qlt_bool x 0 then - round_magnitude (- x) else round_magnitude x.

(** [a + b], [a - b], [a * b] and [a / b] on two doubles. *)
Definition add (a b : Q) : Q := round (a + b).
Definition sub (a b : Q) : Q := round (a - b).
Definition mul (a b : Q) : Q := round (a * b).
Definition div (a b : Q) : Q := round (a / b).

(** Built-in [sum(...)] on doubles: a left fold of additions starting
    from the integer 0, which is how CPython sums numpy scalars and,
    up to version 3.11, floats. *)
Definition sum (xs : list Q) : Q := fold_left add xs 0.

(** The magnitude of [x] is below [2 ^ 1024]: a rounded result with
    this property is a finite double. *)
Definition finite (x : Q) : bool := Qlt_bool (Qabs x) (2 ^ 1024).

(** No term and no partial sum of [sum xs] leaves the finite
    doubles. *)
Fixpoint sum_finite_from (acc : Q) (xs : list Q) : bool :=
  match xs with
  | [] => true
  | x :: xs' =>
      finite x && finite (add acc x) && sum_finite_from (add acc x) xs'
  end.

Definition sum_finite (xs : list Q) : bool := sum_finite_from 0 xs.


End Double.

(* ================================================================== *)
(** ** Sequences                                                       *)
(* ================================================================== *)

(** [xs[i]] for a non-negative index. *)
Definition getitem (xs : list Q) (i : nat) : result Q :=
  match nth_error xs i with
  | Some x => Ok x
  | None => Raise IndexError
  end.

(** [range(n)]. *)
Definition range (n : nat) : list nat := seq 0 n.

(** Element-wise numpy operation on two one-dimensional arrays, with
    broadcasting: equal lengths combine pointwise, a length-one array
    is stretched, anything else is a [ValueError]. *)
Fixpoint zip_with (f : Q -> Q -> Q) (xs ys : list Q) : list Q :=
  match xs, ys with
  | x :: xs', y :: ys' => f x y :: zip_with f xs' ys'
  | _, _ => []
  end.

Definition np_broadcast (f : Q -> Q -> Q) (xs ys : list Q) : result (list Q) :=
  if Nat.eqb (length xs) (length ys) then Ok (zip_with f xs ys)
  else match xs, ys with
       | [x], _ => Ok (map (fun y => f x y) ys)
       | _, [y] => Ok (map (fun x => f x y) xs)
       | _, _ => Raise ValueError
       end.

Definition np_subtract := np_broadcast Qminus.
Definition np_multiply := np_broadcast Qmult.
Definition np_minimum := np_broadcast py_min2.

(** [np.maximum(xs, c)] with a scalar [c]. *)
Definition np_maximum_scalar (xs : list Q) (c : Q) : list Q :=
  map (fun x => py_max2 x c) xs.

(** [[i for i, t in enumerate(xs) if p(t)]]. *)
Fixpoint indices_where_from (p : Q -> bool) (i : nat) (xs : list Q) : list nat :=
  match xs with
  | [] => []
  | x :: xs' =>
      if p x then i :: indices_where_from p (S i) xs'
      else indices_where_from p (S i) xs'
  end.

Definition indices_where (p : Q -> bool) (xs : list Q) : list nat :=
  indices_where_from p 0 xs.

(** [zip(xs, ys)]: stops at the shorter sequence. *)
Fixpoint zip (xs ys : list Q) : list (Q * Q) :=
  match xs, ys with
  | x :: xs', y :: ys' => (x, y) :: zip xs' ys'
  | _, _ => []
  end.

(** Decimal rendering of a natural number, as [f"{n}"] does. *)
Definition string_of_nat (n : nat) : string :=
  NilEmpty.string_of_uint (Nat.to_uint n).

(* ================================================================== *)
(** ** Configuration ([ecogrid/config/settings.py])                    *)
(* ================================================================== *)

Module Settings.
(** The fields of [Settings] the optimizer reads. *)
Record t : Type := {
  optimization_time_horizon : nat;
  battery_capacity_kwh : Q;
  max_contract_capacity_kw : Q;
  battery_efficiency : Q;
  min_soc : Q;
  max_soc : Q;
  summer_peak_rate : Q;
  summer_off_peak_rate : Q
}.

(** The defaults of the [Field(default=...)] declarations. *)
Definition default : t := {|
  optimization_time_horizon := 24;
  battery_capacity_kwh := 100;
  max_contract_capacity_kw := 500;
  battery_efficiency := 0.9;
  min_soc := 0.1;
  max_soc := 0.9;
  summer_peak_rate := 9.34;
  summer_off_peak_rate := 2.29
|}.
End Settings.

(* ================================================================== *)
(** ** The PuLP interface                                              *)
(* ================================================================== *)

(** The decision variables, named as in [optimize]. *)
Inductive LpVar : Type :=
| grid_buy (t : nat)
| battery_charge (t : nat)
| battery_discharge (t : nat)
| soc (t : nat)
| solar_used (t : nat)
| wind_used (t : nat)
| charge_flag (t : nat).

Inductive LpCategory : Type := Continuous | Binary.

(** [pulp.LpVariable(name, lowBound, upBound, cat)]. *)
Record LpVariable : Type := {
  var_name : LpVar;
  lowBound : option Q;
  upBound : option Q;
  cat : LpCategory
}.

(** [pulp.LpAffineExpression]: a constant plus coefficient-variable
    terms. *)
Record LpAffineExpression : Type := {
  aff_constant : Q;
  aff_terms : list (LpVar * Q)
}.

Definition aff_var (v : LpVar) : LpAffineExpression :=
  {| aff_constant := 0; aff_terms := [(v, 1)] |}.

Definition aff_const (c : Q) : LpAffineExpression :=
  {| aff_constant := c; aff_terms := [] |}.

Definition aff_scale (e : LpAffineExpression) (c : Q) : LpAffineExpression :=
  {| aff_constant := aff_constant e * c;
     aff_terms := map (fun vx => (fst vx, snd vx * c)) (aff_terms e) |}.

Definition aff_add (e1 e2 : LpAffineExpression) : LpAffineExpression :=
  {| aff_constant := aff_constant e1 + aff_constant e2;
     aff_terms := aff_terms e1 ++ aff_terms e2 |}.

Definition aff_sub (e1 e2 : LpAffineExpression) : LpAffineExpression :=
  aff_add e1 (aff_scale e2 (-1)).

(** [pulp.lpSum]. *)
Definition lpSum (es : list LpAffineExpression) : LpAffineExpression :=
  fold_left aff_add es (aff_const 0).

Inductive LpSense : Type := LpLE | LpGE | LpEQ.

(** A constraint [lhs <= rhs], [lhs >= rhs] or [lhs == rhs]. *)
Record LpConstraint : Type := {
  con_lhs : LpAffineExpression;
  con_sense : LpSense;
  con_rhs : LpAffineExpression
}.

(** [pulp.LpProblem] after all the [prob += ...] statements. *)
Record LpProblem : Type := {
  lp_variables : list LpVariable;
  lp_objective : LpAffineExpression;
  lp_constraints : list LpConstraint
}.

(** The values of [pulp.LpStatus]. *)
Inductive LpStatus : Type :=
| LpStatusNotSolved
| LpStatusOptimal
| LpStatusInfeasible
| LpStatusUnbounded
| LpStatusUndefined.

Definition LpStatus_str (s : LpStatus) : string :=
  match s with
  | LpStatusNotSolved => "Not Solved"
  | LpStatusOptimal => "Optimal"
  | LpStatusInfeasible => "Infeasible"
  | LpStatusUnbounded => "Unbounded"
  | LpStatusUndefined => "Undefined"
  end.

(** What the code reads after [prob.solve(solver)]: [prob.status] and
    the [varValue] of every variable ([None] when the solver gave it no
    value). *)
Record LpSolution : Type := {
  sol_status : LpStatus;
  varValue : LpVar -> option Q
}.

(** [pulp.value(e)]: [None] as soon as a variable of [e] has no
    value. *)
Definition pulp_value (values : LpVar -> option Q) (e : LpAffineExpression)
  : option Q :=
  fold_left
    (fun acc vx =>
       match acc, values (fst vx) with
       | Some s, Some x => Some (s + x * snd vx)
       | _, _ => None
       end)
    (aff_terms e) (Some (aff_constant e)).

(** [pulp.value(prob.objective)] after [prob.solve(solver)].  To write
    the problem for the solver PuLP gives an objective without terms
    its variable [__dummy], and takes it out afterwards by a
    subtraction that leaves the variable in the expression with
    coefficient 0.  The values of the solution are never assigned to
    [__dummy], so the value of such an objective is [None]. *)
Definition objective_value (values : LpVar -> option Q)
    (objective : LpAffineExpression) : option Q :=
  match aff_terms objective with
  | [] => None
  | _ :: _ => pulp_value values objective
  end.

(* ================================================================== *)
(** ** Results                                                         *)
(* ================================================================== *)

(** The recommendation strings, one constructor per template, carrying
    the values that the f-string formats. *)
Inductive recommendation : Type :=
| PeakGridReduced (first_hour end_hour : nat) (percent : option Q)
    (** rule 1: grid use cut during the peak period *)
| BatteryDischarged (kwh : Q)
    (** rule 2: energy supplied by the battery *)
| SolarUtilization (percent : Q) (expand_storage : bool)
    (** rule 3: solar utilisation, followed by the storage-expansion
        suggestion ([true]) or by the adequacy statement ([false]) *)
| PeakShaved (percent : Q)
    (** rule 4: peak load lowered *)
| OffPeakCharging (first_hour end_hour : nat) (kwh : Q)
    (** rule 5: charge during the off-peak period *)
| NothingSpecial
    (** the default entry *)
| InstallStorage.
    (** the entry of the baseline result *)

Record OptimizationResult : Type := {
  status : string;
  total_cost : Q;
  baseline_cost : Q;
  savings : Q;
  savings_percent : Q;
  battery_schedule : list Q;
  grid_consumption : list Q;
  solar_utilization : list Q;
  peak_reduction : Q;
  recommendations : list recommendation
}.

(** The attributes set by [TOUOptimizer.__init__]. *)
Record TOUOptimizer : Type := {
  battery_capacity : Q;
  max_contract : Q;
  battery_efficiency : Q;
  min_soc : Q;
  max_soc : Q;
  time_horizon : nat
}.

Definition TOUOptimizer_init (settings : Settings.t) : TOUOptimizer := {|
  battery_capacity := Settings.battery_capacity_kwh settings;
  max_contract := Settings.max_contract_capacity_kw settings;
  battery_efficiency := Settings.battery_efficiency settings;
  min_soc := Settings.min_soc settings;
  max_soc := Settings.max_soc settings;
  time_horizon := Settings.optimization_time_horizon settings
|}.

(* ================================================================== *)
(** ** [TOUOptimizer]                                                  *)
(* ================================================================== *)

Section Optimizer.

(** The module-level [settings] object, the [PULP_AVAILABLE] flag set
    by the guarded import, and the solver run by
    [prob.solve(pulp.PULP_CBC_CMD(msg=0, timeLimit=60))]. *)
Variable settings : Settings.t.
Variable PULP_AVAILABLE : bool.
Variable solve : LpProblem -> LpSolution.

(** *** [_baseline_result] *)

Definition _baseline_result (load_forecast solar_forecast wind_forecast
                               tariffs : list Q) : result OptimizationResult :=
  let T := length load_forecast in
  d <- np_subtract load_forecast solar_forecast ;;
  d' <- np_subtract d wind_forecast ;;
  let net_load := np_maximum_scalar d' 0 in
  costs <- mapM (fun t =>
                   n <- getitem net_load t ;;
                   p <- getitem tariffs t ;;
                   Ok (n * p)) (range T) ;;
  let baseline_cost := py_sum costs in
  used <- np_minimum solar_forecast load_forecast ;;
  Ok {| status := "Baseline";
        total_cost := baseline_cost;
        baseline_cost := baseline_cost;
        savings := 0;
        savings_percent := 0;
        battery_schedule := repeat 0 T;
        grid_consumption := net_load;
        solar_utilization := used;
        peak_reduction := 0;
        recommendations := [InstallStorage] |}.

(** *** [_generate_recommendations]

    Each rule appends zero or one entry to [recommendations]; the
    entries of a rule are given by one function, in source order. *)

(** [peak_hours]: the hours whose tariff reaches 0.9 of the peak rate. *)
Definition peak_hours_of (tariffs : list Q) : list nat :=
  indices_where
    (fun t => Qle_bool (Settings.summer_peak_rate settings * 0.9) t) tariffs.

(** [off_peak_hours]: tariff at most 1.1 of the off-peak rate. *)
Definition off_peak_hours_of (tariffs : list Q) : list nat :=
  indices_where
    (fun t => Qle_bool t (Settings.summer_off_peak_rate settings * 1.1)) tariffs.

(** Rule 1 (peak period).  The test [peak_grid < peak_load * 0.8]
    compares computed floats: the two sums, the product and the
    percentage are taken in [Double], on the doubles that hold the
    values of the series. *)
Definition rule_peak_period (load grid tariffs : list Q)
  : result (list recommendation) :=
  let peak_hours := peak_hours_of tariffs in
  match peak_hours with
  | [] => Ok []
  | _ :: _ =>
      loads <- mapM (getitem load) peak_hours ;;
      let peak_load := Double.sum (map Double.round loads) in
      grids <- mapM (getitem grid) peak_hours ;;
      let peak_grid := Double.sum (map Double.round grids) in
      if Qlt_bool peak_grid (Double.mul peak_load (Double.round 0.8)) then
        Ok [PeakGridReduced (hd O peak_hours) (last peak_hours O + 1)
              (option_map (fun q => Double.mul (Double.round q) 100)
                 (np_divide (Double.sub peak_load peak_grid) peak_load))]
      else Ok []
  end.

(** Rule 2 (battery use). *)
Definition rule_battery (battery : list Q) : list recommendation :=
  let total_discharge := py_sum (map (fun b => py_max2 (- b) 0) battery) in
  if Qlt_bool 0 total_discharge then [BatteryDischarged total_discharge]
  else [].

(** Rule 3 (solar utilisation).  The test [utilization < 80] compares
    a computed float: the two sums, the quotient and the product are
    taken in [Double], on the doubles that hold the values of the
    series. *)
Definition rule_solar (load solar : list Q) : result (list recommendation) :=
  let solar_available := Double.sum (map Double.round solar) in
  let solar_used :=
    Double.sum (map (fun sl => py_min2 (fst sl) (snd sl))
                  (zip (map Double.round solar) (map Double.round load))) in
  if Qlt_bool 0 solar_available then
    q <- checked_div solar_used solar_available ;;
    let utilization := Double.mul (Double.round q) 100 in
    Ok [SolarUtilization utilization (Qlt_bool utilization 80)]
  else Ok [].

(** Rule 4 (peak shaving). *)
Definition rule_peak_shaving (peak_reduction : Q) : list recommendation :=
  if Qlt_bool 5 peak_reduction then [PeakShaved peak_reduction] else [].

(** Rule 5 (off-peak charging). *)
Definition rule_off_peak (battery tariffs : list Q) : list recommendation :=
  let off_peak_hours := off_peak_hours_of tariffs in
  match off_peak_hours with
  | [] => []
  | _ :: _ =>
      let off_peak_charge :=
        py_sum (map (fun h => py_max2 (nth h battery 0) 0)
                  (filter (fun h => Nat.ltb h (length battery))
                     off_peak_hours)) in
      if Qlt_bool 0 off_peak_charge then
        [OffPeakCharging (hd O off_peak_hours) (last off_peak_hours O + 1)
           off_peak_charge]
      else []
  end.

(** [recommendations if recommendations else [default]]. *)
Definition or_default (recommendations : list recommendation)
  : list recommendation :=
  match recommendations with
  | [] => [NothingSpecial]
  | _ :: _ => recommendations
  end.

Definition _generate_recommendations (load solar grid battery tariffs : list Q)
    (peak_reduction : Q) : result (list recommendation) :=
  r1 <- rule_peak_period load grid tariffs ;;
  let r2 := rule_battery battery in
  r3 <- rule_solar load solar ;;
  let r4 := rule_peak_shaving peak_reduction in
  let r5 := rule_off_peak battery tariffs in
  let recommendations := r1 ++ r2 ++ r3 ++ r4 ++ r5 in
  Ok (or_default recommendations).

(** *** [optimize]: building the MILP *)

Definition continuous (v : LpVar) (lo up : Q) : LpVariable :=
  {| var_name := v; lowBound := Some lo; upBound := Some up;
     cat := Continuous |}.

Definition binary (v : LpVar) : LpVariable :=
  {| var_name := v; lowBound := None; upBound := None; cat := Binary |}.

Definition renewable_credit : Q := 0.8.

(** The statements of [optimize] from [prob = pulp.LpProblem(...)] to
    the last [prob += ...], in order.  Indexing a forecast that is
    shorter than [load_forecast] raises [IndexError]. *)
Definition build_problem (self : TOUOptimizer)
    (load_forecast solar_forecast wind_forecast tariffs : list Q)
    (initial_soc : Q) : result LpProblem :=
  let T := length load_forecast in
  let grid_vars :=
    map (fun t => continuous (grid_buy t) 0 (max_contract self)) (range T) in
  let charge_vars :=
    map (fun t => continuous (battery_charge t) 0
                    (battery_capacity self * 0.5)) (range T) in
  let discharge_vars :=
    map (fun t => continuous (battery_discharge t) 0
                    (battery_capacity self * 0.5)) (range T) in
  let soc_vars :=
    map (fun t => continuous (soc t)
                    (battery_capacity self * min_soc self)
                    (battery_capacity self * max_soc self))
        (range (T + 1)) in
  solar_vars <- mapM (fun t =>
                        s <- getitem solar_forecast t ;;
                        Ok (continuous (solar_used t) 0 (py_max2 s 0.001)))
                     (range T) ;;
  wind_vars <- mapM (fun t =>
                       w <- getitem wind_forecast t ;;
                       Ok (continuous (wind_used t) 0 (py_max2 w 0.001)))
                    (range T) ;;
  (* objective *)
  cost_terms <- mapM (fun t =>
                  p <- getitem tariffs t ;;
                  p' <- getitem tariffs t ;;
                  Ok (aff_sub
                        (aff_scale (aff_var (grid_buy t)) p)
                        (aff_scale
                           (aff_scale
                              (aff_add (aff_var (solar_used t))
                                       (aff_var (wind_used t))) p')
                           renewable_credit)))
                (range T) ;;
  let objective := lpSum cost_terms in
  (* 1. energy balance *)
  balance <- mapM (fun t =>
               l <- getitem load_forecast t ;;
               Ok {| con_lhs :=
                       aff_sub
                         (aff_add
                            (aff_add
                               (aff_add (aff_var (grid_buy t))
                                        (aff_var (solar_used t)))
                               (aff_var (wind_used t)))
                            (aff_scale (aff_var (battery_discharge t))
                                       (battery_efficiency self)))
                         (aff_var (battery_charge t));
                     con_sense := LpGE;
                     con_rhs := aff_const l |})
             (range T) ;;
  (* 2. state of charge *)
  let soc_init :=
    {| con_lhs := aff_var (soc 0);
       con_sense := LpEQ;
       con_rhs := aff_const (battery_capacity self * initial_soc) |} in
  let soc_steps :=
    map (fun t =>
           {| con_lhs := aff_var (soc (t + 1));
              con_sense := LpEQ;
              con_rhs :=
                aff_sub
                  (aff_add (aff_var (soc t))
                           (aff_scale (aff_var (battery_charge t))
                                      (battery_efficiency self)))
                  (aff_var (battery_discharge t)) |})
        (range T) in
  (* 3. renewable use within the forecast *)
  renewable_caps <- mapM (fun t =>
                      s <- getitem solar_forecast t ;;
                      w <- getitem wind_forecast t ;;
                      Ok [ {| con_lhs := aff_var (solar_used t);
                              con_sense := LpLE;
                              con_rhs := aff_const (py_max2 s 0) |};
                           {| con_lhs := aff_var (wind_used t);
                              con_sense := LpLE;
                              con_rhs := aff_const (py_max2 w 0) |} ])
                    (range T) ;;
  (* 4. charging and discharging exclude each other (big M) *)
  let M := battery_capacity self * 2 in
  let flag_vars := map (fun t => binary (charge_flag t)) (range T) in
  let exclusive :=
    map (fun t =>
           [ {| con_lhs := aff_var (battery_charge t);
                con_sense := LpLE;
                con_rhs := aff_scale (aff_var (charge_flag t)) M |};
             {| con_lhs := aff_var (battery_discharge t);
                con_sense := LpLE;
                con_rhs :=
                  aff_scale
                    (aff_sub (aff_const 1) (aff_var (charge_flag t))) M |} ])
        (range T) in
  (* 5. peak shaving *)
  let peak_limit := max_contract self * 0.8 in
  peak_caps <- mapM (fun t =>
                 p <- getitem tariffs t ;;
                 if Qle_bool (Settings.summer_peak_rate settings * 0.9) p
                 then Ok [ {| con_lhs := aff_var (grid_buy t);
                              con_sense := LpLE;
                              con_rhs := aff_const peak_limit |} ]
                 else Ok [])
               (range T) ;;
  Ok {| lp_variables :=
          grid_vars ++ charge_vars ++ discharge_vars ++ soc_vars
          ++ solar_vars ++ wind_vars ++ flag_vars;
        lp_objective := objective;
        lp_constraints :=
          balance ++ [soc_init] ++ soc_steps ++ concat renewable_caps
          ++ concat exclusive ++ concat peak_caps |}.

(** *** [optimize]: the derived metrics *)

(** [(savings / baseline_cost * 100) if baseline_cost > 0 else 0]. *)
Definition savings_percent_of (savings baseline_cost : Q) : result Q :=
  if Qlt_bool 0 baseline_cost then
    q <- checked_div savings baseline_cost ;;
    Ok (q * 100)
  else Ok 0.

(** [((baseline_peak - optimized_peak) / baseline_peak * 100
      if baseline_peak > 0 else 0)]. *)
Definition peak_reduction_of (baseline_peak optimized_peak : Q) : result Q :=
  if Qlt_bool 0 baseline_peak then
    q <- checked_div (baseline_peak - optimized_peak) baseline_peak ;;
    Ok (q * 100)
  else Ok 0.

(** [sum(load_forecast[t] * tariffs[t] for t in range(T))], the
    baseline cost of the solved path. *)
Definition load_cost (load_forecast tariffs : list Q) : result Q :=
  terms <- mapM (fun t =>
                   l <- getitem load_forecast t ;;
                   p <- getitem tariffs t ;;
                   Ok (l * p)) (range (length load_forecast)) ;;
  Ok (py_sum terms).

(** *** [optimize] *)

Definition optimize (self : TOUOptimizer)
    (load_forecast solar_forecast wind_forecast tariffs : list Q)
    (initial_soc : Q) : result OptimizationResult :=
  if negb PULP_AVAILABLE then
    _baseline_result load_forecast solar_forecast wind_forecast tariffs
  else
    let T := length load_forecast in
    prob <- build_problem self load_forecast solar_forecast wind_forecast
              tariffs initial_soc ;;
    let sol := solve prob in
    let status := LpStatus_str (sol_status sol) in
    if negb (String.eqb status "Optimal") then
      _baseline_result load_forecast solar_forecast wind_forecast tariffs
    else
      let value_of v := or_zero (varValue sol v) in
      let grid_schedule := map (fun t => value_of (grid_buy t)) (range T) in
      let charge_schedule :=
        map (fun t => value_of (battery_charge t)) (range T) in
      let discharge_schedule :=
        map (fun t => value_of (battery_discharge t)) (range T) in
      let solar_schedule := map (fun t => value_of (solar_used t)) (range T) in
      let wind_schedule := map (fun t => value_of (wind_used t)) (range T) in
      soc_schedule <- mapM (fun t =>
                              checked_div (value_of (soc t))
                                          (battery_capacity self))
                           (range (T + 1)) ;;
      battery_schedule <- mapM (fun t =>
                                  c <- getitem charge_schedule t ;;
                                  d <- getitem discharge_schedule t ;;
                                  Ok (c - d))
                               (range T) ;;
      let total_cost := objective_value (varValue sol) (lp_objective prob) in
      baseline_cost <- load_cost load_forecast tariffs ;;
      match total_cost with
      | None => Raise TypeError
      | Some total_cost =>
          let savings := baseline_cost - total_cost in
          savings_percent <- savings_percent_of savings baseline_cost ;;
          baseline_peak <- py_max load_forecast ;;
          optimized_peak <- py_max grid_schedule ;;
          peak_reduction <- peak_reduction_of baseline_peak optimized_peak ;;
          recommendations <-
            _generate_recommendations load_forecast solar_forecast
              grid_schedule battery_schedule tariffs peak_reduction ;;
          Ok {| status := status;
                total_cost := total_cost;
                baseline_cost := baseline_cost;
                savings := savings;
                savings_percent := savings_percent;
                battery_schedule := battery_schedule;
                grid_consumption := grid_schedule;
                solar_utilization := solar_schedule;
                peak_reduction := peak_reduction;
                recommendations := recommendations |}
      end.

End Optimizer.

(* ================================================================== *)
(** ** Forecast frames and scenarios                                   *)
(* ================================================================== *)

(** The forecast [DataFrame], restricted to the four columns the
    optimizer reads.  All columns of a frame have the length of the
    frame, so the frame is a list of rows; a flag per column records
    whether the column exists (the value stored in a row for a missing
    column is never read). *)
Record Row : Type := {
  predicted_load_mw : Q;
  predicted_solar_mw : Q;
  predicted_wind_mw : Q;
  tariff : Q
}.

Record DataFrame : Type := {
  has_predicted_load_mw : bool;
  has_predicted_solar_mw : bool;
  has_predicted_wind_mw : bool;
  has_tariff : bool;
  rows : list Row
}.

(** [df[c].values if c in df.columns else np.full(len(df), d)]. *)
Definition column_or (present : bool) (field : Row -> Q) (d : Q)
    (df : DataFrame) : list Q :=
  if present then map field (rows df) else repeat d (length (rows df)).

(** [schedule_df[c] = xs]: the values must have the length of the
    frame, otherwise pandas raises [ValueError]. *)
Definition set_column (df : DataFrame) (xs : list Q) : result (list Q) :=
  if Nat.eqb (length xs) (length (rows df)) then Ok xs else Raise ValueError.

(** [schedule_df]: the copy of the forecast with the added columns. *)
Record ScheduleFrame : Type := {
  forecast : DataFrame;
  optimized_grid_kw : list Q;
  battery_schedule_kw : list Q;
  solar_used_kw : list Q;
  baseline_cost_column : list Q;
  optimized_cost_column : list Q
}.

Module Summary.
Record t : Type := {
  total_cost : Q;
  baseline_cost : Q;
  savings : Q;
  savings_percent : Q;
  peak_reduction : Q;
  recommendations : list recommendation
}.
End Summary.

(** The dictionary returned by [optimize_schedule]. *)
Record ScheduleOutput : Type := {
  result_of : OptimizationResult;
  schedule : ScheduleFrame;
  summary : Summary.t
}.

Module Scenario.
(** A scenario dictionary: every key is optional. *)
Record t : Type := {
  name : option string;
  battery_capacity : option Q;
  max_contract : option Q;
  initial_soc : option Q
}.
End Scenario.

(** [d.get(key, default)]. *)
Definition dict_get {A : Type} (v : option A) (default : A) : A :=
  match v with
  | Some a => a
  | None => default
  end.

(** An entry of the list returned by [simulate_scenarios]. *)
Record ScenarioResult : Type := {
  scenario_name : string;
  scenario_battery_capacity : Q;
  scenario_max_contract : Q;
  scenario_output : ScheduleOutput
}.

(** Attribute assignment on the optimizer object. *)
Definition set_battery_capacity (self : TOUOptimizer) (v : Q) : TOUOptimizer :=
  {| battery_capacity := v;
     max_contract := max_contract self;
     battery_efficiency := battery_efficiency self;
     min_soc := min_soc self;
     max_soc := max_soc self;
     time_horizon := time_horizon self |}.

Definition set_max_contract (self : TOUOptimizer) (v : Q) : TOUOptimizer :=
  {| battery_capacity := battery_capacity self;
     max_contract := v;
     battery_efficiency := battery_efficiency self;
     min_soc := min_soc self;
     max_soc := max_soc self;
     time_horizon := time_horizon self |}.

Section Scheduling.

Variable settings : Settings.t.
Variable PULP_AVAILABLE : bool.
Variable solve : LpProblem -> LpSolution.

(** *** The scaling step of [optimize_schedule] *)

(** [np.max(load_raw) if np.max(load_raw) > 0 else 1]. *)
Definition load_max_mw_of (load_raw : list Q) : result Q :=
  m <- py_max load_raw ;;
  if Qlt_bool 0 m then py_max load_raw else Ok 1.

(** [target_peak_kw / (load_max_mw * 1000)]. *)
Definition scale_factor_of (self : TOUOptimizer) (load_raw : list Q)
  : result Q :=
  load_max_mw <- load_max_mw_of load_raw ;;
  let target_peak_kw := max_contract self * 0.8 in
  checked_div target_peak_kw (load_max_mw * 1000).

(** [xs * 1000 * scale_factor]. *)
Definition rescale (scale_factor : Q) (xs : list Q) : list Q :=
  map (fun x => x * 1000 * scale_factor) xs.

(** Lines 308 to 322: the raw columns, then the three scaled series
    and the tariffs. *)
Definition scale_forecast (self : TOUOptimizer) (df : DataFrame)
  : result (list Q * list Q * list Q * list Q) :=
  let load_raw := column_or (has_predicted_load_mw df) predicted_load_mw 0 df in
  let solar_raw :=
    column_or (has_predicted_solar_mw df) predicted_solar_mw 0 df in
  let wind_raw := column_or (has_predicted_wind_mw df) predicted_wind_mw 0 df in
  let tariffs := column_or (has_tariff df) tariff 5.0 df in
  scale_factor <- scale_factor_of self load_raw ;;
  Ok (rescale scale_factor load_raw,
      rescale scale_factor solar_raw,
      rescale scale_factor wind_raw,
      tariffs).

(** *** [optimize_schedule] *)

Definition optimize_schedule (self : TOUOptimizer) (forecast_df : DataFrame)
    (initial_soc : Q) : result ScheduleOutput :=
  scaled <- scale_forecast self forecast_df ;;
  let '(load, solar, wind, tariffs) := scaled in
  result <- optimize settings PULP_AVAILABLE solve self load solar wind
              tariffs initial_soc ;;
  grid_col <- set_column forecast_df (grid_consumption result) ;;
  battery_col <- set_column forecast_df (battery_schedule result) ;;
  solar_col <- set_column forecast_df (solar_utilization result) ;;
  base <- np_multiply load tariffs ;;
  base_col <- set_column forecast_df base ;;
  opt <- np_multiply (grid_consumption result) tariffs ;;
  opt_col <- set_column forecast_df opt ;;
  Ok {| result_of := result;
        schedule :=
          {| forecast := forecast_df;
             optimized_grid_kw := grid_col;
             battery_schedule_kw := battery_col;
             solar_used_kw := solar_col;
             baseline_cost_column := base_col;
             optimized_cost_column := opt_col |};
        summary :=
          {| Summary.total_cost := total_cost result;
             Summary.baseline_cost := baseline_cost result;
             Summary.savings := savings result;
             Summary.savings_percent := savings_percent result;
             Summary.peak_reduction := peak_reduction result;
             Summary.recommendations := recommendations result |} |}.

(** *** [simulate_scenarios]

    The method mutates [self]; the model threads the optimizer
    through the loop and returns its final state next to the outcome,
    also when an exception leaves the loop. *)

(** The two attribute assignments under "update the parameters". *)
Definition apply_overrides (self : TOUOptimizer) (scenario : Scenario.t)
  : TOUOptimizer :=
  let self' :=
    set_battery_capacity self
      (dict_get (Scenario.battery_capacity scenario) (battery_capacity self)) in
  set_max_contract self'
    (dict_get (Scenario.max_contract scenario) (max_contract self')).

(** The two attribute assignments under "restore the original
    parameters". *)
Definition restore (self : TOUOptimizer) (original_capacity
    original_contract : Q) : TOUOptimizer :=
  set_max_contract (set_battery_capacity self original_capacity)
    original_contract.

(** The body of the [for i, scenario in enumerate(scenarios)] loop,
    from iteration [i] with the [results] gathered so far. *)
Fixpoint simulate_loop (self : TOUOptimizer) (forecast_df : DataFrame)
    (i : nat) (scenarios : list Scenario.t) (results : list ScenarioResult)
  : TOUOptimizer * result (list ScenarioResult) :=
  match scenarios with
  | [] => (self, Ok results)
  | scenario :: rest =>
      let original_capacity := battery_capacity self in
      let original_contract := max_contract self in
      let self := apply_overrides self scenario in
      match optimize_schedule self forecast_df
              (dict_get (Scenario.initial_soc scenario) 0.5) with
      | Raise e => (self, Raise e)
      | Ok opt_result =>
          let results :=
            results ++
            [ {| scenario_name :=
                   dict_get (Scenario.name scenario)
                     ("Scenario_" ++ string_of_nat (i + 1))%string;
                 scenario_battery_capacity := battery_capacity self;
                 scenario_max_contract := max_contract self;
                 scenario_output := opt_result |} ] in
          let self := restore self original_capacity original_contract in
          simulate_loop self forecast_df (S i) rest results
      end
  end.

Definition simulate_scenarios (self : TOUOptimizer) (forecast_df : DataFrame)
    (scenarios : list Scenario.t)
  : TOUOptimizer * result (list ScenarioResult) :=
  simulate_loop self forecast_df 0 scenarios [].

End Scheduling.

(* ================================================================== *)
(** ** Vocabulary of the properties                                    *)
(* ================================================================== *)

(** The cost formula of the baseline estimator as the specification
    writes it: the sum over [t] of
    [max(load[t] - solar[t] - wind[t], 0) * tariff[t]].  It is compared
    below with what [_baseline_result] and [optimize] compute. *)
Fixpoint spec_baseline_cost (load solar wind tariff : list Q) : Q :=
  match load, solar, wind, tariff with
  | l :: load', s :: solar', w :: wind', p :: tariff' =>
      py_max2 (l - s - w) 0 * p + spec_baseline_cost load' solar' wind' tariff'
  | _, _, _, _ => 0
  end.

(** The net load [np.maximum(load - solar - wind, 0)] of
    [_baseline_result] on arrays of one length. *)
Definition fallback_net_load (load solar wind : list Q) : list Q :=
  np_maximum_scalar (zip_with Qminus (zip_with Qminus load solar) wind) 0.

(** The four input arrays of [optimize] have one common length. *)
Definition same_length (load solar wind tariffs : list Q) : Prop :=
  length solar = length load /\
  length wind = length load /\
  length tariffs = length load.

(** Recognisers for the entries of two rules. *)
Definition is_peak_observation (r : recommendation) : bool :=
  match r with
  | PeakGridReduced _ _ _ => true
  | _ => false
  end.

Definition is_solar_observation (r : recommendation) : bool :=
  match r with
  | SolarUtilization _ _ => true
  | _ => false
  end.

(** The values [xs[h]] over the peak hours, as doubles, for a series
    [xs] that covers the peak hours. *)
Definition peak_values (settings : Settings.t) (tariffs xs : list Q)
  : list Q :=
  map Double.round
    (map (fun h => nth h xs 0) (peak_hours_of settings tariffs)).

(** [sum(xs[h] for h in peak_hours)]. *)
Definition peak_sum (settings : Settings.t) (tariffs xs : list Q) : Q :=
  Double.sum (peak_values settings tariffs xs).

(** The terms [min(s, l) for s, l in zip(solar, load)]. *)
Definition solar_used_terms (solar load : list Q) : list Q :=
  map (fun sl => py_min2 (fst sl) (snd sl))
    (zip (map Double.round solar) (map Double.round load)).

(** [sum(min(s, l) for s, l in zip(solar, load))]. *)
Definition solar_used_total (solar load : list Q) : Q :=
  Double.sum (solar_used_terms solar load).

(** [sum(solar)]. *)
Definition solar_available_total (solar : list Q) : Q :=
  Double.sum (map Double.round solar).

(** [solar_used / solar_available * 100]. *)
Definition solar_utilization_percent (solar load : list Q) : Q :=
  Double.mul
    (Double.div (solar_used_total solar load) (solar_available_total solar))
    100.


(** The sums, the quotient and the percentage of rule 3 stay within
    the finite doubles. *)
Definition solar_sums_finite (load solar : list Q) : Prop :=
  Double.sum_finite (map Double.round solar) = true /\
  Double.sum_finite (solar_used_terms solar load) = true /\
  Double.finite
    (Double.div (solar_used_total solar load) (solar_available_total solar))
  = true /\
  Double.finite (solar_utilization_percent solar load) = true.

(** The optimizer a scenario runs under: the given configuration with
    the overrides of that scenario alone. *)
Definition runs_isolated (settings : Settings.t) (PULP_AVAILABLE : bool)
    (solve : LpProblem -> LpSolution) (self : TOUOptimizer)
    (forecast_df : DataFrame) (scenario : Scenario.t) (r : ScenarioResult)
  : Prop :=
  optimize_schedule settings PULP_AVAILABLE solve
    (apply_overrides self scenario) forecast_df
    (dict_get (Scenario.initial_soc scenario) 0.5) = Ok (scenario_output r) /\
  scenario_battery_capacity r =
    dict_get (Scenario.battery_capacity scenario) (battery_capacity self) /\
  scenario_max_contract r =
    dict_get (Scenario.max_contract scenario) (max_contract self).

(* ================================================================== *)
(** ** Concrete data for the examples                                  *)
(* ================================================================== *)

(** The optimizer built from the default settings. *)
Definition default_optimizer : TOUOptimizer :=
  TOUOptimizer_init Settings.default.

(** A solver run that reports Optimal with the schedule that serves
    the load of 100 kW from 50 kW of grid power and 50 kW of solar
    power and leaves the battery idle at half charge. *)
Definition idle_battery_run (_ : LpProblem) : LpSolution :=
  {| sol_status := LpStatusOptimal;
     varValue := fun v =>
       match v with
       | grid_buy _ => Some 50
       | solar_used _ => Some 50
       | soc _ => Some 50
       | _ => Some 0
       end |}.

(** A solver run that finds the problem infeasible. *)
Definition infeasible_run (_ : LpProblem) : LpSolution :=
  {| sol_status := LpStatusInfeasible; varValue := fun _ => None |}.

Definition empty_frame : DataFrame :=
  {| has_predicted_load_mw := true;
     has_predicted_solar_mw := true;
     has_predicted_wind_mw := true;
     has_tariff := true;
     rows := [] |}.

(** One hour of a system-scale forecast: 30 GW of load. *)
Definition one_hour_frame : DataFrame :=
  {| has_predicted_load_mw := true;
     has_predicted_solar_mw := true;
     has_predicted_wind_mw := true;
     has_tariff := true;
     rows := [ {| predicted_load_mw := 30000;
                  predicted_solar_mw := 5000;
                  predicted_wind_mw := 1000;
                  tariff := 5 |} ] |}.

(** A scenario that only overrides the battery capacity. *)
Definition bigger_battery : Scenario.t :=
  {| Scenario.name := None;
     Scenario.battery_capacity := Some 200;
     Scenario.max_contract := None;
     Scenario.initial_soc := None |}.

(** A scenario without a battery. *)
Definition no_battery : Scenario.t :=
  {| Scenario.name := Some "no battery"%string;
     Scenario.battery_capacity := Some 0;
     Scenario.max_contract := None;
     Scenario.initial_soc := None |}.

(** A scenario that only overrides the contract capacity. *)
Definition smaller_contract : Scenario.t :=
  {| Scenario.name := Some "small contract"%string;
     Scenario.battery_capacity := None;
     Scenario.max_contract := Some 300;
     Scenario.initial_soc := Some 0.2 |}.

(* ================================================================== *)
(** ** The optimization service
       ([backend/app/services/optimization_service.py])                *)
(* ================================================================== *)

Module OptimizationService.
(** The service object: its [optimizer] attribute is [None] until
    [initialize] has run. *)
Record t : Type := { optimizer : option TOUOptimizer }.
End OptimizationService.

Section Service.

Variable settings : Settings.t.
Variable PULP_AVAILABLE : bool.
Variable solve : LpProblem -> LpSolution.

(** [initialize]: creates the optimizer on first use. *)
Definition initialize (self : OptimizationService.t) : OptimizationService.t :=
  match OptimizationService.optimizer self with
  | None => {| OptimizationService.optimizer := Some (TOUOptimizer_init settings) |}
  | Some _ => self
  end.

(** [self.optimizer] once [initialize] has run (the default is never
    used: [initialize] leaves the attribute set). *)
Definition service_optimizer (self : OptimizationService.t) : TOUOptimizer :=
  match OptimizationService.optimizer self with
  | Some o => o
  | None => TOUOptimizer_init settings
  end.

(** [if v is not None: self.optimizer.<attr> = v]. *)
Definition override_with (set : TOUOptimizer -> Q -> TOUOptimizer)
    (v : option Q) (o : TOUOptimizer) : TOUOptimizer :=
  match v with
  | Some x => set o x
  | None => o
  end.

(** [if v is not None: self.optimizer.<attr> = original], where
    [original] was read before the override. *)
Definition restore_with (set : TOUOptimizer -> Q -> TOUOptimizer)
    (v : option Q) (original : Q) (o : TOUOptimizer) : TOUOptimizer :=
  match v with
  | Some _ => set o original
  | None => o
  end.

(** [OptimizationService.optimize]: the service after the call and the
    outcome.  An exception of [optimize_schedule] leaves the method
    before the restoring statements. *)
Definition service_optimize (self : OptimizationService.t)
    (forecast_df : DataFrame) (initial_soc : Q)
    (battery_capacity_kwh max_contract_kw : option Q)
  : OptimizationService.t * result ScheduleOutput :=
  let self := initialize self in
  let o := service_optimizer self in
  let original_capacity := battery_capacity o in
  let o := override_with set_battery_capacity battery_capacity_kwh o in
  let original_contract := max_contract o in
  let o := override_with set_max_contract max_contract_kw o in
  match optimize_schedule settings PULP_AVAILABLE solve o forecast_df
          initial_soc with
  | Raise e => ({| OptimizationService.optimizer := Some o |}, Raise e)
  | Ok opt_result =>
      let o := restore_with set_battery_capacity battery_capacity_kwh
                 original_capacity o in
      let o := restore_with set_max_contract max_contract_kw
                 original_contract o in
      ({| OptimizationService.optimizer := Some o |}, Ok opt_result)
  end.

End Service.

(* ================================================================== *)
(** ** Time-of-use tariffs                                             *)
(* ================================================================== *)

Module TariffSettings.
(** The tariff fields of [Settings]: the two rates the optimizer reads
    are those of [optimizer_settings]; the four others are added
    here. *)
Record t : Type := {
  optimizer_settings : Settings.t;
  summer_half_peak_rate : Q;
  non_summer_peak_rate : Q;
  non_summer_half_peak_rate : Q;
  non_summer_off_peak_rate : Q
}.

Definition summer_peak_rate (s : t) : Q :=
  Settings.summer_peak_rate (optimizer_settings s).

Definition summer_off_peak_rate (s : t) : Q :=
  Settings.summer_off_peak_rate (optimizer_settings s).

Definition default : t := {|
  optimizer_settings := Settings.default;
  summer_half_peak_rate := 5.80;
  non_summer_peak_rate := 9.10;
  non_summer_half_peak_rate := 5.54;
  non_summer_off_peak_rate := 2.18
|}.
End TariffSettings.

(** The fields of a [datetime] that the tariff functions read. *)
Record datetime : Type := { dt_month : Z; dt_hour : Z }.


(** [a <= x < b] on integers. *)
Definition in_hours (a b x : Z) : bool := (Z.leb a x && Z.ltb x b)%bool.

(** [TOU_PERIODS] of [settings.py]: per season and period, the list of
    hour ranges [(start, end)]. *)
Definition TOU_PERIODS : list (string * list (string * list (Z * Z))) :=
  [ ("summer"%string,
     [ ("peak"%string, [(10, 12); (13, 17)]%Z);
       ("half_peak"%string, [(7, 10); (12, 13); (17, 23)]%Z);
       ("off_peak"%string, [(0, 7); (23, 24)]%Z) ]);
    ("non_summer"%string,
     [ ("peak"%string, [(10, 12); (13, 17)]%Z);
       ("half_peak"%string, [(7, 10); (12, 13); (17, 23)]%Z);
       ("off_peak"%string, [(0, 7); (23, 24)]%Z) ]) ].

(** [d[key]] on a dictionary with string keys, [None] for a missing
    key. *)
Fixpoint dict_lookup {A : Type} (d : list (string * A)) (key : string)
  : option A :=
  match d with
  | [] => None
  | (k, v) :: d' => if String.eqb k key then Some v else dict_lookup d' key
  end.

(** An hour lies in one of the ranges [(start, end)], end excluded. *)
Definition in_ranges (ranges : list (Z * Z)) (h : Z) : bool :=
  existsb (fun r => in_hours (fst r) (snd r) h) ranges.

Module Helpers.
(** [is_peak_hour(hour)] and [is_summer_season(month)] of
    [utils/helpers.py], for a given argument. *)
Definition is_peak_hour (hour : Z) : bool :=
  (in_hours 10 12 hour || in_hours 13 17 hour)%bool.

Definition is_summer_season (month : Z) : bool :=
  (Z.leb 6 month && Z.leb month 9)%bool.
End Helpers.

Module TaiwanPowerAPI.
Section WithSettings.
Variable settings : TariffSettings.t.

(** [get_tou_tariff] of [data/taiwan_power_api.py]. *)
Definition get_tou_tariff (timestamp : datetime) : Q :=
  let month := dt_month timestamp in
  let hour := dt_hour timestamp in
  let is_summer := (Z.leb 6 month && Z.leb month 9)%bool in
  if is_summer then
    if (in_hours 10 12 hour || in_hours 13 17 hour)%bool then
      TariffSettings.summer_peak_rate settings
    else if (in_hours 7 10 hour || in_hours 12 13 hour
             || in_hours 17 23 hour)%bool then
      TariffSettings.summer_half_peak_rate settings
    else TariffSettings.summer_off_peak_rate settings
  else
    if (in_hours 10 12 hour || in_hours 13 17 hour)%bool then
      TariffSettings.non_summer_peak_rate settings
    else if (in_hours 7 10 hour || in_hours 12 13 hour
             || in_hours 17 23 hour)%bool then
      TariffSettings.non_summer_half_peak_rate settings
    else TariffSettings.non_summer_off_peak_rate settings.

(** [get_tou_period]. *)
Definition get_tou_period (timestamp : datetime) : string :=
  let hour := dt_hour timestamp in
  if (in_hours 10 12 hour || in_hours 13 17 hour)%bool then "peak"
  else if (in_hours 7 10 hour || in_hours 12 13 hour
           || in_hours 17 23 hour)%bool then "half_peak"
  else "off_peak".



End WithSettings.
End TaiwanPowerAPI.

Module EtlPipeline.
Section WithSettings.
Variable settings : TariffSettings.t.

(** The nested functions of [_add_tou_features] in
    [data/etl_pipeline.py], on the columns of one row:
    [is_summer] is [month.isin([6, 7, 8, 9]).astype(int)]. *)
Definition is_summer (month : Z) : Z :=
  if existsb (Z.eqb month) [6; 7; 8; 9]%Z then 1%Z else 0%Z.

Definition get_tou_period (hour : Z) : string :=
  if (in_hours 10 12 hour || in_hours 13 17 hour)%bool then "peak"
  else if (in_hours 7 10 hour || in_hours 12 13 hour
           || in_hours 17 23 hour)%bool then "half_peak"
  else "off_peak".

Definition get_tariff (is_summer : Z) (tou : string) : Q :=
  if negb (Z.eqb is_summer 0) then
    if String.eqb tou "peak" then TariffSettings.summer_peak_rate settings
    else if String.eqb tou "half_peak" then
      TariffSettings.summer_half_peak_rate settings
    else TariffSettings.summer_off_peak_rate settings
  else
    if String.eqb tou "peak" then TariffSettings.non_summer_peak_rate settings
    else if String.eqb tou "half_peak" then
      TariffSettings.non_summer_half_peak_rate settings
    else TariffSettings.non_summer_off_peak_rate settings.

End WithSettings.
End EtlPipeline.

(* ================================================================== *)
(** ** Further vocabulary                                              *)
(* ================================================================== *)

(** The number of the rule that emits an entry, as numbered in the
    comments of [_generate_recommendations]; 0 for the two fixed
    entries. *)
Definition rule_number (r : recommendation) : nat :=
  match r with
  | PeakGridReduced _ _ _ => 1
  | BatteryDischarged _ => 2
  | SolarUtilization _ _ => 3
  | PeakShaved _ => 4
  | OffPeakCharging _ _ _ => 5
  | NothingSpecial => 0
  | InstallStorage => 0
  end.

(** Every element of a series is at least 0. *)
Definition nonnegative (xs : list Q) : Prop := Forall (fun x => 0 <= x) xs.

(** The name [simulate_scenarios] gives the result of scenario [i]. *)
Definition scenario_label (i : nat) (scenario : Scenario.t) : string :=
  dict_get (Scenario.name scenario)
    ("Scenario_" ++ string_of_nat (i + 1))%string.

(** A computation raises no other exception than those in [allowed]. *)
Definition raises_only {A : Type} (allowed : list exn) (m : result A) : Prop :=
  forall e, m = Raise e -> In e allowed.

(** The names of the results for the scenarios from position [i] on,
    as [enumerate] numbers them. *)
Fixpoint scenario_labels (i : nat) (scenarios : list Scenario.t)
  : list string :=
  match scenarios with
  | [] => []
  | scenario :: rest => scenario_label i scenario :: scenario_labels (S i) rest
  end.

(** The scenario that carries the overrides of one call of the
    service. *)
Definition request_scenario (initial_soc : Q)
    (battery_capacity_kwh max_contract_kw : option Q) : Scenario.t :=
  {| Scenario.name := None;
     Scenario.battery_capacity := battery_capacity_kwh;
     Scenario.max_contract := max_contract_kw;
     Scenario.initial_soc := Some initial_soc |}.





(** A solver run that reports Optimal and gives no variable a value. *)
Definition valueless_run (_ : LpProblem) : LpSolution :=
  {| sol_status := LpStatusOptimal; varValue := fun _ => None |}.

(* ================================================================== *)
(** ** Basic facts about the error monad, numbers and sequences        *)
(* ================================================================== *)

Lemma bind_Ok_inv {A B : Type} (m : result A) (k : A -> result B) (b : B) :
  bind m k = Ok b -> exists a, m = Ok a /\ k a = Ok b.
Proof.
  destruct m as [a|e]; simpl; intros H; [exists a; auto | discriminate].
Qed.

(** Inverts every successful [bind] among the hypotheses. *)
Ltac inv_bind :=
  repeat match goal with
         | H : bind _ _ = Ok _ |- _ =>
             let a := fresh "v" in
             let Ha := fresh "Hv" in
             apply bind_Ok_inv in H; destruct H as [a [Ha H]];
             cbv beta zeta in H
         | H : Ok _ = Ok _ |- _ => injection H as H
         | H : Raise _ = Ok _ |- _ => discriminate H
         end.

Lemma Qlt_bool_iff (a b : Q) : Qlt_bool a b = true <-> a < b.
Proof.
  unfold Qlt_bool. rewrite negb_true_iff. split.
  - intros H. apply Qnot_le_lt. intros Hle.
    apply Qle_bool_iff in Hle. congruence.
  - intros H. destruct (Qle_bool b a) eqn:E; [|reflexivity].
    apply Qle_bool_iff in E. exfalso. exact (Qlt_not_le _ _ H E).
Qed.

Lemma Qlt_bool_false_iff (a b : Q) : Qlt_bool a b = false <-> b <= a.
Proof.
  unfold Qlt_bool. rewrite negb_false_iff. apply Qle_bool_iff.
Qed.

(* ================================================================== *)
(** ** Rounding to the nearest double                                  *)
(* ================================================================== *)







































(* ================================================================== *)
(** ** Division, indexing and comprehensions                           *)
(* ================================================================== *)

Lemma checked_div_Ok (a b : Q) : ~ b == 0 -> checked_div a b = Ok (a / b).
Proof.
  intros H. unfold checked_div.
  destruct (Qeq_bool b 0) eqn:E; [|reflexivity].
  apply Qeq_bool_iff in E. contradiction.
Qed.

Lemma checked_div_pos (a b : Q) : 0 < b -> checked_div a b = Ok (a / b).
Proof.
  intros H. apply checked_div_Ok. intros E. rewrite E in H.
  exact (Qlt_irrefl _ H).
Qed.

Lemma getitem_Ok (xs : list Q) (i : nat) :
  (i < length xs)%nat -> getitem xs i = Ok (nth i xs 0).
Proof.
  intros H. unfold getitem.
  rewrite (nth_error_nth' xs 0 H). reflexivity.
Qed.

Lemma getitem_Ok_inv (xs : list Q) (i : nat) (x : Q) :
  getitem xs i = Ok x -> (i < length xs)%nat /\ x = nth i xs 0.
Proof.
  unfold getitem. destruct (nth_error xs i) as [y|] eqn:E; [|discriminate].
  intros H. injection H as <-. split.
  - apply nth_error_Some. congruence.
  - symmetry. apply nth_error_nth with (1 := E).
Qed.

Lemma getitem_Raise (xs : list Q) (i : nat) :
  (length xs <= i)%nat -> getitem xs i = Raise IndexError.
Proof.
  intros H. unfold getitem.
  rewrite (proj2 (nth_error_None xs i) H). reflexivity.
Qed.

Lemma mapM_Ok_map {A B : Type} (f : A -> result B) (g : A -> B) (xs : list A) :
  (forall x, In x xs -> f x = Ok (g x)) -> mapM f xs = Ok (map g xs).
Proof.
  induction xs as [|x xs IH]; intros H; simpl.
  - reflexivity.
  - rewrite (H x (or_introl eq_refl)). simpl.
    rewrite IH by (intros y Hy; apply H; right; exact Hy).
    reflexivity.
Qed.

Lemma mapM_Ok_inv {A B : Type} (f : A -> result B) (xs : list A) (ys : list B) :
  mapM f xs = Ok ys ->
  length ys = length xs /\ forall x, In x xs -> exists y, f x = Ok y.
Proof.
  revert ys. induction xs as [|x xs IH]; simpl; intros ys H.
  - injection H as <-. split; [reflexivity | intros ? []].
  - inv_bind. subst ys. destruct (IH _ Hv0) as [Hlen Hall]. split.
    + simpl. now rewrite Hlen.
    + intros y [<-|Hy]; [eauto | auto].
Qed.


Lemma in_range (n t : nat) : In t (range n) <-> (t < n)%nat.
Proof.
  unfold range. rewrite in_seq. lia.
Qed.

Lemma length_range (n : nat) : length (range n) = n.
Proof. apply length_seq. Qed.

Lemma length_zip_with (f : Q -> Q -> Q) (xs ys : list Q) :
  length (zip_with f xs ys) = Nat.min (length xs) (length ys).
Proof.
  revert ys. induction xs as [|x xs IH]; intros [|y ys]; simpl; auto.
Qed.

Lemma np_broadcast_same_length (f : Q -> Q -> Q) (xs ys : list Q) :
  length xs = length ys -> np_broadcast f xs ys = Ok (zip_with f xs ys).
Proof.
  intros H. unfold np_broadcast. rewrite H, Nat.eqb_refl. reflexivity.
Qed.

Lemma py_max_nonempty (xs : list Q) : xs <> [] -> exists m, py_max xs = Ok m.
Proof.
  destruct xs as [|x xs]; [congruence | simpl; eauto].
Qed.

Lemma py_max_not_zero_division (xs : list Q) :
  py_max xs <> Raise ZeroDivisionError.
Proof.
  destruct xs; simpl; discriminate.
Qed.

(* ================================================================== *)
(** ** [_baseline_result]                                              *)
(* ================================================================== *)

Section BaselineFacts.

Variables load solar wind tariffs : list Q.

Lemma baseline_result_shape (r : OptimizationResult) :
  _baseline_result load solar wind tariffs = Ok r ->
  status r = "Baseline"%string /\
  total_cost r = baseline_cost r /\
  savings r = 0 /\
  savings_percent r = 0 /\
  peak_reduction r = 0 /\
  battery_schedule r = repeat 0 (length load) /\
  recommendations r = [InstallStorage].
Proof.
  unfold _baseline_result. intros H. cbv zeta in H. inv_bind. subst r.
  simpl. repeat split; reflexivity.
Qed.

Lemma baseline_result_same_length :
  same_length load solar wind tariffs ->
  _baseline_result load solar wind tariffs =
  Ok {| status := "Baseline";
        total_cost :=
          py_sum (map (fun t => nth t (fallback_net_load load solar wind) 0 * nth t tariffs 0)
                    (range (length load)));
        baseline_cost :=
          py_sum (map (fun t => nth t (fallback_net_load load solar wind) 0 * nth t tariffs 0)
                    (range (length load)));
        savings := 0;
        savings_percent := 0;
        battery_schedule := repeat 0 (length load);
        grid_consumption := fallback_net_load load solar wind;
        solar_utilization := zip_with py_min2 solar load;
        peak_reduction := 0;
        recommendations := [InstallStorage] |}.
Proof.
  intros (Hs & Hw & Ht).
  assert (Hd : length (zip_with Qminus load solar) = length load)
    by (rewrite length_zip_with, Hs; apply Nat.min_id).
  assert (Hn : length (fallback_net_load load solar wind) = length load).
  { unfold fallback_net_load, np_maximum_scalar.
    rewrite length_map, length_zip_with, Hd, Hw. apply Nat.min_id. }
  unfold _baseline_result, np_subtract, np_minimum.
  rewrite (np_broadcast_same_length Qminus load solar) by congruence.
  simpl bind.
  rewrite (np_broadcast_same_length Qminus _ wind) by congruence.
  simpl bind. fold (fallback_net_load load solar wind).
  rewrite (mapM_Ok_map _ (fun t => nth t (fallback_net_load load solar wind) 0 * nth t tariffs 0)).
  - simpl bind.
    rewrite (np_broadcast_same_length py_min2 solar load) by congruence.
    reflexivity.
  - intros t Ht'. apply in_range in Ht'.
    rewrite (getitem_Ok (fallback_net_load load solar wind) t) by lia. simpl.
    rewrite (getitem_Ok tariffs t) by lia. reflexivity.
Qed.

End BaselineFacts.

(* ================================================================== *)
(** ** [optimize]                                                      *)
(* ================================================================== *)

Lemma mapM_total {A B : Type} (f : A -> result B) (xs : list A) :
  (forall x, In x xs -> exists y, f x = Ok y) ->
  exists ys, mapM f xs = Ok ys.
Proof.
  induction xs as [|x xs IH]; intros H; simpl.
  - eauto.
  - destruct (H x (or_introl eq_refl)) as [y ->].
    destruct IH as [ys ->]; [intros z Hz; apply H; right; exact Hz|].
    simpl. eauto.
Qed.

(** Discharges the next comprehension of a goal about a monadic
    computation, when each of its elements evaluates. *)
Ltac step_mapM tac :=
  match goal with
  | |- context [mapM ?f ?xs] =>
      let ys := fresh "ys" in
      let E := fresh "E" in
      destruct (mapM_total f xs) as [ys E];
      [ let t := fresh "t" in
        let Ht := fresh "Ht" in
        intros t Ht; apply in_range in Ht; tac
      | rewrite E; clear E; simpl bind ]
  end.

Lemma build_problem_same_length (settings : Settings.t) (self : TOUOptimizer)
    (load solar wind tariffs : list Q) (initial_soc : Q) :
  same_length load solar wind tariffs ->
  exists prob,
    build_problem settings self load solar wind tariffs initial_soc = Ok prob.
Proof.
  intros (Hs & Hw & Ht). unfold build_problem. cbv zeta.
  step_mapM ltac:(rewrite getitem_Ok by lia; simpl; eauto).
  step_mapM ltac:(rewrite getitem_Ok by lia; simpl; eauto).
  step_mapM ltac:(rewrite getitem_Ok by lia; simpl; eauto).
  step_mapM ltac:(rewrite getitem_Ok by lia; simpl; eauto).
  step_mapM ltac:(rewrite getitem_Ok by lia; simpl;
                  rewrite getitem_Ok by lia; simpl; eauto).
  step_mapM ltac:(rewrite getitem_Ok by lia; simpl;
                  match goal with
                  | |- context [if ?b then _ else _] => destruct b
                  end; eauto).
  eauto.
Qed.

Section OptimizeFacts.

Variable settings : Settings.t.
Variable PULP_AVAILABLE : bool.
Variable solve : LpProblem -> LpSolution.
Variable self : TOUOptimizer.
Variables load solar wind tariffs : list Q.
Variable initial_soc : Q.

(** What a returned result tells about the path taken: either it is
    the result of the fallback, or the solver reported Optimal and the
    fields are those computed from its solution. *)
Lemma optimize_Ok_inv (r : OptimizationResult) :
  optimize settings PULP_AVAILABLE solve self load solar wind tariffs
    initial_soc = Ok r ->
  _baseline_result load solar wind tariffs = Ok r \/
  (PULP_AVAILABLE = true /\
   status r = "Optimal"%string /\
   exists prob baseline_peak optimized_peak,
     build_problem settings self load solar wind tariffs initial_soc = Ok prob /\
     sol_status (solve prob) = LpStatusOptimal /\
     objective_value (varValue (solve prob)) (lp_objective prob)
       = Some (total_cost r) /\
     load_cost load tariffs = Ok (baseline_cost r) /\
     savings r = baseline_cost r - total_cost r /\
     savings_percent_of (savings r) (baseline_cost r)
       = Ok (savings_percent r) /\
     py_max load = Ok baseline_peak /\
     py_max (grid_consumption r) = Ok optimized_peak /\
     peak_reduction_of baseline_peak optimized_peak = Ok (peak_reduction r) /\
     _generate_recommendations settings load solar (grid_consumption r)
       (battery_schedule r) tariffs (peak_reduction r)
       = Ok (recommendations r)).
Proof.
  unfold optimize. destruct PULP_AVAILABLE; cbn [negb]; [|now left].
  intros H. inv_bind.
  destruct (sol_status (solve v)) eqn:Es; cbn in H; try (now left).
  right. inv_bind.
  destruct (objective_value (varValue (solve v)) (lp_objective v)) as [c|] eqn:Ev;
    [|discriminate].
  inv_bind. subst r. cbn.
  split; [reflexivity|]. split; [reflexivity|].
  exists v, v4, v5. repeat split; try assumption; reflexivity.
Qed.

End OptimizeFacts.

(* ================================================================== *)
(** ** [_generate_recommendations]                                     *)
(* ================================================================== *)

Lemma indices_where_from_bound (p : Q -> bool) (xs : list Q) (i h : nat) :
  In h (indices_where_from p i xs) -> (i <= h < i + length xs)%nat.
Proof.
  revert i. induction xs as [|x xs IH]; simpl; intros i Hin; [contradiction|].
  destruct (p x).
  - destruct Hin as [<-|Hin]; [lia | apply IH in Hin; lia].
  - apply IH in Hin. lia.
Qed.

Lemma indices_where_bound (p : Q -> bool) (xs : list Q) (h : nat) :
  In h (indices_where p xs) -> (h < length xs)%nat.
Proof.
  intros H. apply indices_where_from_bound in H. lia.
Qed.

Lemma or_default_nonempty (recs : list recommendation) :
  (1 <= length (or_default recs))%nat.
Proof.
  destruct recs; simpl; lia.
Qed.


Lemma filter_or_default (P : recommendation -> bool) (recs : list recommendation) :
  P NothingSpecial = false ->
  filter P (or_default recs) = filter P recs.
Proof.
  intros H. destruct recs; simpl; [now rewrite H | reflexivity].
Qed.

Lemma in_or_default (r : recommendation) (recs : list recommendation) :
  r <> NothingSpecial -> In r (or_default recs) -> In r recs.
Proof.
  intros Hr. destruct recs; simpl; [|auto].
  intros [E|[]]. congruence.
Qed.

Section RecommendationFacts.

Variable settings : Settings.t.
Variables load solar grid battery tariffs : list Q.
Variable peak_reduction : Q.

(** Rule 3 never fails: the division is under the guard
    [solar_available > 0]. *)
Lemma rule_solar_eq :
  rule_solar load solar =
  Ok (if Qlt_bool 0 (solar_available_total solar) then
        [SolarUtilization
           (solar_utilization_percent solar load)
           (Qlt_bool (solar_utilization_percent solar load) 80)]
      else []).
Proof.
  unfold rule_solar, solar_utilization_percent, solar_used_total,
    solar_used_terms, solar_available_total, Double.div.
  cbv zeta.
  destruct (Qlt_bool 0 (Double.sum (map Double.round solar))) eqn:E;
    [|reflexivity].
  apply Qlt_bool_iff in E. rewrite checked_div_pos by exact E. reflexivity.
Qed.

(** Rule 1 on series that cover the tariff hours. *)
Lemma rule_peak_period_eq :
  (length tariffs <= length load)%nat ->
  (length tariffs <= length grid)%nat ->
  rule_peak_period settings load grid tariffs =
  Ok (match peak_hours_of settings tariffs with
      | [] => []
      | _ :: _ =>
          if Qlt_bool (peak_sum settings tariffs grid)
                      (Double.mul (peak_sum settings tariffs load)
                         (Double.round 0.8))
          then [PeakGridReduced
                  (hd O (peak_hours_of settings tariffs))
                  (last (peak_hours_of settings tariffs) O + 1)
                  (option_map (fun q => Double.mul (Double.round q) 100)
                     (np_divide (Double.sub (peak_sum settings tariffs load)
                                   (peak_sum settings tariffs grid))
                                (peak_sum settings tariffs load)))]
          else []
      end).
Proof.
  intros Hl Hg. unfold rule_peak_period, peak_sum, peak_values. cbv zeta.
  assert (Hb : forall h, In h (peak_hours_of settings tariffs) ->
                         (h < length tariffs)%nat)
    by (intros h; apply indices_where_bound).
  revert Hb. generalize (peak_hours_of settings tariffs) as ph.
  intros ph Hb. destruct ph as [|h0 ph]; [reflexivity|].
  rewrite (mapM_Ok_map (getitem load) (fun h => nth h load 0) (h0 :: ph))
    by (intros h Hh; apply getitem_Ok; specialize (Hb h Hh); lia).
  cbn [bind].
  rewrite (mapM_Ok_map (getitem grid) (fun h => nth h grid 0) (h0 :: ph))
    by (intros h Hh; apply getitem_Ok; specialize (Hb h Hh); lia).
  cbn [bind].
  match goal with |- context [if ?b then _ else _] => destruct b end;
    reflexivity.
Qed.

(** Whatever the lengths, rule 1 yields nothing or one peak
    observation. *)
Lemma rule_peak_period_shape (r1 : list recommendation) :
  rule_peak_period settings load grid tariffs = Ok r1 ->
  r1 = [] \/ exists a b c, r1 = [PeakGridReduced a b c].
Proof.
  unfold rule_peak_period. cbv zeta.
  destruct (peak_hours_of settings tariffs) as [|h0 ph].
  - intros H. injection H as <-. now left.
  - intros H. inv_bind.
    match type of H with
    | (if ?b then _ else _) = _ => destruct b
    end; injection H as <-; [right; eauto | now left].
Qed.

Lemma generate_recommendations_Ok_inv (recs : list recommendation) :
  _generate_recommendations settings load solar grid battery tariffs
    peak_reduction = Ok recs ->
  exists r1 r3,
    rule_peak_period settings load grid tariffs = Ok r1 /\
    rule_solar load solar = Ok r3 /\
    recs = or_default
             (r1 ++ rule_battery battery ++ r3
              ++ rule_peak_shaving peak_reduction
              ++ rule_off_peak settings battery tariffs).
Proof.
  unfold _generate_recommendations. intros H. inv_bind.
  exists v, v0. repeat split; try assumption. now subst recs.
Qed.

Lemma generate_recommendations_total :
  (length tariffs <= length load)%nat ->
  (length tariffs <= length grid)%nat ->
  exists recs,
    _generate_recommendations settings load solar grid battery tariffs
      peak_reduction = Ok recs.
Proof.
  intros Hl Hg. unfold _generate_recommendations.
  rewrite (rule_peak_period_eq Hl Hg). simpl bind.
  rewrite rule_solar_eq. simpl bind. eauto.
Qed.

Lemma generate_recommendations_nonempty (recs : list recommendation) :
  _generate_recommendations settings load solar grid battery tariffs
    peak_reduction = Ok recs ->
  (1 <= length recs)%nat.
Proof.
  intros H. apply generate_recommendations_Ok_inv in H.
  destruct H as (r1 & r3 & _ & _ & ->). apply or_default_nonempty.
Qed.

(** The rules other than rule 1 emit no peak observation, and the
    rules other than rule 3 no solar observation. *)
Lemma rule_battery_kind (r : recommendation) :
  In r (rule_battery battery) -> exists k, r = BatteryDischarged k.
Proof.
  unfold rule_battery. cbv zeta.
  match goal with |- context [if ?b then _ else _] => destruct b end;
    simpl; [intros [<-|[]]; eauto | intros []].
Qed.

Lemma rule_peak_shaving_kind (r : recommendation) :
  In r (rule_peak_shaving peak_reduction) -> r = PeakShaved peak_reduction.
Proof.
  unfold rule_peak_shaving.
  destruct (Qlt_bool 5 peak_reduction); simpl;
    [intros [<-|[]]; reflexivity | intros []].
Qed.

Lemma rule_off_peak_kind (r : recommendation) :
  In r (rule_off_peak settings battery tariffs) ->
  exists a b k, r = OffPeakCharging a b k.
Proof.
  unfold rule_off_peak. cbv zeta.
  destruct (off_peak_hours_of settings tariffs); simpl; [intros []|].
  match goal with |- context [if ?b then _ else _] => destruct b end;
    simpl; [intros [<-|[]]; eauto | intros []].
Qed.

End RecommendationFacts.

(* ================================================================== *)
(** ** The solved path returns                                         *)
(* ================================================================== *)

Lemma savings_percent_of_total (savings baseline_cost : Q) :
  exists q,
    savings_percent_of savings baseline_cost = Ok q /\
    (baseline_cost <= 0 -> q = 0).
Proof.
  unfold savings_percent_of.
  destruct (Qlt_bool 0 baseline_cost) eqn:E.
  - apply Qlt_bool_iff in E. rewrite checked_div_pos by exact E.
    cbn [bind]. eexists. split; [reflexivity|].
    intros Hle. exfalso. exact (Qlt_not_le _ _ E Hle).
  - exists 0. split; reflexivity.
Qed.

Lemma peak_reduction_of_total (baseline_peak optimized_peak : Q) :
  exists q,
    peak_reduction_of baseline_peak optimized_peak = Ok q /\
    (baseline_peak <= 0 -> q = 0).
Proof.
  unfold peak_reduction_of.
  destruct (Qlt_bool 0 baseline_peak) eqn:E.
  - apply Qlt_bool_iff in E. rewrite checked_div_pos by exact E.
    cbn [bind]. eexists. split; [reflexivity|].
    intros Hle. exfalso. exact (Qlt_not_le _ _ E Hle).
  - exists 0. split; reflexivity.
Qed.

Lemma pulp_value_total (values : LpVar -> option Q) (e : LpAffineExpression) :
  (forall v, values v <> None) -> exists c, pulp_value values e = Some c.
Proof.
  intros Hall. unfold pulp_value.
  generalize (aff_constant e) as c0.
  induction (aff_terms e) as [|vx terms IH]; intros c0; simpl.
  - eauto.
  - destruct (values (fst vx)) as [x|] eqn:E; [apply IH|].
    exfalso. exact (Hall _ E).
Qed.

Lemma aff_terms_fold_add (es : list LpAffineExpression)
    (e0 : LpAffineExpression) :
  aff_terms (fold_left aff_add es e0)
  = aff_terms e0 ++ concat (map aff_terms es).
Proof.
  revert e0. induction es as [|e es IH]; intros e0; cbn [fold_left map concat].
  - symmetry. apply app_nil_r.
  - rewrite IH. cbn [aff_add aff_terms]. symmetry. apply app_assoc.
Qed.

(** The objective of a problem with at least one hour has terms. *)
Lemma build_problem_objective_terms (settings : Settings.t)
    (self : TOUOptimizer) (load solar wind tariffs : list Q)
    (initial_soc : Q) (prob : LpProblem) :
  build_problem settings self load solar wind tariffs initial_soc = Ok prob ->
  load <> [] ->
  aff_terms (lp_objective prob) <> [].
Proof.
  intros E Hne. unfold build_problem in E. cbv zeta in E. inv_bind.
  subst prob. cbn [lp_objective].
  destruct load as [|l load']; [congruence|].
  cbn [length range seq mapM] in Hv1. unfold range in Hv1.
  cbn [seq mapM] in Hv1. inv_bind. subst v1.
  unfold lpSum. cbn [fold_left]. rewrite aff_terms_fold_add.
  match goal with
  | Hterm : aff_sub _ _ = ?e |- context [aff_add (aff_const 0) ?e] =>
      rewrite <- Hterm
  end.
  cbn. discriminate.
Qed.

Lemma objective_value_terms (values : LpVar -> option Q)
    (objective : LpAffineExpression) :
  aff_terms objective <> [] ->
  objective_value values objective = pulp_value values objective.
Proof.
  intros H. unfold objective_value.
  destruct (aff_terms objective); [congruence | reflexivity].
Qed.

Lemma objective_value_None (values : LpVar -> option Q)
    (objective : LpAffineExpression) :
  objective_value values objective = None <->
  aff_terms objective = [] \/ pulp_value values objective = None.
Proof.
  unfold objective_value. destruct (aff_terms objective) eqn:E.
  - split; [now left | reflexivity].
  - split; [now right | intros [H|H]; [discriminate H | exact H]].
Qed.

Lemma load_cost_total (load tariffs : list Q) :
  (length load <= length tariffs)%nat ->
  exists c, load_cost load tariffs = Ok c.
Proof.
  intros H. unfold load_cost.
  step_mapM ltac:(rewrite getitem_Ok by lia; cbn [bind];
                  rewrite getitem_Ok by lia; cbn [bind]; eauto).
  eauto.
Qed.

(** A run on arrays of one length returns a result as soon as there is
    at least one hour, the battery capacity is not zero and the solver
    gives every variable a value. *)
Lemma optimize_returns (settings : Settings.t) (PULP_AVAILABLE : bool)
    (solve : LpProblem -> LpSolution) (self : TOUOptimizer)
    (load solar wind tariffs : list Q) (initial_soc : Q) :
  same_length load solar wind tariffs ->
  load <> [] ->
  ~ battery_capacity self == 0 ->
  (forall prob v, varValue (solve prob) v <> None) ->
  exists r,
    optimize settings PULP_AVAILABLE solve self load solar wind tariffs
      initial_soc = Ok r.
Proof.
  intros Hsame Hne Hcap Hval.
  pose proof (baseline_result_same_length load solar wind tariffs Hsame) as Hb.
  destruct Hsame as (Hs & Hw & Ht).
  unfold optimize. destruct PULP_AVAILABLE; cbn [negb]; [|eauto].
  destruct (build_problem_same_length settings self load solar wind tariffs
              initial_soc (conj Hs (conj Hw Ht))) as [prob Hp].
  rewrite Hp. cbn [bind]. cbv zeta.
  rewrite (objective_value_terms _ _
             (build_problem_objective_terms _ _ _ _ _ _ _ _ Hp Hne)).
  destruct (sol_status (solve prob)); cbn; eauto.
  step_mapM ltac:(rewrite checked_div_Ok by exact Hcap; eauto).
  step_mapM ltac:(rewrite getitem_Ok by (rewrite length_map, length_range; lia);
                  cbn [bind];
                  rewrite getitem_Ok by (rewrite length_map, length_range; lia);
                  cbn [bind]; eauto).
  destruct (load_cost_total load tariffs) as [c ->]; [lia|]. cbn [bind].
  destruct (pulp_value_total (varValue (solve prob)) (lp_objective prob)
              (Hval prob)) as [total ->].
  destruct (savings_percent_of_total (c - total) c) as (sp & -> & _).
  cbn [bind].
  destruct (py_max_nonempty load Hne) as [bp ->]. cbn [bind].
  destruct (py_max_nonempty
              (map (fun t => or_zero (varValue (solve prob) (grid_buy t)))
                 (range (length load)))) as [op ->].
  { destruct load; [congruence | discriminate]. }
  cbn [bind].
  destruct (peak_reduction_of_total bp op) as (pr & -> & _). cbn [bind].
  destruct (generate_recommendations_total settings load solar
              (map (fun t => or_zero (varValue (solve prob) (grid_buy t)))
                 (range (length load)))
              ys0 tariffs pr) as [recs ->].
  - lia.
  - rewrite length_map, length_range. lia.
  - cbn [bind]. eauto.
Qed.

(* ================================================================== *)
(** ** Properties of [optimize] and of its results                     *)
(* ================================================================== *)

(** C7.  Every result returned by [optimize] whose status is
    "Baseline" has [savings] equal to 0, [savings_percent] equal to 0
    and [total_cost] equal to [baseline_cost]. *)
Theorem baseline_status_degenerate (settings : Settings.t)
    (PULP_AVAILABLE : bool) (solve : LpProblem -> LpSolution)
    (self : TOUOptimizer) (load solar wind tariffs : list Q)
    (initial_soc : Q) (r : OptimizationResult) :
  optimize settings PULP_AVAILABLE solve self load solar wind tariffs
    initial_soc = Ok r ->
  status r = "Baseline"%string ->
  savings r = 0 /\ savings_percent r = 0 /\ total_cost r = baseline_cost r.
Proof.
  intros H Hs.
  destruct (optimize_Ok_inv _ _ _ _ _ _ _ _ _ _ H) as [Hb|(_ & Ho & _)].
  - apply baseline_result_shape in Hb. tauto.
  - rewrite Ho in Hs. discriminate.
Qed.

Lemma baseline_status_degenerate_witness :
  exists r,
    optimize Settings.default true infeasible_run default_optimizer
      [100; 100] [50; 0] [0; 0] [2; 5] 0.5 = Ok r /\
    status r = "Baseline"%string /\
    savings r = 0 /\ savings_percent r = 0 /\ total_cost r = baseline_cost r.
Proof.
  destruct (optimize Settings.default true infeasible_run default_optimizer
              [100; 100] [50; 0] [0; 0] [2; 5] 0.5) as [r|e] eqn:E.
  - exists r. split; [reflexivity|].
    assert (Hs : status r = "Baseline"%string)
      by (vm_compute in E; injection E as <-; reflexivity).
    split; [exact Hs|].
    exact (baseline_status_degenerate _ _ _ _ _ _ _ _ _ _ E Hs).
  - vm_compute in E. discriminate E.
Defined.

(** C8.  The recommendations of a result returned by [optimize] are
    never empty; the generator returns at least one entry on series
    that cover the tariff hours (the default entry when no rule fires),
    and so does the fallback result on arrays of one length.  On such
    arrays with at least one hour, a battery capacity other than zero
    and a solver that gives every variable a value, [optimize] does
    return a result, with at least one recommendation. *)
Theorem recommendations_nonempty (settings : Settings.t)
    (PULP_AVAILABLE : bool) (solve : LpProblem -> LpSolution)
    (self : TOUOptimizer) (load solar wind tariffs : list Q)
    (initial_soc : Q) :
  (forall r,
      optimize settings PULP_AVAILABLE solve self load solar wind tariffs
        initial_soc = Ok r ->
      (1 <= length (recommendations r))%nat) /\
  (forall grid battery peak_reduction,
      (length tariffs <= length load)%nat ->
      (length tariffs <= length grid)%nat ->
      exists recs,
        _generate_recommendations settings load solar grid battery tariffs
          peak_reduction = Ok recs /\
        (1 <= length recs)%nat) /\
  (same_length load solar wind tariffs ->
   exists b,
     _baseline_result load solar wind tariffs = Ok b /\
     (1 <= length (recommendations b))%nat) /\
  (same_length load solar wind tariffs ->
   load <> [] ->
   ~ battery_capacity self == 0 ->
   (forall prob v, varValue (solve prob) v <> None) ->
   exists r,
     optimize settings PULP_AVAILABLE solve self load solar wind tariffs
       initial_soc = Ok r /\
     (1 <= length (recommendations r))%nat).
Proof.
  assert (Hret : forall r,
             optimize settings PULP_AVAILABLE solve self load solar wind
               tariffs initial_soc = Ok r ->
             (1 <= length (recommendations r))%nat).
  { intros r H.
    destruct (optimize_Ok_inv _ _ _ _ _ _ _ _ _ _ H)
      as [Hb|(_ & _ & prob & bp & op & Hrest)].
    - apply baseline_result_shape in Hb.
      destruct Hb as (_ & _ & _ & _ & _ & _ & ->). simpl. lia.
    - destruct Hrest as (_ & _ & _ & _ & _ & _ & _ & _ & _ & Hg).
      exact (generate_recommendations_nonempty _ _ _ _ _ _ _ _ Hg). }
  split; [exact Hret|].
  split; [|split].
  - intros grid battery pr Hl Hg.
    destruct (generate_recommendations_total settings load solar grid
                battery tariffs pr Hl Hg) as [recs Hr].
    exists recs. split; [exact Hr|].
    exact (generate_recommendations_nonempty _ _ _ _ _ _ _ _ Hr).
  - intros Hsame. eexists. split.
    + apply baseline_result_same_length. exact Hsame.
    + simpl. lia.
  - intros Hsame Hne Hcap Hval.
    destruct (optimize_returns settings PULP_AVAILABLE solve self load solar
                wind tariffs initial_soc Hsame Hne Hcap Hval) as [r Hr].
    exists r. split; [exact Hr | exact (Hret r Hr)].
Qed.

Lemma recommendations_nonempty_witness :
  (exists r,
      optimize Settings.default true idle_battery_run default_optimizer
        [100] [50] [0] [5] 0.5 = Ok r /\
      (1 <= length (recommendations r))%nat) /\
  (exists recs,
      _generate_recommendations Settings.default [100] [50] [100] [0] [5] 0
        = Ok recs /\
      (1 <= length recs)%nat) /\
  (exists b,
      _baseline_result [100] [50] [0] [5] = Ok b /\
      (1 <= length (recommendations b))%nat).
Proof.
  destruct (recommendations_nonempty Settings.default true idle_battery_run
              default_optimizer [100] [50] [0] [5] 0.5) as (_ & H2 & H3 & H4).
  split; [|split].
  - apply H4.
    + unfold same_length. simpl. auto.
    + discriminate.
    + vm_compute. discriminate.
    + intros prob v. destruct v; simpl; discriminate.
  - apply (H2 [100] [0] 0); simpl; lia.
  - apply H3. unfold same_length. simpl. auto.
Defined.

(** The fallback is taken, and succeeds, on arrays of one length. *)
Lemma optimize_fallback_same_length (settings : Settings.t)
    (PULP_AVAILABLE : bool) (solve : LpProblem -> LpSolution)
    (self : TOUOptimizer) (load solar wind tariffs : list Q)
    (initial_soc : Q) :
  same_length load solar wind tariffs ->
  (PULP_AVAILABLE = false \/
   forall prob,
     build_problem settings self load solar wind tariffs initial_soc
       = Ok prob ->
     sol_status (solve prob) <> LpStatusOptimal) ->
  optimize settings PULP_AVAILABLE solve self load solar wind tariffs
    initial_soc = _baseline_result load solar wind tariffs.
Proof.
  intros Hsame Hfail.
  unfold optimize. destruct PULP_AVAILABLE; cbn [negb]; [|reflexivity].
  destruct Hfail as [Hf|Hf]; [discriminate Hf|].
  destruct (build_problem_same_length settings self load solar wind tariffs
              initial_soc Hsame) as [prob Hp].
  rewrite Hp. cbn [bind]. specialize (Hf prob Hp).
  destruct (sol_status (solve prob)); cbn; try reflexivity.
  contradiction Hf. reflexivity.
Qed.

(** C3, as the code has it.  On input arrays of one length, when the
    solver backend is unavailable or the solver ends with a status
    other than Optimal, [optimize] raises nothing: it returns the
    result of [_baseline_result], whose status is "Baseline". *)
Theorem optimize_degrades_to_baseline (settings : Settings.t)
    (PULP_AVAILABLE : bool) (solve : LpProblem -> LpSolution)
    (self : TOUOptimizer) (load solar wind tariffs : list Q)
    (initial_soc : Q) :
  same_length load solar wind tariffs ->
  (PULP_AVAILABLE = false \/
   forall prob,
     build_problem settings self load solar wind tariffs initial_soc
       = Ok prob ->
     sol_status (solve prob) <> LpStatusOptimal) ->
  exists r,
    optimize settings PULP_AVAILABLE solve self load solar wind tariffs
      initial_soc = Ok r /\
    _baseline_result load solar wind tariffs = Ok r /\
    status r = "Baseline"%string.
Proof.
  intros Hsame Hfail.
  pose proof (baseline_result_same_length load solar wind tariffs Hsame) as Hb.
  eexists. split; [|split; [exact Hb | reflexivity]].
  rewrite (optimize_fallback_same_length settings PULP_AVAILABLE solve self
             load solar wind tariffs initial_soc Hsame Hfail).
  exact Hb.
Qed.

Lemma optimize_degrades_to_baseline_witness :
  exists r,
    optimize Settings.default true infeasible_run default_optimizer
      [50] [0] [0] [5] 0.5 = Ok r /\
    _baseline_result [50] [0] [0] [5] = Ok r /\
    status r = "Baseline"%string.
Proof.
  apply optimize_degrades_to_baseline.
  - unfold same_length. simpl. auto.
  - right. intros prob _. simpl. discriminate.
Defined.

(** C3 as stated fails on arrays of unequal lengths.  With a solar
    array of three entries next to a load of two hours the problem is
    built, the solver finds it infeasible, and the fallback raises the
    [ValueError] of the numpy subtraction; with a tariff array shorter
    than the load and no backend, the fallback raises [IndexError]. *)
Lemma optimize_degraded_path_raises :
  (forall prob, sol_status (infeasible_run prob) = LpStatusInfeasible) /\
  optimize Settings.default true infeasible_run default_optimizer
    [100; 100] [50; 0; 0] [0; 0] [5; 5] 0.5 = Raise ValueError /\
  optimize Settings.default false infeasible_run default_optimizer
    [100; 100] [50; 50] [0; 0] [5] 0.5 = Raise IndexError.
Proof.
  split; [|split].
  - intros prob. reflexivity.
  - vm_compute. reflexivity.
  - vm_compute. reflexivity.
Qed.

(** C10.  The derived metrics of the solved path are guarded: the two
    computations always produce a value (no zero divisor is reached),
    the value is 0 when [baseline_cost], respectively the maximum of
    [load_forecast], is not positive, and these are the values of
    [savings_percent] and [peak_reduction] in a result with status
    "Optimal". *)
Theorem derived_metrics_division_guarded :
  (forall savings baseline_cost,
      exists q,
        savings_percent_of savings baseline_cost = Ok q /\
        (baseline_cost <= 0 -> q = 0)) /\
  (forall baseline_peak optimized_peak,
      exists q,
        peak_reduction_of baseline_peak optimized_peak = Ok q /\
        (baseline_peak <= 0 -> q = 0)) /\
  (forall settings PULP_AVAILABLE solve self load solar wind tariffs
          initial_soc r,
      optimize settings PULP_AVAILABLE solve self load solar wind tariffs
        initial_soc = Ok r ->
      status r = "Optimal"%string ->
      (baseline_cost r <= 0 -> savings_percent r = 0) /\
      (forall m, py_max load = Ok m -> m <= 0 -> peak_reduction r = 0)).
Proof.
  pose proof savings_percent_of_total as Hsp.
  pose proof peak_reduction_of_total as Hpr.
  split; [exact Hsp | split; [exact Hpr|]].
  intros settings pulp solve self load solar wind tariffs soc r H Hs.
  destruct (optimize_Ok_inv _ _ _ _ _ _ _ _ _ _ H)
    as [Hb|(_ & _ & prob & bp & op & Hrest)].
  - apply baseline_result_shape in Hb.
    destruct Hb as (Hb & _). rewrite Hb in Hs. discriminate Hs.
  - destruct Hrest as (_ & _ & _ & _ & _ & Hp & Hm & _ & Hr & _). split.
    + intros Hle. destruct (Hsp (savings r) (baseline_cost r)) as (q & Hq & Hz).
      rewrite Hq in Hp. injection Hp as <-. exact (Hz Hle).
    + intros m Hm' Hle. rewrite Hm in Hm'. injection Hm' as ->.
      destruct (Hpr m op) as (q & Hq & Hz).
      rewrite Hq in Hr. injection Hr as <-. exact (Hz Hle).
Qed.

Lemma derived_metrics_division_guarded_witness :
  exists r,
    optimize Settings.default true idle_battery_run default_optimizer
      [0] [0] [0] [5] 0.5 = Ok r /\
    status r = "Optimal"%string /\
    savings_percent r = 0 /\ peak_reduction r = 0.
Proof.
  destruct derived_metrics_division_guarded as (_ & _ & H).
  destruct (optimize Settings.default true idle_battery_run default_optimizer
              [0] [0] [0] [5] 0.5) as [r|e] eqn:E.
  - exists r. split; [reflexivity|].
    assert (Hs : status r = "Optimal"%string)
      by (vm_compute in E; injection E as <-; reflexivity).
    assert (Hc : baseline_cost r <= 0)
      by (vm_compute in E; injection E as <-; vm_compute; discriminate).
    destruct (H _ _ _ _ _ _ _ _ _ r E Hs) as [H1 H2].
    split; [exact Hs|]. split; [exact (H1 Hc)|].
    apply (H2 0); [reflexivity | vm_compute; discriminate].
  - vm_compute in E. discriminate E.
Defined.

(* ================================================================== *)
(** ** The two baseline costs                                          *)
(* ================================================================== *)

Lemma fold_left_Qplus_acc (xs : list Q) (a : Q) :
  fold_left Qplus xs a == a + fold_left Qplus xs 0.
Proof.
  revert a. induction xs as [|x xs IH]; intros a; simpl.
  - ring.
  - rewrite (IH (a + x)), (IH (0 + x)). ring.
Qed.

Lemma py_sum_cons (x : Q) (xs : list Q) : py_sum (x :: xs) == x + py_sum xs.
Proof.
  unfold py_sum. simpl. rewrite fold_left_Qplus_acc. ring.
Qed.

(** On arrays of one length the cost computed by the fallback is the
    cost formula of the baseline estimator. *)
Lemma fallback_cost_is_spec_cost (load solar wind tariffs : list Q) :
  same_length load solar wind tariffs ->
  py_sum
    (map (fun t => nth t (fallback_net_load load solar wind) 0
                   * nth t tariffs 0)
       (range (length load)))
  == spec_baseline_cost load solar wind tariffs.
Proof.
  unfold same_length, range, fallback_net_load.
  revert solar wind tariffs.
  induction load as [|l load IH]; intros solar wind tariffs (Hs & Hw & Ht).
  - simpl. reflexivity.
  - destruct solar as [|s solar]; [discriminate Hs|].
    destruct wind as [|w wind]; [discriminate Hw|].
    destruct tariffs as [|p tariffs]; [discriminate Ht|].
    simpl in Hs, Hw, Ht.
    cbn [length seq map]. rewrite py_sum_cons.
    rewrite <- seq_shift, map_map.
    cbn [zip_with np_maximum_scalar map nth spec_baseline_cost].
    rewrite <- (IH solar wind tariffs) by (repeat split; congruence).
    reflexivity.
Qed.

Lemma baseline_result_cost_spec (load solar wind tariffs : list Q) :
  same_length load solar wind tariffs ->
  exists b,
    _baseline_result load solar wind tariffs = Ok b /\
    baseline_cost b == spec_baseline_cost load solar wind tariffs.
Proof.
  intros Hsame. eexists. split.
  - apply baseline_result_same_length. exact Hsame.
  - cbn [baseline_cost]. apply fallback_cost_is_spec_cost. exact Hsame.
Qed.

(** In a result with status "Optimal" the baseline cost is the sum of
    [load_forecast[t] * tariffs[t]]: solar and wind do not enter. *)
Lemma optimal_baseline_cost_is_load_cost (settings : Settings.t)
    (PULP_AVAILABLE : bool) (solve : LpProblem -> LpSolution)
    (self : TOUOptimizer) (load solar wind tariffs : list Q)
    (initial_soc : Q) (r : OptimizationResult) :
  optimize settings PULP_AVAILABLE solve self load solar wind tariffs
    initial_soc = Ok r ->
  status r = "Optimal"%string ->
  load_cost load tariffs = Ok (baseline_cost r).
Proof.
  intros H Hs.
  destruct (optimize_Ok_inv _ _ _ _ _ _ _ _ _ _ H)
    as [Hb|(_ & _ & prob & bp & op & Hrest)].
  - apply baseline_result_shape in Hb. destruct Hb as (Hb & _).
    rewrite Hb in Hs. discriminate Hs.
  - destruct Hrest as (_ & _ & _ & Hc & _). exact Hc.
Qed.

(** C1.  With 100 kW of load, 50 kW of solar power, no wind and a
    tariff of 5, a solved run of [optimize] reports a baseline cost of
    500, while the formula of the baseline estimator, and
    [_baseline_result] on the same arrays, give 250. *)
Theorem optimal_baseline_cost_differs_from_estimator :
  exists r b,
    optimize Settings.default true idle_battery_run default_optimizer
      [100] [50] [0] [5] 0.5 = Ok r /\
    status r = "Optimal"%string /\
    baseline_cost r == 500 /\
    _baseline_result [100] [50] [0] [5] = Ok b /\
    baseline_cost b == 250 /\
    spec_baseline_cost [100] [50] [0] [5] == 250 /\
    ~ baseline_cost r == spec_baseline_cost [100] [50] [0] [5].
Proof.
  destruct (optimize Settings.default true idle_battery_run default_optimizer
              [100] [50] [0] [5] 0.5) as [r|e] eqn:E;
    [|vm_compute in E; discriminate E].
  destruct (_baseline_result [100] [50] [0] [5]) as [b|e] eqn:Eb;
    [|vm_compute in Eb; discriminate Eb].
  exists r, b.
  vm_compute in E. injection E as <-.
  vm_compute in Eb. injection Eb as <-.
  repeat split; try reflexivity.
  vm_compute. discriminate.
Qed.

(* ================================================================== *)
(** ** Inputs of unequal or zero length                                *)
(* ================================================================== *)

Lemma np_broadcast_stretch_right (f : Q -> Q -> Q) (xs : list Q) (y : Q) :
  exists zs, np_broadcast f xs [y] = Ok zs /\ length zs = length xs.
Proof.
  destruct xs as [|x [|x' xs]].
  - exists []. split; reflexivity.
  - exists [f x y]. split; reflexivity.
  - exists (map (fun x => f x y) (x :: x' :: xs)). split.
    + reflexivity.
    + apply length_map.
Qed.

Lemma np_broadcast_stretch_left (f : Q -> Q -> Q) (x : Q) (ys : list Q) :
  exists zs, np_broadcast f [x] ys = Ok zs /\ length zs = length ys.
Proof.
  destruct ys as [|y [|y' ys]].
  - exists []. split; reflexivity.
  - exists [f x y]. split; reflexivity.
  - exists (map (fun y => f x y) (y :: y' :: ys)). split.
    + reflexivity.
    + apply length_map.
Qed.

Lemma np_broadcast_mismatch (f : Q -> Q -> Q) (xs ys : list Q) :
  length xs <> length ys -> length xs <> 1%nat -> length ys <> 1%nat ->
  np_broadcast f xs ys = Raise ValueError.
Proof.
  intros Hne Hx Hy. unfold np_broadcast.
  destruct (Nat.eqb_spec (length xs) (length ys)) as [E|_];
    [contradiction|].
  destruct xs as [|x [|x' xs]]; destruct ys as [|y [|y' ys]];
    simpl in *; congruence.
Qed.

(** C2, as the code has it.  [optimize] does not validate its input.
    Without a solver backend, empty arrays give the fallback result
    with zero cost and empty schedules; solar and wind arrays of length
    one next to a tariff array of at least [T] entries are broadcast
    and give a fallback result as well; and arrays that numpy cannot
    broadcast are rejected only by the [ValueError] of the subtraction
    inside the fallback. *)
Theorem optimize_does_not_validate_input (settings : Settings.t)
    (solve : LpProblem -> LpSolution) (self : TOUOptimizer)
    (initial_soc : Q) :
  optimize settings false solve self [] [] [] [] initial_soc =
    Ok {| status := "Baseline";
          total_cost := 0;
          baseline_cost := 0;
          savings := 0;
          savings_percent := 0;
          battery_schedule := [];
          grid_consumption := [];
          solar_utilization := [];
          peak_reduction := 0;
          recommendations := [InstallStorage] |} /\
  (forall load s w tariffs,
      (length load <= length tariffs)%nat ->
      exists r,
        optimize settings false solve self load [s] [w] tariffs initial_soc
          = Ok r /\
        status r = "Baseline"%string /\
        length (grid_consumption r) = length load) /\
  (forall load solar wind tariffs,
      length load <> length solar ->
      length load <> 1%nat ->
      length solar <> 1%nat ->
      optimize settings false solve self load solar wind tariffs initial_soc
        = Raise ValueError).
Proof.
  split; [reflexivity|]. split.
  - intros load s w tariffs Hlen.
    unfold optimize. cbn [negb].
    unfold _baseline_result, np_subtract, np_minimum.
    destruct (np_broadcast_stretch_right Qminus load s) as (d & -> & Hd).
    cbn [bind].
    destruct (np_broadcast_stretch_right Qminus d w) as (d' & -> & Hd').
    cbn [bind].
    assert (Hn : length (np_maximum_scalar d' 0) = length load)
      by (unfold np_maximum_scalar; rewrite length_map; congruence).
    rewrite (mapM_Ok_map _
               (fun t => nth t (np_maximum_scalar d' 0) 0 * nth t tariffs 0)).
    + cbn [bind].
      destruct (np_broadcast_stretch_left py_min2 s load) as (u & -> & _).
      cbn [bind]. eexists. split; [reflexivity|].
      split; [reflexivity | exact Hn].
    + intros t Ht. apply in_range in Ht.
      rewrite (getitem_Ok (np_maximum_scalar d' 0) t) by lia. cbn [bind].
      rewrite (getitem_Ok tariffs t) by lia. reflexivity.
  - intros load solar wind tariffs Hne Hl Hs.
    unfold optimize. cbn [negb].
    unfold _baseline_result, np_subtract.
    rewrite (np_broadcast_mismatch Qminus load solar Hne Hl Hs).
    reflexivity.
Qed.

Lemma optimize_does_not_validate_input_witness :
  (exists r,
      optimize Settings.default false infeasible_run default_optimizer
        [1; 2] [1] [1] [1; 2; 3] 0.5 = Ok r /\
      status r = "Baseline"%string /\
      length (grid_consumption r) = 2%nat) /\
  optimize Settings.default false infeasible_run default_optimizer
    [1; 2] [1; 2; 3] [1] [1; 2; 3] 0.5 = Raise ValueError.
Proof.
  destruct (optimize_does_not_validate_input Settings.default infeasible_run
              default_optimizer 0.5) as (_ & H2 & H3).
  split.
  - apply (H2 [1; 2] 1 1 [1; 2; 3]). simpl. lia.
  - apply H3; simpl; lia.
Defined.

(** C2 as stated fails: empty arrays, and arrays of different lengths,
    are not rejected; [optimize] returns a result for them. *)
Lemma optimize_accepts_invalid_input :
  (length (@nil Q) = 0%nat /\
   exists r,
     optimize Settings.default false infeasible_run default_optimizer
       [] [] [] [] 0.5 = Ok r) /\
  (length [1] <> length [1; 2] /\
   exists r,
     optimize Settings.default false infeasible_run default_optimizer
       [1; 2] [1] [1] [1; 2; 3] 0.5 = Ok r).
Proof.
  split; split.
  - reflexivity.
  - eexists. reflexivity.
  - simpl. discriminate.
  - eexists. vm_compute. reflexivity.
Qed.

(* ================================================================== *)
(** ** The peak-period and the solar rules                             *)
(* ================================================================== *)

Section RuleFacts.

Variable settings : Settings.t.
Variables load solar grid battery tariffs : list Q.
Variable peak_reduction : Q.


Lemma no_solar_observation_in (rs : list recommendation) :
  (forall r, In r rs -> is_solar_observation r = false) ->
  filter is_solar_observation rs = [].
Proof.
  induction rs as [|r rs IH]; intros H; simpl; [reflexivity|].
  rewrite (H r (or_introl eq_refl)). apply IH.
  intros r' Hr'. apply H. right. exact Hr'.
Qed.

Lemma solar_observations_of_rules (r1 r3 : list recommendation) :
  rule_peak_period settings load grid tariffs = Ok r1 ->
  filter is_solar_observation
    (r1 ++ rule_battery battery ++ r3 ++ rule_peak_shaving peak_reduction
     ++ rule_off_peak settings battery tariffs)
  = filter is_solar_observation r3.
Proof.
  intros H1. rewrite !filter_app.
  rewrite (no_solar_observation_in r1).
  2:{ intros r Hr. apply rule_peak_period_shape in H1.
      destruct H1 as [->|(a & b & c & ->)]; simpl in Hr;
        [contradiction | destruct Hr as [<-|[]]; reflexivity]. }
  rewrite (no_solar_observation_in (rule_battery battery)).
  2:{ intros r Hr. apply rule_battery_kind in Hr.
      destruct Hr as (k & ->). reflexivity. }
  rewrite (no_solar_observation_in (rule_peak_shaving peak_reduction)).
  2:{ intros r Hr. apply rule_peak_shaving_kind in Hr. subst r. reflexivity. }
  rewrite (no_solar_observation_in (rule_off_peak settings battery tariffs)).
  2:{ intros r Hr. apply rule_off_peak_kind in Hr.
      destruct Hr as (a & b & k & ->). reflexivity. }
  simpl. apply app_nil_r.
Qed.

End RuleFacts.




(** The threshold of rule 1 is the rounded product: with a peak-hour
    load of 3 and a grid import of 2.4 the import equals 0.8 times the
    load as numbers, but the float product [3 * 0.8] is
    2.4000000000000004, above the double that holds 2.4, and the
    observation is emitted. *)
Example peak_observation_at_rounded_threshold :
  2.4 == 3 * 0.8 /\
  Double.round 2.4 < Double.mul 3 (Double.round 0.8) /\
  exists recs,
    _generate_recommendations Settings.default [3] [0] [2.4] [0] [9] 0
      = Ok recs /\
    existsb is_peak_observation recs = true.
Proof.
  split; [reflexivity|].
  split; [vm_compute; reflexivity|].
  eexists. split; [vm_compute; reflexivity | reflexivity].
Qed.

(** C6, as the code has it.  Whenever the generator returns, on series
    whose sums and utilisation stay within the finite doubles, it has
    emitted one solar-utilisation observation when the total solar
    forecast is positive and none otherwise; an emitted observation
    reports [solar_used / solar_available * 100] as Python floats give
    it and carries the storage-expansion suggestion exactly when that
    float is below 80, the adequacy statement otherwise. *)
Theorem solar_observation_when_solar_positive (settings : Settings.t)
    (load solar grid battery tariffs : list Q) (peak_reduction : Q)
    (recs : list recommendation) :
  _generate_recommendations settings load solar grid battery tariffs
    peak_reduction = Ok recs ->
  solar_sums_finite load solar ->
  length (filter is_solar_observation recs)
    = (if Qlt_bool 0 (solar_available_total solar) then 1%nat else 0%nat) /\
  (forall percent expand_storage,
      In (SolarUtilization percent expand_storage) recs ->
      percent = solar_utilization_percent solar load /\
      expand_storage = Qlt_bool percent 80).
Proof.
  intros Hrecs _.
  destruct (generate_recommendations_Ok_inv _ _ _ _ _ _ _ _ Hrecs)
    as (r1 & r3 & H1 & H3 & ->).
  pose proof (solar_observations_of_rules settings load grid battery tariffs
                peak_reduction r1 r3 H1) as Hf.
  rewrite rule_solar_eq in H3. injection H3 as <-.
  split.
  - rewrite filter_or_default by reflexivity. rewrite Hf.
    destruct (Qlt_bool 0 (solar_available_total solar)); reflexivity.
  - intros percent expand Hin.
    apply in_or_default in Hin; [|discriminate].
    assert (Hin' : In (SolarUtilization percent expand)
                     (filter is_solar_observation
                        (if Qlt_bool 0 (solar_available_total solar)
                         then [SolarUtilization
                                 (solar_utilization_percent solar load)
                                 (Qlt_bool
                                    (solar_utilization_percent solar load)
                                    80)]
                         else []))).
    { rewrite <- Hf. apply filter_In. split; [exact Hin | reflexivity]. }
    destruct (Qlt_bool 0 (solar_available_total solar)); simpl in Hin';
      [|contradiction].
    destruct Hin' as [E|[]]. injection E as <- <-. split; reflexivity.
Qed.

Lemma solar_observation_when_solar_positive_witness :
  exists recs,
    _generate_recommendations Settings.default [100] [50] [100] [0] [5] 0
      = Ok recs /\
    length (filter is_solar_observation recs) = 1%nat.
Proof.
  destruct (_generate_recommendations Settings.default [100] [50] [100] [0]
              [5] 0) as [recs|e] eqn:E.
  - exists recs. split; [reflexivity|].
    assert (Hfin : solar_sums_finite [100] [50])
      by (repeat split; vm_compute; reflexivity).
    exact (proj1 (solar_observation_when_solar_positive _ _ _ _ _ _ _ _ E
                    Hfin)).
  - vm_compute in E. discriminate E.
Defined.

(** C6 as stated fails: with a solar forecast of zero the generator
    emits no solar-utilisation observation at all. *)
Lemma no_solar_observation_without_solar :
  solar_available_total [0] == 0 /\
  exists recs,
    _generate_recommendations Settings.default [100] [0] [100] [0] [5] 0
      = Ok recs /\
    length (filter is_solar_observation recs) = 0%nat.
Proof.
  split; [vm_compute; reflexivity|].
  eexists. split; [vm_compute; reflexivity | reflexivity].
Qed.

(** The threshold of rule 3 is tested on the rounded percentage: with
    325.35 of solar power and a load of 260.28 the utilisation is 80
    percent as a number, the floats give 79.99999999999999, and the
    observation carries the storage-expansion suggestion. *)
Example solar_observation_at_rounded_threshold :
  260.28 / 325.35 * 100 == 80 /\
  solar_utilization_percent [325.35] [260.28] < 80 /\
  exists recs percent,
    _generate_recommendations Settings.default [260.28] [325.35] [260.28]
      [0] [5] 0 = Ok recs /\
    In (SolarUtilization percent true) recs.
Proof.
  split; [reflexivity|].
  split; [vm_compute; reflexivity|].
  eexists. eexists. split; [vm_compute; reflexivity|].
  left. reflexivity.
Qed.

(* ================================================================== *)
(** ** The scaling step of [optimize_schedule]                         *)
(* ================================================================== *)

Lemma py_max2_cases (a b : Q) :
  (py_max2 a b = a /\ b <= a) \/ (py_max2 a b = b /\ a < b).
Proof.
  unfold py_max2. destruct (Qlt_bool a b) eqn:E.
  - right. split; [reflexivity | now apply Qlt_bool_iff].
  - left. split; [reflexivity | now apply Qlt_bool_false_iff].
Qed.

Lemma fold_py_max2_spec (xs : list Q) (a : Q) :
  In (fold_left py_max2 xs a) (a :: xs) /\
  forall x, In x (a :: xs) -> x <= fold_left py_max2 xs a.
Proof.
  revert a. induction xs as [|y xs IH]; intros a.
  - simpl. split; [now left|]. intros x [<-|[]]. apply Qle_refl.
  - cbn [fold_left]. destruct (IH (py_max2 a y)) as [Hin Hub]. split.
    + destruct Hin as [E|Hin].
      * rewrite <- E.
        destruct (py_max2_cases a y) as [[-> _]|[-> _]];
          [now left | right; now left].
      * right. right. exact Hin.
    + intros x Hx.
      assert (Hm : a <= py_max2 a y /\ y <= py_max2 a y).
      { destruct (py_max2_cases a y) as [[-> H]|[-> H]].
        - split; [apply Qle_refl | exact H].
        - split; [apply Qlt_le_weak; exact H | apply Qle_refl]. }
      assert (Htop : py_max2 a y <= fold_left py_max2 xs (py_max2 a y))
        by (apply Hub; now left).
      destruct Hx as [<-|[<-|Hx]].
      * apply Qle_trans with (py_max2 a y); tauto.
      * apply Qle_trans with (py_max2 a y); tauto.
      * apply Hub. right. exact Hx.
Qed.

(** Built-in [max] returns an element that bounds all the others. *)
Lemma py_max_spec (xs : list Q) (m : Q) :
  py_max xs = Ok m -> In m xs /\ forall x, In x xs -> x <= m.
Proof.
  destruct xs as [|a xs]; simpl; intros H; [discriminate H|].
  injection H as <-. apply fold_py_max2_spec.
Qed.

Lemma rescale_spec (scale_factor : Q) (xs : list Q) :
  Forall2 (fun y x => y == x * (1000 * scale_factor))
    (rescale scale_factor xs) xs.
Proof.
  induction xs as [|x xs IH]; simpl; constructor.
  - ring.
  - exact IH.
Qed.

Lemma load_max_mw_of_positive (load_raw : list Q) (v : Q) :
  load_max_mw_of load_raw = Ok v -> 0 < v.
Proof.
  unfold load_max_mw_of. intros H. inv_bind.
  destruct (Qlt_bool 0 v0) eqn:E.
  - rewrite Hv in H. injection H as <-. now apply Qlt_bool_iff.
  - injection H as <-. reflexivity.
Qed.

Lemma column_or_nonempty (present : bool) (field : Row -> Q) (d : Q)
    (df : DataFrame) :
  rows df <> [] -> column_or present field d df <> [].
Proof.
  unfold column_or. destruct (rows df) as [|r rs]; [congruence|].
  intros _. destruct present; simpl; discriminate.
Qed.

(** C9.  The scaling step never divides by zero, and on a forecast
    with at least one row it multiplies every load, solar and wind
    value by [1000 * scale_factor], where
    [scale_factor = max_contract * 0.8 / (load_max_mw * 1000)] and
    [load_max_mw] is the maximum of the load column when that maximum
    is positive and 1 otherwise. *)
Theorem forecast_scaling (self : TOUOptimizer) (df : DataFrame) :
  scale_forecast self df <> Raise ZeroDivisionError /\
  (rows df <> [] ->
   let load_raw :=
     column_or (has_predicted_load_mw df) predicted_load_mw 0 df in
   let solar_raw :=
     column_or (has_predicted_solar_mw df) predicted_solar_mw 0 df in
   let wind_raw :=
     column_or (has_predicted_wind_mw df) predicted_wind_mw 0 df in
   exists m load_max_mw scale_factor load solar wind tariffs,
     py_max load_raw = Ok m /\
     (In m load_raw /\ forall x, In x load_raw -> x <= m) /\
     load_max_mw = (if Qlt_bool 0 m then m else 1) /\
     0 < load_max_mw * 1000 /\
     scale_factor = max_contract self * 0.8 / (load_max_mw * 1000) /\
     scale_forecast self df = Ok (load, solar, wind, tariffs) /\
     Forall2 (fun y x => y == x * (1000 * scale_factor)) load load_raw /\
     Forall2 (fun y x => y == x * (1000 * scale_factor)) solar solar_raw /\
     Forall2 (fun y x => y == x * (1000 * scale_factor)) wind wind_raw).
Proof.
  split.
  - unfold scale_forecast, scale_factor_of. cbv zeta.
    destruct (load_max_mw_of
                (column_or (has_predicted_load_mw df) predicted_load_mw 0 df))
      as [v|e] eqn:E; cbn [bind].
    + pose proof (load_max_mw_of_positive _ _ E) as Hpos.
      rewrite checked_div_pos; [cbn [bind]; discriminate|].
      apply Qmult_lt_0_compat; [exact Hpos | reflexivity].
    + unfold load_max_mw_of in E.
      destruct (py_max
                  (column_or (has_predicted_load_mw df) predicted_load_mw 0 df))
        as [m|e'] eqn:Em; cbn [bind] in E.
      * destruct (Qlt_bool 0 m); discriminate E.
      * injection E as <-. intros H. injection H as H.
        exact (py_max_not_zero_division _ (eq_trans Em (f_equal _ H))).
  - intros Hrows load_raw solar_raw wind_raw.
    destruct (py_max_nonempty load_raw) as [m Hm];
      [apply column_or_nonempty; exact Hrows|].
    assert (Hlm : load_max_mw_of load_raw
                  = Ok (if Qlt_bool 0 m then m else 1)).
    { unfold load_max_mw_of. rewrite Hm. cbn [bind].
      destruct (Qlt_bool 0 m); reflexivity. }
    pose proof (load_max_mw_of_positive _ _ Hlm) as Hpos.
    assert (Hden : 0 < (if Qlt_bool 0 m then m else 1) * 1000).
    { apply Qmult_lt_0_compat; [exact Hpos | reflexivity]. }
    exists m, (if Qlt_bool 0 m then m else 1),
      (max_contract self * 0.8 / ((if Qlt_bool 0 m then m else 1) * 1000)).
    eexists. eexists. eexists. eexists.
    split; [exact Hm|].
    split; [exact (py_max_spec _ _ Hm)|].
    split; [reflexivity|].
    split; [exact Hden|].
    split; [reflexivity|].
    split.
    + unfold scale_forecast, scale_factor_of. cbv zeta.
      fold load_raw. rewrite Hlm. cbn [bind].
      rewrite checked_div_pos by exact Hden. cbn [bind]. reflexivity.
    + repeat split; apply rescale_spec.
Qed.

Lemma forecast_scaling_witness :
  exists load solar wind tariffs,
    scale_forecast default_optimizer one_hour_frame
      = Ok (load, solar, wind, tariffs) /\
    Forall2 (fun y x => y == x * (1000 * (500 * 0.8 / (30000 * 1000))))
      load [30000].
Proof.
  destruct (forecast_scaling default_optimizer one_hour_frame) as [_ H].
  destruct H as (m & lm & sf & load & solar & wind & tariffs & Hm & _ & Hlm
                 & _ & Hsf & Hs & Hl & _).
  - simpl. discriminate.
  - exists load, solar, wind, tariffs. split; [exact Hs|].
    vm_compute in Hm. injection Hm as <-.
    vm_compute in Hlm. rewrite Hlm in Hsf. rewrite Hsf in Hl. exact Hl.
Defined.

(* ================================================================== *)
(** ** [simulate_scenarios]                                            *)
(* ================================================================== *)

Lemma restore_apply_overrides (self : TOUOptimizer) (scenario : Scenario.t) :
  restore (apply_overrides self scenario) (battery_capacity self)
    (max_contract self) = self.
Proof.
  destruct self. reflexivity.
Qed.

Section ScenarioFacts.

Variable settings : Settings.t.
Variable PULP_AVAILABLE : bool.
Variable solve : LpProblem -> LpSolution.
Variable forecast_df : DataFrame.

(** Invariant of the loop: an iteration that completes leaves the
    optimizer as it found it and appends the result of a run under the
    overrides of its scenario alone. *)
Lemma simulate_loop_Ok (scenarios : list Scenario.t) :
  forall (self self' : TOUOptimizer) (i : nat)
         (acc results : list ScenarioResult),
    simulate_loop settings PULP_AVAILABLE solve self forecast_df i scenarios
      acc = (self', Ok results) ->
    self' = self /\
    exists new,
      results = acc ++ new /\
      Forall2 (runs_isolated settings PULP_AVAILABLE solve self forecast_df)
        scenarios new.
Proof.
  induction scenarios as [|scenario rest IH]; intros self self' i acc results H.
  - simpl in H. injection H as <- <-. split; [reflexivity|].
    exists []. split; [symmetry; apply app_nil_r | constructor].
  - cbn [simulate_loop] in H. cbv zeta in H.
    destruct (optimize_schedule settings PULP_AVAILABLE solve
                (apply_overrides self scenario) forecast_df
                (dict_get (Scenario.initial_soc scenario) 0.5))
      as [out|e] eqn:E; [|discriminate H].
    rewrite restore_apply_overrides in H.
    apply IH in H. destruct H as (-> & new & -> & Hall).
    split; [reflexivity|].
    eexists (_ :: new). split.
    + rewrite <- app_assoc. reflexivity.
    + constructor; [|exact Hall].
      unfold runs_isolated. cbn [scenario_output scenario_battery_capacity
                                   scenario_max_contract].
      split; [exact E|]. split; reflexivity.
Qed.

(** An iteration that raises leaves the loop with the overrides of its
    scenario still applied. *)
Lemma simulate_loop_Raise_first (self : TOUOptimizer) (i : nat)
    (scenario : Scenario.t) (rest : list Scenario.t)
    (acc : list ScenarioResult) (e : exn) :
  optimize_schedule settings PULP_AVAILABLE solve
    (apply_overrides self scenario) forecast_df
    (dict_get (Scenario.initial_soc scenario) 0.5) = Raise e ->
  simulate_loop settings PULP_AVAILABLE solve self forecast_df i
    (scenario :: rest) acc = (apply_overrides self scenario, Raise e).
Proof.
  intros H. cbn [simulate_loop]. cbv zeta. rewrite H. reflexivity.
Qed.

End ScenarioFacts.

(** X30.  When [simulate_scenarios] returns, the optimizer has the
    configuration it had before the call, and every scenario was
    optimized under that configuration changed by its own overrides
    only: the overrides of one scenario do not reach a later one. *)
Theorem simulate_scenarios_restores_configuration (settings : Settings.t)
    (PULP_AVAILABLE : bool) (solve : LpProblem -> LpSolution)
    (self self' : TOUOptimizer) (forecast_df : DataFrame)
    (scenarios : list Scenario.t) (results : list ScenarioResult) :
  simulate_scenarios settings PULP_AVAILABLE solve self forecast_df scenarios
    = (self', Ok results) ->
  self' = self /\
  Forall2 (runs_isolated settings PULP_AVAILABLE solve self forecast_df)
    scenarios results.
Proof.
  unfold simulate_scenarios. intros H.
  apply simulate_loop_Ok in H. destruct H as (-> & new & -> & Hall).
  split; [reflexivity | exact Hall].
Qed.

Lemma simulate_scenarios_restores_configuration_witness :
  exists results,
    simulate_scenarios Settings.default false infeasible_run default_optimizer
      one_hour_frame [bigger_battery; smaller_contract]
      = (default_optimizer, Ok results) /\
    Forall2 (runs_isolated Settings.default false infeasible_run
               default_optimizer one_hour_frame)
      [bigger_battery; smaller_contract] results.
Proof.
  destruct (simulate_scenarios Settings.default false infeasible_run
              default_optimizer one_hour_frame
              [bigger_battery; smaller_contract]) as [self' [results|e]] eqn:E.
  - destruct (simulate_scenarios_restores_configuration _ _ _ _ _ _ _ _ E)
      as [-> Hall].
    exists results. split; [reflexivity | exact Hall].
  - vm_compute in E. discriminate E.
Defined.

(** C4.  The statements of [simulate_scenarios] that restore the
    configuration are not reached when a scenario raises.  On a
    forecast without rows [np.max] raises [ValueError] inside
    [optimize_schedule]; the exception leaves [simulate_scenarios]
    with the battery capacity of the scenario, 200, in place of the
    original 100.  Likewise, on a forecast of one hour, a scenario with
    a battery capacity of 0 whose problem the solver solves raises
    [ZeroDivisionError], and the optimizer keeps the capacity 0. *)
Lemma simulate_scenarios_exception_keeps_overrides :
  (exists self',
      simulate_scenarios Settings.default false infeasible_run
        default_optimizer empty_frame [bigger_battery]
        = (self', Raise ValueError) /\
      battery_capacity default_optimizer == 100 /\
      battery_capacity self' == 200 /\
      self' <> default_optimizer) /\
  (exists self',
      simulate_scenarios Settings.default true idle_battery_run
        default_optimizer one_hour_frame [no_battery; bigger_battery]
        = (self', Raise ZeroDivisionError) /\
      battery_capacity self' == 0 /\
      self' <> default_optimizer).
Proof.
  split.
  - eexists. split; [vm_compute; reflexivity|].
    split; [reflexivity|]. split; [reflexivity|].
    intros H. apply (f_equal battery_capacity) in H. discriminate H.
  - eexists. split; [vm_compute; reflexivity|].
    split; [reflexivity|].
    intros H. apply (f_equal battery_capacity) in H. discriminate H.
Qed.

(* ================================================================== *)
(** ** A division outside the guarded metrics                          *)
(* ================================================================== *)

(** The state-of-charge schedule divides by [self.battery_capacity]
    without a guard: with a capacity of 0 a solved run raises
    [ZeroDivisionError] before the derived metrics are computed. *)
Example soc_schedule_divides_by_capacity :
  optimize Settings.default true idle_battery_run
    (set_battery_capacity default_optimizer 0) [100] [50] [0] [5] 0.5
  = Raise ZeroDivisionError.
Proof. vm_compute. reflexivity. Qed.

(* ================================================================== *)
(** ** Which exceptions a computation can raise                        *)
(* ================================================================== *)

Lemma bind_Raise_inv {A B : Type} (m : result A) (k : A -> result B) (e : exn) :
  bind m k = Raise e -> m = Raise e \/ exists a, m = Ok a /\ k a = Raise e.
Proof.
  destruct m as [a|e']; simpl; intros H.
  - right. exists a. auto.
  - left. injection H as ->. reflexivity.
Qed.

Lemma raises_only_Ok {A : Type} (allowed : list exn) (a : A) :
  raises_only allowed (Ok a).
Proof. intros e H. discriminate H. Qed.

Lemma raises_only_Raise {A : Type} (allowed : list exn) (e : exn) :
  In e allowed -> raises_only allowed (@Raise A e).
Proof. intros Hin e' H. injection H as <-. exact Hin. Qed.

Lemma raises_only_bind {A B : Type} (allowed : list exn) (m : result A)
    (k : A -> result B) :
  raises_only allowed m ->
  (forall a, m = Ok a -> raises_only allowed (k a)) ->
  raises_only allowed (bind m k).
Proof.
  intros Hm Hk e H. apply bind_Raise_inv in H.
  destruct H as [H|(a & Ha & H)]; [exact (Hm e H) | exact (Hk a Ha e H)].
Qed.

Lemma raises_only_mapM {A B : Type} (allowed : list exn) (f : A -> result B)
    (xs : list A) :
  (forall x, In x xs -> raises_only allowed (f x)) ->
  raises_only allowed (mapM f xs).
Proof.
  induction xs as [|x xs IH]; intros H; simpl.
  - apply raises_only_Ok.
  - apply raises_only_bind; [apply H; now left|].
    intros y _. apply raises_only_bind.
    + apply IH. intros z Hz. apply H. now right.
    + intros ys _. apply raises_only_Ok.
Qed.

Lemma raises_only_weaken {A : Type} (allowed allowed' : list exn)
    (m : result A) :
  incl allowed allowed' -> raises_only allowed m -> raises_only allowed' m.
Proof. intros Hincl Hm e H. apply Hincl. exact (Hm e H). Qed.

Lemma raises_only_getitem (xs : list Q) (i : nat) :
  raises_only [IndexError] (getitem xs i).
Proof.
  unfold getitem. destruct (nth_error xs i).
  - apply raises_only_Ok.
  - apply raises_only_Raise. now left.
Qed.

Lemma raises_only_np_broadcast (f : Q -> Q -> Q) (xs ys : list Q) :
  raises_only [ValueError] (np_broadcast f xs ys).
Proof.
  unfold np_broadcast. destruct (Nat.eqb (length xs) (length ys)).
  - apply raises_only_Ok.
  - destruct xs as [|x [|x' xs]]; destruct ys as [|y [|y' ys]];
      try apply raises_only_Ok; apply raises_only_Raise; now left.
Qed.

Lemma raises_only_py_max (xs : list Q) : raises_only [ValueError] (py_max xs).
Proof.
  destruct xs; simpl; [apply raises_only_Raise; now left | apply raises_only_Ok].
Qed.

(** A comprehension raises the exception [e] as soon as one element
    does and no element raises another one. *)
Lemma mapM_Raise {A B : Type} (f : A -> result B) (xs : list A) (e : exn) :
  (exists x, In x xs /\ f x = Raise e) ->
  (forall x, In x xs -> raises_only [e] (f x)) ->
  mapM f xs = Raise e.
Proof.
  induction xs as [|x xs IH]; intros (z & Hz & Hfz) Hall.
  - destruct Hz.
  - simpl. destruct (f x) as [y|e'] eqn:Ex.
    + simpl. destruct Hz as [->|Hz]; [congruence|].
      rewrite IH; [reflexivity | eauto |].
      intros w Hw. apply Hall. now right.
    + simpl. destruct (Hall x (or_introl eq_refl) e' Ex) as [<-|[]].
      reflexivity.
Qed.

(** Solves goals [raises_only allowed m] for the monadic code of the
    module, given facts for the calls it makes in the hint database
    [raises]. *)
Create HintDb raises.

#[local] Hint Resolve raises_only_Ok : raises.
#[local] Hint Extern 1 (In _ _) => simpl; tauto : raises.
#[local] Hint Extern 2 (raises_only _ (Raise _)) =>
  apply raises_only_Raise : raises.
#[local] Hint Extern 2 (raises_only _ (getitem _ _)) =>
  eapply raises_only_weaken; [|apply raises_only_getitem];
  intros ? [<-|[]]; simpl; tauto : raises.
#[local] Hint Extern 2 (raises_only _ (py_max _)) =>
  eapply raises_only_weaken; [|apply raises_only_py_max];
  intros ? [<-|[]]; simpl; tauto : raises.
#[local] Hint Extern 2 (raises_only _ (np_broadcast _ _ _)) =>
  eapply raises_only_weaken; [|apply raises_only_np_broadcast];
  intros ? [<-|[]]; simpl; tauto : raises.

#[local] Hint Extern 2 (raises_only _ (np_subtract _ _)) =>
  unfold np_subtract : raises.
#[local] Hint Extern 2 (raises_only _ (np_minimum _ _)) =>
  unfold np_minimum : raises.
#[local] Hint Extern 2 (raises_only _ (np_multiply _ _)) =>
  unfold np_multiply : raises.

Ltac raises :=
  repeat first
    [ progress cbv beta iota zeta
    | solve [auto with raises]
    | match goal with
      | |- raises_only _ (bind _ _) => apply raises_only_bind; [|intros ? ?]
      | |- raises_only _ (mapM _ _) => apply raises_only_mapM; intros ? ?
      | |- raises_only _ (if ?b then _ else _) => destruct b
      | |- raises_only _ (match ?o with Some _ => _ | None => _ end) =>
          destruct o
      end ].

(** Evaluates the comparison of a known solver status with "Optimal". *)
Ltac eval_status :=
  cbv [LpStatus_str];
  match goal with
  | |- context [String.eqb ?a ?b] =>
      let c := eval vm_compute in (String.eqb a b) in
      change (String.eqb a b) with c
  end;
  cbn [negb]; cbv iota.

Lemma raises_only_baseline_result (load solar wind tariffs : list Q) :
  raises_only [IndexError; ValueError]
    (_baseline_result load solar wind tariffs).
Proof.
  unfold _baseline_result, np_subtract, np_minimum. raises.
Qed.

Lemma raises_only_build_problem (settings : Settings.t) (self : TOUOptimizer)
    (load solar wind tariffs : list Q) (initial_soc : Q) :
  raises_only [IndexError]
    (build_problem settings self load solar wind tariffs initial_soc).
Proof.
  unfold build_problem. raises.
Qed.

Lemma raises_only_rule_peak_period (settings : Settings.t)
    (load grid tariffs : list Q) :
  raises_only [IndexError] (rule_peak_period settings load grid tariffs).
Proof.
  unfold rule_peak_period. cbv zeta.
  destruct (peak_hours_of settings tariffs); raises.
Qed.

Lemma raises_only_generate_recommendations (settings : Settings.t)
    (load solar grid battery tariffs : list Q) (peak_reduction : Q) :
  raises_only [IndexError]
    (_generate_recommendations settings load solar grid battery tariffs
       peak_reduction).
Proof.
  unfold _generate_recommendations.
  apply raises_only_bind; [apply raises_only_rule_peak_period|].
  intros r1 _. cbv zeta. rewrite rule_solar_eq. cbn [bind].
  apply raises_only_Ok.
Qed.

Lemma raises_only_load_cost (load tariffs : list Q) :
  raises_only [IndexError] (load_cost load tariffs).
Proof.
  unfold load_cost. raises.
Qed.

(* ================================================================== *)
(** ** More on sums and element access                                 *)
(* ================================================================== *)

Lemma nth_map_Q {A : Type} (f : A -> Q) (d : A) (xs : list A) (t : nat) :
  (t < length xs)%nat -> nth t (map f xs) 0 = f (nth t xs d).
Proof.
  intros H. rewrite (nth_indep (map f xs) 0 (f d)) by (now rewrite length_map).
  apply map_nth.
Qed.

Lemma nth_zip_with (f : Q -> Q -> Q) (xs ys : list Q) (t : nat) :
  (t < length xs)%nat -> (t < length ys)%nat ->
  nth t (zip_with f xs ys) 0 = f (nth t xs 0) (nth t ys 0).
Proof.
  revert ys t. induction xs as [|x xs IH]; intros [|y ys] [|t] Hx Hy;
    simpl in *; try lia; [reflexivity|].
  apply IH; lia.
Qed.

Lemma nth_fallback_net_load (load solar wind : list Q) (t : nat) :
  length solar = length load -> length wind = length load ->
  (t < length load)%nat ->
  nth t (fallback_net_load load solar wind) 0
  = py_max2 (nth t load 0 - nth t solar 0 - nth t wind 0) 0.
Proof.
  intros Hs Hw Ht. unfold fallback_net_load, np_maximum_scalar.
  rewrite (nth_map_Q _ 0)
    by (rewrite !length_zip_with, Hs, Hw, !Nat.min_id; exact Ht).
  rewrite nth_zip_with
    by (rewrite ?length_zip_with, ?Hs, ?Hw, ?Nat.min_id; exact Ht).
  rewrite nth_zip_with by (rewrite ?Hs; exact Ht).
  reflexivity.
Qed.

Lemma py_max2_ge (a b : Q) : a <= py_max2 a b /\ b <= py_max2 a b.
Proof.
  destruct (py_max2_cases a b) as [[-> H]|[-> H]].
  - split; [apply Qle_refl | exact H].
  - split; [apply Qlt_le_weak; exact H | apply Qle_refl].
Qed.

Lemma py_min2_cases (a b : Q) :
  (py_min2 a b = a /\ a <= b) \/ (py_min2 a b = b /\ b < a).
Proof.
  unfold py_min2. destruct (Qlt_bool b a) eqn:E.
  - right. split; [reflexivity | now apply Qlt_bool_iff].
  - left. split; [reflexivity | now apply Qlt_bool_false_iff].
Qed.

Lemma py_min2_le (a b : Q) : py_min2 a b <= a /\ py_min2 a b <= b.
Proof.
  destruct (py_min2_cases a b) as [[-> H]|[-> H]].
  - split; [apply Qle_refl | exact H].
  - split; [apply Qlt_le_weak; exact H | apply Qle_refl].
Qed.

Lemma py_sum_nonneg (xs : list Q) :
  (forall x, In x xs -> 0 <= x) -> 0 <= py_sum xs.
Proof.
  induction xs as [|x xs IH]; intros H.
  - apply Qle_refl.
  - rewrite py_sum_cons.
    rewrite <- (Qplus_0_l 0).
    apply Qplus_le_compat; [apply H; now left|].
    apply IH. intros y Hy. apply H. now right.
Qed.

Lemma py_sum_le_pointwise {A : Type} (f g : A -> Q) (idx : list A) :
  (forall t, In t idx -> f t <= g t) ->
  py_sum (map f idx) <= py_sum (map g idx).
Proof.
  induction idx as [|t idx IH]; intros H; simpl map.
  - apply Qle_refl.
  - rewrite !py_sum_cons.
    apply Qplus_le_compat; [apply H; now left|].
    apply IH. intros u Hu. apply H. now right.
Qed.


Lemma nonnegative_nth (xs : list Q) (t : nat) :
  nonnegative xs -> 0 <= nth t xs 0.
Proof.
  intros H. destruct (Nat.lt_ge_cases t (length xs)) as [Hlt|Hge].
  - unfold nonnegative in H. rewrite Forall_forall in H.
    apply H. apply nth_In. exact Hlt.
  - rewrite nth_overflow by exact Hge. apply Qle_refl.
Qed.

Lemma load_cost_eq (load tariffs : list Q) :
  (length load <= length tariffs)%nat ->
  load_cost load tariffs
  = Ok (py_sum (map (fun t => nth t load 0 * nth t tariffs 0)
                  (range (length load)))).
Proof.
  intros H. unfold load_cost.
  rewrite (mapM_Ok_map _ (fun t => nth t load 0 * nth t tariffs 0)).
  - reflexivity.
  - intros t Ht. apply in_range in Ht.
    rewrite (getitem_Ok load t) by lia. cbn [bind].
    rewrite (getitem_Ok tariffs t) by lia. reflexivity.
Qed.

(* ================================================================== *)
(** ** The fallback schedule                                           *)
(* ================================================================== *)

(** X1.  In the fallback result on arrays of one length, the grid
    import of every hour is non-negative, covers the load left after
    solar and wind, and is either zero or exactly that remainder. *)
Theorem fallback_grid_covers_net_load (load solar wind tariffs : list Q)
    (r : OptimizationResult) :
  same_length load solar wind tariffs ->
  _baseline_result load solar wind tariffs = Ok r ->
  length (grid_consumption r) = length load /\
  forall t, (t < length load)%nat ->
    let g := nth t (grid_consumption r) 0 in
    let rest := nth t load 0 - nth t solar 0 - nth t wind 0 in
    0 <= g /\ rest <= g /\ (g = 0 \/ g = rest).
Proof.
  intros Hsame H.
  rewrite (baseline_result_same_length load solar wind tariffs Hsame) in H.
  injection H as <-. cbn [grid_consumption].
  destruct Hsame as (Hs & Hw & _). split.
  - unfold fallback_net_load, np_maximum_scalar.
    rewrite length_map, !length_zip_with, Hs, Hw, !Nat.min_id. reflexivity.
  - intros t Ht. cbv zeta.
    rewrite (nth_fallback_net_load load solar wind t Hs Hw Ht).
    destruct (py_max2_ge (nth t load 0 - nth t solar 0 - nth t wind 0) 0)
      as [H1 H2].
    split; [exact H2|]. split; [exact H1|].
    destruct (py_max2_cases (nth t load 0 - nth t solar 0 - nth t wind 0) 0)
      as [[-> _]|[-> _]]; auto.
Qed.

Lemma fallback_grid_covers_net_load_witness :
  exists r,
    _baseline_result [100; 100] [50; 0] [0; 0] [2; 5] = Ok r /\
    length (grid_consumption r) = 2%nat /\
    0 <= nth 0 (grid_consumption r) 0 /\
    100 - 50 - 0 <= nth 0 (grid_consumption r) 0.
Proof.
  destruct (_baseline_result [100; 100] [50; 0] [0; 0] [2; 5]) as [r|e] eqn:E.
  - exists r. split; [reflexivity|].
    destruct (fallback_grid_covers_net_load [100; 100] [50; 0] [0; 0] [2; 5] r)
      as [Hlen Hall].
    + unfold same_length. simpl. auto.
    + exact E.
    + split; [exact Hlen|].
      destruct (Hall 0%nat) as (H0 & H1 & _); [simpl; lia|].
      split; [exact H0 | exact H1].
  - vm_compute in E. discriminate E.
Defined.

(** X2.  In the fallback result on arrays of one length the battery
    stays idle in every hour, and the reported solar use of an hour
    exceeds neither the solar forecast nor the load of that hour. *)
Theorem fallback_battery_idle_solar_bounded (load solar wind tariffs : list Q)
    (r : OptimizationResult) :
  same_length load solar wind tariffs ->
  _baseline_result load solar wind tariffs = Ok r ->
  length (battery_schedule r) = length load /\
  length (solar_utilization r) = length load /\
  forall t, (t < length load)%nat ->
    nth t (battery_schedule r) 0 = 0 /\
    nth t (solar_utilization r) 0 <= nth t solar 0 /\
    nth t (solar_utilization r) 0 <= nth t load 0.
Proof.
  intros Hsame H.
  rewrite (baseline_result_same_length load solar wind tariffs Hsame) in H.
  injection H as <-. cbn [battery_schedule solar_utilization].
  destruct Hsame as (Hs & Hw & _).
  split; [apply repeat_length|].
  split; [rewrite length_zip_with, Hs; apply Nat.min_id|].
  intros t Ht. split; [apply nth_repeat|].
  rewrite nth_zip_with by (rewrite ?Hs; exact Ht).
  apply py_min2_le.
Qed.

Lemma fallback_battery_idle_solar_bounded_witness :
  exists r,
    _baseline_result [100; 100] [50; 0] [0; 0] [2; 5] = Ok r /\
    nth 0 (battery_schedule r) 0 = 0 /\
    nth 0 (solar_utilization r) 0 <= 50.
Proof.
  destruct (_baseline_result [100; 100] [50; 0] [0; 0] [2; 5]) as [r|e] eqn:E.
  - exists r. split; [reflexivity|].
    destruct (fallback_battery_idle_solar_bounded [100; 100] [50; 0] [0; 0]
                [2; 5] r) as (_ & _ & Hall).
    + unfold same_length. simpl. auto.
    + exact E.
    + destruct (Hall 0%nat) as (H0 & H1 & _); [simpl; lia|].
      split; [exact H0 | exact H1].
  - vm_compute in E. discriminate E.
Defined.

(** X3.  On non-negative arrays of one length the cost of the fallback
    is non-negative and never exceeds the sum of
    [load_forecast[t] * tariffs[t]], the baseline cost that the solved
    path reports for the same arrays. *)
Theorem fallback_cost_at_most_load_cost (load solar wind tariffs : list Q) :
  same_length load solar wind tariffs ->
  nonnegative load -> nonnegative solar -> nonnegative wind ->
  nonnegative tariffs ->
  exists b c,
    _baseline_result load solar wind tariffs = Ok b /\
    load_cost load tariffs = Ok c /\
    0 <= baseline_cost b /\
    baseline_cost b <= c.
Proof.
  intros Hsame Hl Hsol Hwind Htar.
  eexists. eexists.
  split; [apply baseline_result_same_length; exact Hsame|].
  destruct Hsame as (Hs & Hw & Ht).
  split; [apply load_cost_eq; lia|].
  cbn [baseline_cost]. split.
  - apply py_sum_nonneg. intros x Hx. apply in_map_iff in Hx.
    destruct Hx as (t & <- & Hin). apply in_range in Hin.
    rewrite (nth_fallback_net_load load solar wind t Hs Hw Hin).
    apply Qmult_le_0_compat; [|apply nonnegative_nth; exact Htar].
    apply py_max2_ge.
  - apply py_sum_le_pointwise. intros t Hin. apply in_range in Hin.
    rewrite (nth_fallback_net_load load solar wind t Hs Hw Hin).
    apply Qmult_le_compat_r; [|apply nonnegative_nth; exact Htar].
    pose proof (nonnegative_nth load t Hl) as H1.
    pose proof (nonnegative_nth solar t Hsol) as H2.
    pose proof (nonnegative_nth wind t Hwind) as H3.
    destruct (py_max2_cases (nth t load 0 - nth t solar 0 - nth t wind 0) 0)
      as [[-> _]|[-> _]]; [|exact H1].
    lra.
Qed.

Lemma fallback_cost_at_most_load_cost_witness :
  exists b c,
    _baseline_result [100; 100] [50; 0] [0; 0] [2; 5] = Ok b /\
    load_cost [100; 100] [2; 5] = Ok c /\
    0 <= baseline_cost b /\
    baseline_cost b <= c.
Proof.
  apply fallback_cost_at_most_load_cost.
  - unfold same_length. simpl. auto.
  - repeat constructor; vm_compute; discriminate.
  - repeat constructor; vm_compute; discriminate.
  - repeat constructor; vm_compute; discriminate.
  - repeat constructor; vm_compute; discriminate.
Defined.

(** X4.  On arrays of one length the fallback returns, its baseline
    cost is the sum over the hours of
    [max(load - solar - wind, 0) * tariff], and its total cost is the
    same amount, so that it reports no savings. *)
Theorem fallback_cost_formula (load solar wind tariffs : list Q) :
  same_length load solar wind tariffs ->
  exists r,
    _baseline_result load solar wind tariffs = Ok r /\
    baseline_cost r == spec_baseline_cost load solar wind tariffs /\
    total_cost r == spec_baseline_cost load solar wind tariffs /\
    savings r == 0 /\
    savings_percent r == 0.
Proof.
  intros Hsame.
  destruct (baseline_result_cost_spec load solar wind tariffs Hsame)
    as (r & Hr & Hcost).
  exists r. split; [exact Hr|]. split; [exact Hcost|].
  pose proof Hr as Hshape.
  unfold _baseline_result in Hshape. inv_bind. subst r.
  cbn [baseline_cost total_cost savings savings_percent] in *.
  split; [exact Hcost|]. split; reflexivity.
Qed.

Lemma fallback_cost_formula_witness :
  exists r,
    _baseline_result [100; 100] [50; 0] [0; 0] [2; 5] = Ok r /\
    baseline_cost r == spec_baseline_cost [100; 100] [50; 0] [0; 0] [2; 5] /\
    total_cost r == spec_baseline_cost [100; 100] [50; 0] [0; 0] [2; 5] /\
    savings r == 0 /\
    savings_percent r == 0.
Proof.
  apply fallback_cost_formula. unfold same_length. simpl. auto.
Defined.

(** X5.  With solar and wind arrays of the length of the load, the
    fallback returns exactly when the tariff array has at least as
    many entries as the load (further tariffs are ignored); a shorter
    tariff array gives [IndexError]. *)
Theorem fallback_needs_a_tariff_per_hour (load solar wind tariffs : list Q) :
  length solar = length load ->
  length wind = length load ->
  ((length load <= length tariffs)%nat ->
   exists r, _baseline_result load solar wind tariffs = Ok r /\
             length (grid_consumption r) = length load) /\
  ((length tariffs < length load)%nat ->
   _baseline_result load solar wind tariffs = Raise IndexError).
Proof.
  intros Hs Hw.
  assert (Hn : length (fallback_net_load load solar wind) = length load).
  { unfold fallback_net_load, np_maximum_scalar.
    rewrite length_map, !length_zip_with, Hs, Hw, !Nat.min_id. reflexivity. }
  assert (Hd : length (zip_with Qminus load solar) = length wind)
    by (rewrite length_zip_with, Hs, Hw; apply Nat.min_id).
  split; intros Ht.
  - unfold _baseline_result, np_subtract, np_minimum.
    rewrite (np_broadcast_same_length Qminus load solar) by congruence.
    cbn [bind].
    rewrite (np_broadcast_same_length Qminus _ wind) by exact Hd.
    cbn [bind]. fold (fallback_net_load load solar wind).
    rewrite (mapM_Ok_map _
               (fun t => nth t (fallback_net_load load solar wind) 0
                         * nth t tariffs 0)).
    + cbn [bind].
      rewrite (np_broadcast_same_length py_min2 solar load) by congruence.
      cbn [bind]. eexists. split; [reflexivity | exact Hn].
    + intros t Hin. apply in_range in Hin.
      rewrite (getitem_Ok (fallback_net_load load solar wind) t) by lia.
      cbn [bind]. rewrite (getitem_Ok tariffs t) by lia. reflexivity.
  - unfold _baseline_result, np_subtract, np_minimum.
    rewrite (np_broadcast_same_length Qminus load solar) by congruence.
    cbn [bind].
    rewrite (np_broadcast_same_length Qminus _ wind) by exact Hd.
    cbn [bind]. fold (fallback_net_load load solar wind).
    rewrite (mapM_Raise _ (range (length load)) IndexError).
    + reflexivity.
    + exists (length tariffs). split; [apply in_range; exact Ht|].
      rewrite (getitem_Ok (fallback_net_load load solar wind)) by lia.
      cbn [bind]. rewrite getitem_Raise by lia. reflexivity.
    + intros t _. raises.
Qed.

Lemma fallback_needs_a_tariff_per_hour_witness :
  (exists r, _baseline_result [100; 100] [50; 0] [0; 0] [2; 5; 7] = Ok r /\
             length (grid_consumption r) = 2%nat) /\
  _baseline_result [100; 100] [50; 0] [0; 0] [2] = Raise IndexError.
Proof.
  destruct (fallback_needs_a_tariff_per_hour [100; 100] [50; 0] [0; 0]
              [2; 5; 7]) as [H1 _]; [reflexivity | reflexivity|].
  destruct (fallback_needs_a_tariff_per_hour [100; 100] [50; 0] [0; 0] [2])
    as [_ H2]; [reflexivity | reflexivity|].
  split; [apply H1; simpl; lia | apply H2; simpl; lia].
Defined.

(* ================================================================== *)
(** ** The MILP built by [optimize]                                    *)
(* ================================================================== *)

Lemma indices_where_from_filter (p : Q -> bool) (xs : list Q) (i : nat) :
  indices_where_from p i xs
  = filter (fun t => p (nth (t - i) xs 0)) (seq i (length xs)).
Proof.
  revert i. induction xs as [|x xs IH]; intros i; [reflexivity|].
  cbn [indices_where_from length seq filter].
  rewrite Nat.sub_diag. cbn [nth].
  rewrite IH.
  destruct (p x); [f_equal|]; apply filter_ext_in; intros t Ht;
    apply in_seq in Ht;
    replace (t - i)%nat with (S (t - S i)) by lia; reflexivity.
Qed.

Lemma indices_where_filter (p : Q -> bool) (xs : list Q) :
  indices_where p xs
  = filter (fun t => p (nth t xs 0)) (range (length xs)).
Proof.
  unfold indices_where, range. rewrite indices_where_from_filter.
  apply filter_ext. intros t. now rewrite Nat.sub_0_r.
Qed.

Lemma in_indices_where (p : Q -> bool) (xs : list Q) (h : nat) :
  In h (indices_where p xs) <->
  (h < length xs)%nat /\ p (nth h xs 0) = true.
Proof.
  rewrite indices_where_filter, filter_In, in_range. tauto.
Qed.

Lemma length_concat_map_flag {A : Type} (flag : nat -> bool)
    (entry : nat -> A) (idx : list nat) :
  length (concat (map (fun t => if flag t then [entry t] else []) idx))
  = length (filter flag idx).
Proof.
  induction idx as [|t idx IH]; [reflexivity|].
  cbn [map concat filter]. rewrite length_app, IH.
  destruct (flag t); reflexivity.
Qed.


(** X6.  Building the problem succeeds exactly when the solar, wind
    and tariff arrays have at least as many entries as the load;
    otherwise it raises [IndexError], and it raises nothing else. *)
Theorem build_problem_needs_entries_per_hour (settings : Settings.t)
    (self : TOUOptimizer) (load solar wind tariffs : list Q)
    (initial_soc : Q) :
  let T := length load in
  ((T <= length solar /\ T <= length wind /\ T <= length tariffs)%nat ->
   exists prob,
     build_problem settings self load solar wind tariffs initial_soc
     = Ok prob) /\
  (~ (T <= length solar /\ T <= length wind /\ T <= length tariffs)%nat ->
   build_problem settings self load solar wind tariffs initial_soc
   = Raise IndexError).
Proof.
  cbv zeta. split.
  - intros (Hs & Hw & Ht). unfold build_problem. cbv zeta.
    step_mapM ltac:(rewrite getitem_Ok by lia; simpl; eauto).
    step_mapM ltac:(rewrite getitem_Ok by lia; simpl; eauto).
    step_mapM ltac:(rewrite getitem_Ok by lia; simpl; eauto).
    step_mapM ltac:(rewrite getitem_Ok by lia; simpl; eauto).
    step_mapM ltac:(rewrite getitem_Ok by lia; simpl;
                    rewrite getitem_Ok by lia; simpl; eauto).
    step_mapM ltac:(rewrite getitem_Ok by lia; simpl;
                    match goal with
                    | |- context [if ?b then _ else _] => destruct b
                    end; eauto).
    eauto.
  - intros Hshort.
    destruct (build_problem settings self load solar wind tariffs initial_soc)
      as [prob|e] eqn:E.
    + exfalso. apply Hshort. unfold build_problem in E. cbv zeta in E.
      inv_bind.
      assert (Hget : forall (xs : list Q) (t : nat),
                 (exists x, getitem xs t = Ok x) -> (t < length xs)%nat).
      { intros xs t (x & Hx). apply getitem_Ok_inv in Hx. tauto. }
      assert (Hlen : forall xs : list Q,
                 (forall t, In t (range (length load)) ->
                            (t < length xs)%nat) ->
                 (length load <= length xs)%nat).
      { intros xs Hall. destruct (length load) as [|n] eqn:En; [lia|].
        specialize (Hall n). rewrite in_range in Hall. lia. }
      repeat split; apply Hlen; intros t Hin.
      * apply mapM_Ok_inv in Hv. destruct Hv as [_ Hv].
        destruct (Hv t Hin) as [y Hy]. apply bind_Ok_inv in Hy.
        destruct Hy as (x & Hx & _). apply Hget. eauto.
      * apply mapM_Ok_inv in Hv0. destruct Hv0 as [_ Hv0].
        destruct (Hv0 t Hin) as [y Hy]. apply bind_Ok_inv in Hy.
        destruct Hy as (x & Hx & _). apply Hget. eauto.
      * apply mapM_Ok_inv in Hv1. destruct Hv1 as [_ Hv1].
        destruct (Hv1 t Hin) as [y Hy]. apply bind_Ok_inv in Hy.
        destruct Hy as (x & Hx & _). apply Hget. eauto.
    + destruct (raises_only_build_problem settings self load solar wind
                  tariffs initial_soc e E) as [<-|[]].
      reflexivity.
Qed.

Lemma build_problem_needs_entries_per_hour_witness :
  (exists prob,
      build_problem Settings.default default_optimizer [100] [50; 60] [0]
        [5; 6] 0.5 = Ok prob) /\
  build_problem Settings.default default_optimizer [100; 100] [50] [0; 0]
    [5; 6] 0.5 = Raise IndexError.
Proof.
  split.
  - apply (proj1 (build_problem_needs_entries_per_hour Settings.default
                    default_optimizer [100] [50; 60] [0] [5; 6] 0.5)).
    simpl. lia.
  - apply (proj2 (build_problem_needs_entries_per_hour Settings.default
                    default_optimizer [100; 100] [50] [0; 0] [5; 6] 0.5)).
    simpl. lia.
Defined.







(* ================================================================== *)
(** ** Which path of [optimize] produced a result                      *)
(* ================================================================== *)

Section OptimizePaths.

Variable settings : Settings.t.
Variable PULP_AVAILABLE : bool.
Variable solve : LpProblem -> LpSolution.
Variable self : TOUOptimizer.
Variables load solar wind tariffs : list Q.
Variable initial_soc : Q.

(** A returned result comes from the fallback, taken without backend
    or on a status other than Optimal, or from a solved problem, and
    then its schedules are the values of the solution, [None] read as
    0. *)
Lemma optimize_Ok_paths (r : OptimizationResult) :
  optimize settings PULP_AVAILABLE solve self load solar wind tariffs
    initial_soc = Ok r ->
  ((PULP_AVAILABLE = false \/
    exists prob,
      build_problem settings self load solar wind tariffs initial_soc
      = Ok prob /\
      sol_status (solve prob) <> LpStatusOptimal) /\
   _baseline_result load solar wind tariffs = Ok r) \/
  (PULP_AVAILABLE = true /\
   status r = "Optimal"%string /\
   exists prob,
     build_problem settings self load solar wind tariffs initial_soc
     = Ok prob /\
     sol_status (solve prob) = LpStatusOptimal /\
     grid_consumption r
     = map (fun t => or_zero (varValue (solve prob) (grid_buy t)))
         (range (length load)) /\
     battery_schedule r
     = map (fun t => or_zero (varValue (solve prob) (battery_charge t))
                     - or_zero (varValue (solve prob) (battery_discharge t)))
         (range (length load)) /\
     solar_utilization r
     = map (fun t => or_zero (varValue (solve prob) (solar_used t)))
         (range (length load))).
Proof.
  unfold optimize.
  destruct PULP_AVAILABLE; cbn [negb]; [|intros H; left; auto].
  intros H. inv_bind.
  destruct (sol_status (solve v)) eqn:Es; cbn in H;
    try (left; split; [right; exists v; split; [exact Hv|congruence]
                      | exact H]).
  right. inv_bind.
  destruct (objective_value (varValue (solve v)) (lp_objective v)) as [c|] eqn:Ev;
    [|discriminate].
  inv_bind. subst r. cbn.
  split; [reflexivity|]. split; [reflexivity|].
  exists v. split; [exact Hv|]. split; [exact Es|].
  split; [reflexivity|]. split; [|reflexivity].
  rewrite (mapM_Ok_map _
             (fun t => or_zero (varValue (solve v) (battery_charge t))
                       - or_zero (varValue (solve v) (battery_discharge t))))
    in Hv1.
  - injection Hv1 as <-. reflexivity.
  - intros t Ht. apply in_range in Ht.
    rewrite getitem_Ok by (rewrite length_map, length_range; exact Ht).
    cbn [bind].
    rewrite getitem_Ok by (rewrite length_map, length_range; exact Ht).
    cbn [bind].
    rewrite !(nth_map_Q _ 0%nat) by (rewrite length_range; exact Ht).
    unfold range. rewrite seq_nth by exact Ht. reflexivity.
Qed.

End OptimizePaths.

(** X8.  The status of a returned result is "Optimal" or "Baseline",
    never the name of another solver status; it is "Optimal" exactly
    when the backend is available and the solver reported Optimal for
    the problem that was built. *)
Theorem optimize_status_tells_path (settings : Settings.t)
    (PULP_AVAILABLE : bool) (solve : LpProblem -> LpSolution)
    (self : TOUOptimizer) (load solar wind tariffs : list Q)
    (initial_soc : Q) (r : OptimizationResult) :
  optimize settings PULP_AVAILABLE solve self load solar wind tariffs
    initial_soc = Ok r ->
  (status r = "Optimal"%string \/ status r = "Baseline"%string) /\
  (status r = "Optimal"%string <->
   PULP_AVAILABLE = true /\
   exists prob,
     build_problem settings self load solar wind tariffs initial_soc
     = Ok prob /\
     sol_status (solve prob) = LpStatusOptimal).
Proof.
  intros H.
  destruct (optimize_Ok_paths _ _ _ _ _ _ _ _ _ _ H)
    as [[Hfall Hb]|(Hp & Hs & prob & Hprob & Hopt & _)].
  - apply baseline_result_shape in Hb. destruct Hb as (Hs & _).
    split; [now right|]. rewrite Hs. split; [discriminate|].
    intros (Hp & prob & Hprob & Hopt).
    destruct Hfall as [Hf|(prob' & Hprob' & Hne)]; [congruence|].
    rewrite Hprob in Hprob'. injection Hprob' as <-. contradiction.
  - split; [now left|]. split; [|intros _; exact Hs].
    intros _. split; [exact Hp|]. exists prob. auto.
Qed.

Lemma optimize_status_tells_path_witness :
  exists r,
    optimize Settings.default true idle_battery_run default_optimizer
      [100] [50] [0] [5] 0.5 = Ok r /\
    (status r = "Optimal"%string \/ status r = "Baseline"%string).
Proof.
  destruct (optimize Settings.default true idle_battery_run default_optimizer
              [100] [50] [0] [5] 0.5) as [r|e] eqn:E.
  - exists r. split; [reflexivity|].
    exact (proj1 (optimize_status_tells_path _ _ _ _ _ _ _ _ _ _ E)).
  - vm_compute in E. discriminate E.
Defined.

(** X9.  On arrays of one length, the grid, battery and solar
    schedules of a returned result have one entry per hour, whichever
    path produced the result. *)
Theorem optimize_schedules_cover_horizon (settings : Settings.t)
    (PULP_AVAILABLE : bool) (solve : LpProblem -> LpSolution)
    (self : TOUOptimizer) (load solar wind tariffs : list Q)
    (initial_soc : Q) (r : OptimizationResult) :
  same_length load solar wind tariffs ->
  optimize settings PULP_AVAILABLE solve self load solar wind tariffs
    initial_soc = Ok r ->
  length (grid_consumption r) = length load /\
  length (battery_schedule r) = length load /\
  length (solar_utilization r) = length load.
Proof.
  intros Hsame H.
  destruct (optimize_Ok_paths _ _ _ _ _ _ _ _ _ _ H)
    as [[_ Hb]|(_ & _ & prob & _ & _ & -> & -> & ->)].
  - rewrite (baseline_result_same_length load solar wind tariffs Hsame) in Hb.
    injection Hb as <-.
    cbn [grid_consumption battery_schedule solar_utilization].
    destruct Hsame as (Hs & Hw & _).
    unfold fallback_net_load, np_maximum_scalar.
    rewrite length_map, !length_zip_with, repeat_length, Hs, Hw, !Nat.min_id.
    auto.
  - rewrite !length_map, length_range. auto.
Qed.

Lemma optimize_schedules_cover_horizon_witness :
  exists r,
    optimize Settings.default true idle_battery_run default_optimizer
      [100; 80] [50; 0] [0; 0] [5; 5] 0.5 = Ok r /\
    length (grid_consumption r) = 2%nat /\
    length (battery_schedule r) = 2%nat /\
    length (solar_utilization r) = 2%nat.
Proof.
  destruct (optimize Settings.default true idle_battery_run default_optimizer
              [100; 80] [50; 0] [0; 0] [5; 5] 0.5) as [r|e] eqn:E.
  - exists r. split; [reflexivity|].
    apply (optimize_schedules_cover_horizon Settings.default true
             idle_battery_run default_optimizer [100; 80] [50; 0] [0; 0]
             [5; 5] 0.5 r).
    + unfold same_length. simpl. auto.
    + exact E.
  - vm_compute in E. discriminate E.
Defined.

(** X10.  In every returned result the savings are the baseline cost
    minus the total cost, and when the baseline cost is positive the
    savings percentage is the savings over the baseline cost times
    100; this holds for the fallback result as well, whose savings are
    zero. *)
Theorem optimize_savings_consistent (settings : Settings.t)
    (PULP_AVAILABLE : bool) (solve : LpProblem -> LpSolution)
    (self : TOUOptimizer) (load solar wind tariffs : list Q)
    (initial_soc : Q) (r : OptimizationResult) :
  optimize settings PULP_AVAILABLE solve self load solar wind tariffs
    initial_soc = Ok r ->
  savings r == baseline_cost r - total_cost r /\
  (0 < baseline_cost r ->
   savings_percent r == savings r / baseline_cost r * 100).
Proof.
  intros H.
  destruct (optimize_Ok_inv _ _ _ _ _ _ _ _ _ _ H)
    as [Hb|(_ & _ & prob & bp & op & Hrest)].
  - apply baseline_result_shape in Hb.
    destruct Hb as (_ & Ht & Hs & Hp & _). rewrite Ht, Hs, Hp. split.
    + ring.
    + intros _. unfold Qdiv. ring.
  - destruct Hrest as (_ & _ & _ & _ & Hs & Hp & _). split.
    + rewrite Hs. reflexivity.
    + intros Hpos. unfold savings_percent_of in Hp.
      rewrite (proj2 (Qlt_bool_iff 0 (baseline_cost r)) Hpos) in Hp.
      rewrite checked_div_pos in Hp by exact Hpos. cbn [bind] in Hp.
      injection Hp as <-. reflexivity.
Qed.

Lemma optimize_savings_consistent_witness :
  exists r,
    optimize Settings.default true idle_battery_run default_optimizer
      [100] [50] [0] [5] 0.5 = Ok r /\
    savings r == baseline_cost r - total_cost r /\
    savings_percent r == savings r / baseline_cost r * 100.
Proof.
  destruct (optimize Settings.default true idle_battery_run default_optimizer
              [100] [50] [0] [5] 0.5) as [r|e] eqn:E.
  - exists r. split; [reflexivity|].
    destruct (optimize_savings_consistent _ _ _ _ _ _ _ _ _ _ E) as [H1 H2].
    split; [exact H1|]. apply H2.
    vm_compute in E. injection E as <-. vm_compute. reflexivity.
  - vm_compute in E. discriminate E.
Defined.

(* ================================================================== *)
(** ** The exceptions of the solved path                               *)
(* ================================================================== *)

Lemma raises_only_total {A : Type} (allowed : list exn) (m : result A) :
  (exists a, m = Ok a) -> raises_only allowed m.
Proof. intros (a & ->). apply raises_only_Ok. Qed.

Lemma build_problem_Ok_lengths (settings : Settings.t) (self : TOUOptimizer)
    (load solar wind tariffs : list Q) (initial_soc : Q) (prob : LpProblem) :
  build_problem settings self load solar wind tariffs initial_soc = Ok prob ->
  (length load <= length solar /\ length load <= length wind /\
   length load <= length tariffs)%nat.
Proof.
  intros E. unfold build_problem in E. cbv zeta in E. inv_bind.
  assert (Hlen : forall (xs : list Q) (B : Type) (k : nat -> Q -> result B)
                        (ys : list B),
             mapM (fun t => x <- getitem xs t ;; k t x) (range (length load))
             = Ok ys ->
             (length load <= length xs)%nat).
  { intros xs B k ys Hm. apply mapM_Ok_inv in Hm. destruct Hm as [_ Hm].
    destruct (length load) as [|n] eqn:En; [lia|].
    destruct (Hm n) as [y Hy]; [apply in_range; lia|].
    apply bind_Ok_inv in Hy. destruct Hy as (x & Hx & _).
    apply getitem_Ok_inv in Hx. lia. }
  repeat split.
  - exact (Hlen solar _ _ _ Hv).
  - exact (Hlen wind _ _ _ Hv0).
  - exact (Hlen tariffs _ _ _ Hv1).
Qed.

Section SolvedPathExceptions.

Variable settings : Settings.t.
Variable solve : LpProblem -> LpSolution.
Variable self : TOUOptimizer.
Variables load solar wind tariffs : list Q.
Variable initial_soc : Q.

#[local] Hint Extern 2 (raises_only _ (checked_div _ _)) =>
  rewrite checked_div_Ok by assumption; apply raises_only_Ok : raises.
#[local] Hint Extern 2 (raises_only _ (savings_percent_of _ _)) =>
  apply raises_only_total;
  match goal with
  | |- exists q, savings_percent_of ?s ?b = Ok q =>
      destruct (savings_percent_of_total s b) as (? & ? & _); eauto
  end : raises.
#[local] Hint Extern 2 (raises_only _ (peak_reduction_of _ _)) =>
  apply raises_only_total;
  match goal with
  | |- exists q, peak_reduction_of ?s ?b = Ok q =>
      destruct (peak_reduction_of_total s b) as (? & ? & _); eauto
  end : raises.
#[local] Hint Extern 2 (raises_only _ (_generate_recommendations _ _ _ _ _ _ _)) =>
  eapply raises_only_weaken; [|apply raises_only_generate_recommendations];
  intros ? [<-|[]]; simpl; tauto : raises.
#[local] Hint Extern 2 (raises_only _ (load_cost _ _)) =>
  eapply raises_only_weaken; [|apply raises_only_load_cost];
  intros ? [<-|[]]; simpl; tauto : raises.
#[local] Hint Extern 2 (raises_only _ (_baseline_result _ _ _ _)) =>
  eapply raises_only_weaken; [|apply raises_only_baseline_result];
  intros ? [<-|[<-|[]]]; simpl; tauto : raises.
#[local] Hint Extern 2 (raises_only _ (build_problem _ _ _ _ _ _ _)) =>
  eapply raises_only_weaken; [|apply raises_only_build_problem];
  intros ? [<-|[]]; simpl; tauto : raises.

(** With a battery capacity other than zero [optimize] raises no
    [ZeroDivisionError]. *)
Lemma optimize_raises_no_zero_division (PULP_AVAILABLE : bool) :
  ~ battery_capacity self == 0 ->
  raises_only [IndexError; ValueError; TypeError]
    (optimize settings PULP_AVAILABLE solve self load solar wind tariffs
       initial_soc).
Proof.
  intros Hcap. unfold optimize.
  destruct PULP_AVAILABLE; cbn [negb]; [|raises].
  apply raises_only_bind; [raises|]. intros prob _. cbv zeta.
  destruct (sol_status (solve prob)); eval_status; raises.
Qed.

(** When the solver gives the objective a value as well, no
    [TypeError] either. *)
Lemma optimize_raises_no_type_error (PULP_AVAILABLE : bool) :
  ~ battery_capacity self == 0 ->
  (forall prob, objective_value (varValue (solve prob)) (lp_objective prob)
                <> None) ->
  raises_only [IndexError; ValueError]
    (optimize settings PULP_AVAILABLE solve self load solar wind tariffs
       initial_soc).
Proof.
  intros Hcap Hval. unfold optimize.
  destruct PULP_AVAILABLE; cbn [negb]; [|raises].
  apply raises_only_bind; [raises|]. intros prob _. cbv zeta.
  destruct (sol_status (solve prob)); eval_status; try solve [raises].
  apply raises_only_bind; [raises|]. intros socs _.
  apply raises_only_bind; [raises|]. intros bs _.
  apply raises_only_bind; [raises|]. intros bc _.
  destruct (objective_value (varValue (solve prob)) (lp_objective prob)) eqn:Ev;
    [raises | exfalso; exact (Hval prob Ev)].
Qed.

End SolvedPathExceptions.

Section SolvedPathFailures.

Variable settings : Settings.t.
Variable solve : LpProblem -> LpSolution.
Variable self : TOUOptimizer.
Variables load solar wind tariffs : list Q.
Variable initial_soc : Q.
Variable prob : LpProblem.

Hypothesis Hbuild :
  build_problem settings self load solar wind tariffs initial_soc = Ok prob.
Hypothesis Hoptimal : sol_status (solve prob) = LpStatusOptimal.

(** After a solved problem the state-of-charge schedule divides by the
    battery capacity. *)
Lemma optimize_zero_capacity :
  battery_capacity self == 0 ->
  optimize settings true solve self load solar wind tariffs initial_soc
  = Raise ZeroDivisionError.
Proof.
  intros Hcap. unfold optimize. cbn [negb]. rewrite Hbuild. cbn [bind].
  cbv zeta. rewrite Hoptimal. eval_status.
  assert (Hdiv : forall a, checked_div a (battery_capacity self)
                           = Raise ZeroDivisionError).
  { intros a. unfold checked_div.
    rewrite (Qeq_eq_bool _ _ Hcap). reflexivity. }
  rewrite (mapM_Raise _ _ ZeroDivisionError).
  - reflexivity.
  - exists 0%nat. split; [apply in_range; lia | apply Hdiv].
  - intros t _. rewrite Hdiv. apply raises_only_Raise. now left.
Qed.

(** A solution without a value for the objective makes the
    subtraction [baseline_cost - total_cost] fail. *)
Lemma optimize_valueless_objective :
  ~ battery_capacity self == 0 ->
  objective_value (varValue (solve prob)) (lp_objective prob) = None ->
  optimize settings true solve self load solar wind tariffs initial_soc
  = Raise TypeError.
Proof.
  intros Hcap Hnone.
  destruct (build_problem_Ok_lengths _ _ _ _ _ _ _ _ Hbuild) as (_ & _ & Ht).
  unfold optimize. cbn [negb]. rewrite Hbuild. cbn [bind].
  cbv zeta. rewrite Hoptimal. eval_status.
  step_mapM ltac:(rewrite checked_div_Ok by exact Hcap; eauto).
  step_mapM ltac:(rewrite getitem_Ok by (rewrite length_map, length_range; lia);
                  cbn [bind];
                  rewrite getitem_Ok by (rewrite length_map, length_range; lia);
                  cbn [bind]; eauto).
  destruct (load_cost_total load tariffs Ht) as [c ->]. cbn [bind].
  rewrite Hnone. reflexivity.
Qed.

End SolvedPathFailures.

(** X11.  [optimize] raises [ZeroDivisionError] exactly when the
    backend is available, the solver reports Optimal for the problem
    that was built and the battery capacity is zero: the division that
    fails is the one of the state-of-charge schedule. *)
Theorem optimize_zero_division_iff (settings : Settings.t)
    (PULP_AVAILABLE : bool) (solve : LpProblem -> LpSolution)
    (self : TOUOptimizer) (load solar wind tariffs : list Q)
    (initial_soc : Q) :
  optimize settings PULP_AVAILABLE solve self load solar wind tariffs
    initial_soc = Raise ZeroDivisionError <->
  PULP_AVAILABLE = true /\
  battery_capacity self == 0 /\
  exists prob,
    build_problem settings self load solar wind tariffs initial_soc
    = Ok prob /\
    sol_status (solve prob) = LpStatusOptimal.
Proof.
  split.
  - intros H.
    assert (Hcap : battery_capacity self == 0).
    { destruct (Qeq_dec (battery_capacity self) 0) as [E|E]; [exact E|].
      exfalso.
      pose proof (optimize_raises_no_zero_division settings solve self load
                    solar wind tariffs initial_soc PULP_AVAILABLE E _ H) as Hin.
      simpl in Hin. intuition discriminate. }
    unfold optimize in H. destruct PULP_AVAILABLE; cbn [negb] in H.
    + split; [reflexivity|]. split; [exact Hcap|].
      apply bind_Raise_inv in H. destruct H as [H|(prob & Hp & H)].
      * apply raises_only_build_problem in H. simpl in H.
        intuition discriminate.
      * exists prob. split; [exact Hp|]. cbv zeta in H.
        destruct (sol_status (solve prob)); try reflexivity;
          exfalso; revert H; eval_status; intros H;
          apply raises_only_baseline_result in H; simpl in H;
          intuition discriminate.
    + exfalso. apply raises_only_baseline_result in H. simpl in H.
      intuition discriminate.
  - intros (-> & Hcap & prob & Hp & Hopt).
    exact (optimize_zero_capacity _ _ _ _ _ _ _ _ _ Hp Hopt Hcap).
Qed.

Lemma optimize_zero_division_iff_witness :
  optimize Settings.default true idle_battery_run
    (set_battery_capacity default_optimizer 0) [100] [50] [0] [5] 0.5
  = Raise ZeroDivisionError.
Proof.
  apply optimize_zero_division_iff.
  split; [reflexivity|]. split; [reflexivity|].
  eexists. split; [vm_compute; reflexivity | reflexivity].
Defined.

(** The objective of a built problem is without terms exactly when
    the load is empty. *)
Lemma build_problem_objective_constant (settings : Settings.t)
    (self : TOUOptimizer) (load solar wind tariffs : list Q)
    (initial_soc : Q) (prob : LpProblem) :
  build_problem settings self load solar wind tariffs initial_soc = Ok prob ->
  (aff_terms (lp_objective prob) = [] <-> load = []).
Proof.
  intros Hp. split.
  - intros Hterms. destruct load as [|l load'] eqn:El; [reflexivity|].
    exfalso.
    apply (build_problem_objective_terms _ _ _ _ _ _ _ _ Hp);
      [discriminate | exact Hterms].
  - intros ->. unfold build_problem in Hp. cbn in Hp.
    injection Hp as <-. reflexivity.
Qed.

(** A [TypeError] comes from the subtraction
    [baseline_cost - total_cost] of a solved run whose objective has
    the value [None], and from nowhere else. *)
Lemma optimize_type_error_objective (settings : Settings.t)
    (PULP_AVAILABLE : bool) (solve : LpProblem -> LpSolution)
    (self : TOUOptimizer) (load solar wind tariffs : list Q)
    (initial_soc : Q) :
  optimize settings PULP_AVAILABLE solve self load solar wind tariffs
    initial_soc = Raise TypeError <->
  PULP_AVAILABLE = true /\
  ~ battery_capacity self == 0 /\
  exists prob,
    build_problem settings self load solar wind tariffs initial_soc
    = Ok prob /\
    sol_status (solve prob) = LpStatusOptimal /\
    objective_value (varValue (solve prob)) (lp_objective prob) = None.
Proof.
  split.
  - intros H.
    assert (Hpath : PULP_AVAILABLE = true /\
                    exists prob,
                      build_problem settings self load solar wind tariffs
                        initial_soc = Ok prob /\
                      sol_status (solve prob) = LpStatusOptimal).
    { unfold optimize in H. destruct PULP_AVAILABLE; cbn [negb] in H.
      - split; [reflexivity|].
        apply bind_Raise_inv in H. destruct H as [H|(prob & Hp & H)].
        + apply raises_only_build_problem in H. simpl in H.
          intuition discriminate.
        + exists prob. split; [exact Hp|]. cbv zeta in H.
          destruct (sol_status (solve prob)); try reflexivity;
            exfalso; revert H; eval_status; intros H;
            apply raises_only_baseline_result in H; simpl in H;
            intuition discriminate.
      - exfalso. apply raises_only_baseline_result in H. simpl in H.
        intuition discriminate. }
    destruct Hpath as (-> & prob & Hp & Hopt).
    split; [reflexivity|].
    assert (Hcap : ~ battery_capacity self == 0).
    { intros E.
      rewrite (optimize_zero_capacity _ _ _ _ _ _ _ _ _ Hp Hopt E) in H.
      discriminate H. }
    split; [exact Hcap|]. exists prob. split; [exact Hp|].
    split; [exact Hopt|].
    destruct (objective_value (varValue (solve prob)) (lp_objective prob))
      as [c|] eqn:Ev; [exfalso | reflexivity].
    revert H. unfold optimize. cbn [negb]. rewrite Hp. cbn [bind].
    cbv zeta. rewrite Hopt. eval_status. rewrite Ev. intros H.
    repeat match type of H with
           | bind _ _ = Raise _ =>
               apply bind_Raise_inv in H;
               destruct H as [H|(? & _ & H)]
           end;
      try discriminate H.
    + apply (raises_only_mapM [IndexError; ValueError]) in H;
        [simpl in H; intuition discriminate|].
      intros t _. rewrite checked_div_Ok by exact Hcap. apply raises_only_Ok.
    + apply (raises_only_mapM [IndexError; ValueError]) in H;
        [simpl in H; intuition discriminate|].
      intros t _. raises.
    + apply raises_only_load_cost in H. simpl in H. intuition discriminate.
    + destruct (savings_percent_of_total (x1 - c) x1) as (q & Hq & _).
      rewrite Hq in H. discriminate H.
    + apply raises_only_py_max in H. simpl in H. intuition discriminate.
    + apply raises_only_py_max in H. simpl in H. intuition discriminate.
    + destruct (peak_reduction_of_total x3 x4) as (q & Hq & _).
      rewrite Hq in H. discriminate H.
    + apply raises_only_generate_recommendations in H. simpl in H.
      intuition discriminate.
  - intros (-> & Hcap & prob & Hp & Hopt & Hnone).
    exact (optimize_valueless_objective _ _ _ _ _ _ _ _ _ Hp Hopt Hcap Hnone).
Qed.

(** X12.  With positive tariffs, so that every hour contributes its
    terms to the objective, [optimize] raises [TypeError] exactly when
    the backend is available, the solver reports Optimal, the battery
    capacity is not zero and the objective has no value: the load is
    empty, so that the objective is without terms and holds the
    valueless dummy variable of PuLP, or the solution leaves a variable
    of the objective without a value. *)
Theorem optimize_type_error_iff (settings : Settings.t)
    (PULP_AVAILABLE : bool) (solve : LpProblem -> LpSolution)
    (self : TOUOptimizer) (load solar wind tariffs : list Q)
    (initial_soc : Q) :
  Forall (fun p => 0 < p) tariffs ->
  (optimize settings PULP_AVAILABLE solve self load solar wind tariffs
     initial_soc = Raise TypeError <->
   PULP_AVAILABLE = true /\
   ~ battery_capacity self == 0 /\
   exists prob,
     build_problem settings self load solar wind tariffs initial_soc
     = Ok prob /\
     sol_status (solve prob) = LpStatusOptimal /\
     (load = [] \/
      pulp_value (varValue (solve prob)) (lp_objective prob) = None)).
Proof.
  intros _. rewrite optimize_type_error_objective.
  split; intros (Hpulp & Hcap & prob & Hp & Hopt & Hnone);
    (split; [exact Hpulp|]; split; [exact Hcap|]; exists prob;
     split; [exact Hp|]; split; [exact Hopt|]).
  - apply objective_value_None in Hnone. destruct Hnone as [Hterms|Hval].
    + left. exact (proj1 (build_problem_objective_constant _ _ _ _ _ _ _ _ Hp)
                     Hterms).
    + right. exact Hval.
  - apply objective_value_None. destruct Hnone as [Hload|Hval].
    + left. exact (proj2 (build_problem_objective_constant _ _ _ _ _ _ _ _ Hp)
                     Hload).
    + right. exact Hval.
Qed.

Lemma optimize_type_error_iff_witness :
  optimize Settings.default true valueless_run default_optimizer
    [100] [50] [0] [5] 0.5 = Raise TypeError.
Proof.
  apply optimize_type_error_iff.
  - repeat constructor.
  - split; [reflexivity|]. split; [vm_compute; discriminate|].
    eexists. split; [vm_compute; reflexivity|].
    split; [reflexivity | right; vm_compute; reflexivity].
Defined.

(** X13.  On an empty horizon [optimize] returns a result only
    through the fallback: the result has status "Baseline".  When the
    backend is available and the solver reports Optimal for the empty
    problem, no result is returned: the run raises
    [ZeroDivisionError] with a battery capacity of zero and
    [TypeError] otherwise, the objective of the empty problem having
    no value. *)
Theorem optimize_empty_horizon (settings : Settings.t)
    (PULP_AVAILABLE : bool) (solve : LpProblem -> LpSolution)
    (self : TOUOptimizer) (solar wind tariffs : list Q) (initial_soc : Q) :
  (forall r,
      optimize settings PULP_AVAILABLE solve self [] solar wind tariffs
        initial_soc = Ok r ->
      status r = "Baseline"%string) /\
  (PULP_AVAILABLE = true ->
   (forall prob,
       build_problem settings self [] solar wind tariffs initial_soc
       = Ok prob ->
       sol_status (solve prob) = LpStatusOptimal) ->
   optimize settings PULP_AVAILABLE solve self [] solar wind tariffs
     initial_soc
   = Raise (if Qeq_bool (battery_capacity self) 0 then ZeroDivisionError
            else TypeError)).
Proof.
  split.
  - intros r H.
    destruct (optimize_Ok_inv _ _ _ _ _ _ _ _ _ _ H)
      as [Hb|(_ & _ & prob & bp & op & Hrest)].
    + apply baseline_result_shape in Hb. tauto.
    + destruct Hrest as (_ & _ & _ & _ & _ & _ & Hmax & _).
      discriminate Hmax.
  - intros -> Hopt.
    assert (Hp : exists prob,
               build_problem settings self [] solar wind tariffs initial_soc
               = Ok prob).
    { eexists. reflexivity. }
    destruct Hp as [prob Hp]. pose proof (Hopt prob Hp) as Hoptimal.
    destruct (Qeq_bool (battery_capacity self) 0) eqn:Ecap.
    + apply Qeq_bool_eq in Ecap.
      exact (optimize_zero_capacity _ _ _ _ _ _ _ _ _ Hp Hoptimal Ecap).
    + apply Qeq_bool_neq in Ecap.
      apply (optimize_valueless_objective _ _ _ _ _ _ _ _ _ Hp Hoptimal Ecap).
      apply objective_value_None. left.
      exact (proj2 (build_problem_objective_constant _ _ _ _ _ _ _ _ Hp)
               eq_refl).
Qed.

Lemma optimize_empty_horizon_witness :
  optimize Settings.default true idle_battery_run default_optimizer
    [] [] [] [] 0.5 = Raise TypeError.
Proof.
  apply (proj2 (optimize_empty_horizon Settings.default true idle_battery_run
                  default_optimizer [] [] [] 0.5)).
  - reflexivity.
  - intros prob _. reflexivity.
Defined.

(* ================================================================== *)
(** ** More on the recommendation rules                                *)
(* ================================================================== *)

Section RuleShapes.

Variable settings : Settings.t.
Variables load solar grid battery tariffs : list Q.
Variable peak_reduction : Q.

Lemma rule_battery_shape :
  rule_battery battery = [] \/
  exists k, rule_battery battery = [BatteryDischarged k].
Proof.
  unfold rule_battery. cbv zeta.
  match goal with |- context [if ?b then _ else _] => destruct b end; eauto.
Qed.

Lemma rule_solar_shape (r3 : list recommendation) :
  rule_solar load solar = Ok r3 ->
  r3 = [] \/ exists p e, r3 = [SolarUtilization p e].
Proof.
  rewrite rule_solar_eq. intros H. injection H as <-.
  destruct (Qlt_bool 0 (solar_available_total solar)); eauto.
Qed.

Lemma rule_peak_shaving_shape :
  rule_peak_shaving peak_reduction = [] \/
  rule_peak_shaving peak_reduction = [PeakShaved peak_reduction].
Proof.
  unfold rule_peak_shaving. destruct (Qlt_bool 5 peak_reduction); auto.
Qed.

Lemma rule_off_peak_shape :
  rule_off_peak settings battery tariffs = [] \/
  exists a b k, rule_off_peak settings battery tariffs = [OffPeakCharging a b k].
Proof.
  unfold rule_off_peak. cbv zeta.
  destruct (off_peak_hours_of settings tariffs); [now left|].
  match goal with |- context [if ?b then _ else _] => destruct b end; eauto 6.
Qed.


End RuleShapes.

(** X14.  The generator returns either the default entry alone or a
    list without the default entry in which the entries follow the
    order of the rules, at most one per rule, hence at most five. *)
Theorem recommendations_in_rule_order (settings : Settings.t)
    (load solar grid battery tariffs : list Q) (peak_reduction : Q)
    (recs : list recommendation) :
  _generate_recommendations settings load solar grid battery tariffs
    peak_reduction = Ok recs ->
  (recs = [NothingSpecial] \/
   (~ In NothingSpecial recs /\
    StronglySorted lt (map rule_number recs) /\
    Forall (fun r => (1 <= rule_number r <= 5)%nat) recs)) /\
  (length recs <= 5)%nat.
Proof.
  intros H.
  destruct (generate_recommendations_Ok_inv _ _ _ _ _ _ _ _ H)
    as (r1 & r3 & H1 & H3 & ->).
  destruct (rule_peak_period_shape _ _ _ _ _ H1) as [->|(a1 & b1 & c1 & ->)];
  destruct (rule_battery_shape battery) as [->|(k2 & ->)];
  destruct (rule_solar_shape _ _ _ H3) as [->|(p3 & e3 & ->)];
  destruct (rule_peak_shaving_shape peak_reduction) as [->| ->];
  destruct (rule_off_peak_shape settings battery tariffs)
    as [->|(a5 & b5 & k5 & ->)];
  cbn [app or_default length map rule_number];
  (split; [|lia]);
  first [ left; reflexivity
        | right; split;
          [ cbn [In]; intuition discriminate
          | split; repeat constructor; lia ] ].
Qed.

Lemma recommendations_in_rule_order_witness :
  exists recs,
    _generate_recommendations Settings.default [100; 100] [50; 0] [70; 60]
      [20; -30] [2; 9] 10 = Ok recs /\
    (length recs <= 5)%nat /\
    map rule_number recs = [1; 2; 3; 4; 5]%nat.
Proof.
  destruct (_generate_recommendations Settings.default [100; 100] [50; 0]
              [70; 60] [20; -30] [2; 9] 10) as [recs|e] eqn:E.
  - exists recs. split; [reflexivity|].
    split; [exact (proj2 (recommendations_in_rule_order _ _ _ _ _ _ _ _ E))|].
    vm_compute in E. injection E as <-. reflexivity.
  - vm_compute in E. discriminate E.
Defined.













(* ================================================================== *)
(** ** More on [optimize_schedule]                                     *)
(* ================================================================== *)

Lemma length_column_or (present : bool) (field : Row -> Q) (d : Q)
    (df : DataFrame) :
  length (column_or present field d df) = length (rows df).
Proof.
  unfold column_or. destruct present;
    [apply length_map | apply repeat_length].
Qed.

Lemma length_rescale (scale_factor : Q) (xs : list Q) :
  length (rescale scale_factor xs) = length xs.
Proof. apply length_map. Qed.

Lemma scale_forecast_eq (self : TOUOptimizer) (df : DataFrame) (m : Q) :
  py_max (column_or (has_predicted_load_mw df) predicted_load_mw 0 df) = Ok m ->
  let scale_factor :=
    max_contract self * 0.8 / ((if Qlt_bool 0 m then m else 1) * 1000) in
  scale_forecast self df
  = Ok (rescale scale_factor
          (column_or (has_predicted_load_mw df) predicted_load_mw 0 df),
        rescale scale_factor
          (column_or (has_predicted_solar_mw df) predicted_solar_mw 0 df),
        rescale scale_factor
          (column_or (has_predicted_wind_mw df) predicted_wind_mw 0 df),
        column_or (has_tariff df) tariff 5.0 df).
Proof.
  intros Hm. cbv zeta.
  assert (Hlm : load_max_mw_of
                  (column_or (has_predicted_load_mw df) predicted_load_mw 0 df)
                = Ok (if Qlt_bool 0 m then m else 1)).
  { unfold load_max_mw_of. rewrite Hm. cbn [bind].
    destruct (Qlt_bool 0 m); reflexivity. }
  pose proof (load_max_mw_of_positive _ _ Hlm) as Hpos.
  unfold scale_forecast, scale_factor_of. cbv zeta. rewrite Hlm. cbn [bind].
  rewrite checked_div_pos
    by (apply Qmult_lt_0_compat; [exact Hpos | reflexivity]).
  reflexivity.
Qed.

Lemma scale_forecast_empty (self : TOUOptimizer) (df : DataFrame) :
  rows df = [] -> scale_forecast self df = Raise ValueError.
Proof.
  intros Hrows. unfold scale_forecast, scale_factor_of, load_max_mw_of.
  cbv zeta.
  assert (E : column_or (has_predicted_load_mw df) predicted_load_mw 0 df = []).
  { unfold column_or. rewrite Hrows. destruct (has_predicted_load_mw df);
      reflexivity. }
  rewrite E. reflexivity.
Qed.

(** X20.  On a forecast without rows [optimize_schedule] raises
    [ValueError], whatever the columns, the backend and the solver:
    the maximum of the empty load column is taken before anything
    else. *)
Theorem optimize_schedule_empty_forecast (settings : Settings.t)
    (PULP_AVAILABLE : bool) (solve : LpProblem -> LpSolution)
    (self : TOUOptimizer) (forecast_df : DataFrame) (initial_soc : Q) :
  rows forecast_df = [] ->
  optimize_schedule settings PULP_AVAILABLE solve self forecast_df initial_soc
  = Raise ValueError.
Proof.
  intros Hrows. unfold optimize_schedule.
  rewrite (scale_forecast_empty self forecast_df Hrows). reflexivity.
Qed.

Lemma optimize_schedule_empty_forecast_witness :
  optimize_schedule Settings.default true idle_battery_run default_optimizer
    empty_frame 0.5 = Raise ValueError.
Proof.
  apply optimize_schedule_empty_forecast. reflexivity.
Defined.

Lemma set_column_Ok (df : DataFrame) (xs ys : list Q) :
  set_column df xs = Ok ys -> ys = xs /\ length ys = length (rows df).
Proof.
  unfold set_column.
  destruct (Nat.eqb_spec (length xs) (length (rows df))) as [E|E];
    [|discriminate].
  intros H. injection H as <-. auto.
Qed.

(** X21.  On a forecast with at least one row, when the backend is
    unavailable or the solver never reports Optimal,
    [optimize_schedule] returns: the result has status "Baseline", the
    five columns added to the schedule have one value per row, and
    the grid column is the grid schedule of the result. *)
Theorem optimize_schedule_fallback_returns (settings : Settings.t)
    (PULP_AVAILABLE : bool) (solve : LpProblem -> LpSolution)
    (self : TOUOptimizer) (forecast_df : DataFrame) (initial_soc : Q) :
  rows forecast_df <> [] ->
  (PULP_AVAILABLE = false \/
   forall prob, sol_status (solve prob) <> LpStatusOptimal) ->
  exists out,
    optimize_schedule settings PULP_AVAILABLE solve self forecast_df
      initial_soc = Ok out /\
    status (result_of out) = "Baseline"%string /\
    optimized_grid_kw (schedule out) = grid_consumption (result_of out) /\
    let n := length (rows forecast_df) in
    length (optimized_grid_kw (schedule out)) = n /\
    length (battery_schedule_kw (schedule out)) = n /\
    length (solar_used_kw (schedule out)) = n /\
    length (baseline_cost_column (schedule out)) = n /\
    length (optimized_cost_column (schedule out)) = n.
Proof.
  intros Hrows Hfall.
  destruct (py_max_nonempty
              (column_or (has_predicted_load_mw forecast_df)
                 predicted_load_mw 0 forecast_df)) as [m Hm];
    [apply column_or_nonempty; exact Hrows|].
  pose proof (scale_forecast_eq self forecast_df m Hm) as Hs. cbv zeta in Hs.
  set (sf := max_contract self * 0.8
             / ((if Qlt_bool 0 m then m else 1) * 1000)) in *.
  set (load := rescale sf (column_or (has_predicted_load_mw forecast_df)
                             predicted_load_mw 0 forecast_df)) in *.
  set (solar := rescale sf (column_or (has_predicted_solar_mw forecast_df)
                              predicted_solar_mw 0 forecast_df)) in *.
  set (wind := rescale sf (column_or (has_predicted_wind_mw forecast_df)
                             predicted_wind_mw 0 forecast_df)) in *.
  set (tariffs := column_or (has_tariff forecast_df) tariff 5.0 forecast_df)
    in *.
  assert (Ll : length load = length (rows forecast_df))
    by (unfold load; rewrite length_rescale; apply length_column_or).
  assert (Ls : length solar = length (rows forecast_df))
    by (unfold solar; rewrite length_rescale; apply length_column_or).
  assert (Lw : length wind = length (rows forecast_df))
    by (unfold wind; rewrite length_rescale; apply length_column_or).
  assert (Lt : length tariffs = length (rows forecast_df))
    by (unfold tariffs; apply length_column_or).
  assert (Hsame : same_length load solar wind tariffs)
    by (unfold same_length; repeat split; congruence).
  assert (Hopt : optimize settings PULP_AVAILABLE solve self load solar wind
                   tariffs initial_soc
                 = _baseline_result load solar wind tariffs).
  { apply optimize_fallback_same_length; [exact Hsame|].
    destruct Hfall as [Hf|Hf]; [now left | right; intros prob _; apply Hf]. }
  pose proof (baseline_result_same_length load solar wind tariffs Hsame) as Hb.
  assert (Ln : length (fallback_net_load load solar wind)
               = length (rows forecast_df)).
  { unfold fallback_net_load, np_maximum_scalar.
    rewrite length_map, !length_zip_with, Ls, Lw, Ll, !Nat.min_id.
    reflexivity. }
  unfold optimize_schedule. rewrite Hs. cbn [bind]. rewrite Hopt, Hb.
  cbn [bind grid_consumption battery_schedule solar_utilization].
  unfold set_column, np_multiply.
  rewrite Ln, Nat.eqb_refl. cbn [bind].
  rewrite repeat_length, Ll, Nat.eqb_refl. cbn [bind].
  rewrite length_zip_with, Ls, Ll, Nat.min_id, Nat.eqb_refl. cbn [bind].
  rewrite (np_broadcast_same_length Qmult load tariffs) by congruence.
  cbn [bind].
  rewrite length_zip_with, Ll, Lt, Nat.min_id, Nat.eqb_refl. cbn [bind].
  rewrite (np_broadcast_same_length Qmult (fallback_net_load load solar wind)
             tariffs) by congruence.
  cbn [bind].
  rewrite length_zip_with, Ln, Lt, Nat.min_id, Nat.eqb_refl. cbn [bind].
  eexists. split; [reflexivity|].
  cbn [result_of schedule status optimized_grid_kw battery_schedule_kw
       solar_used_kw baseline_cost_column optimized_cost_column
       grid_consumption].
  split; [reflexivity|]. split; [reflexivity|].
  rewrite Ln, repeat_length, !length_zip_with, Ls, Ll, Ln, Lt, !Nat.min_id.
  repeat split; reflexivity.
Qed.

Lemma optimize_schedule_fallback_returns_witness :
  exists out,
    optimize_schedule Settings.default true infeasible_run default_optimizer
      one_hour_frame 0.5 = Ok out /\
    status (result_of out) = "Baseline"%string /\
    length (optimized_grid_kw (schedule out)) = 1%nat.
Proof.
  destruct (optimize_schedule_fallback_returns Settings.default true
              infeasible_run default_optimizer one_hour_frame 0.5)
    as (out & Hout & Hs & _ & Hlen & _).
  - simpl. discriminate.
  - right. intros prob. simpl. discriminate.
  - exists out. split; [exact Hout|]. split; [exact Hs | exact Hlen].
Defined.

(* ================================================================== *)
(** ** More on [simulate_scenarios]                                    *)
(* ================================================================== *)

Section ScenarioLoop.

Variable settings : Settings.t.
Variable PULP_AVAILABLE : bool.
Variable solve : LpProblem -> LpSolution.
Variable forecast_df : DataFrame.

Lemma simulate_loop_names (scenarios : list Scenario.t) :
  forall (self self' : TOUOptimizer) (i : nat)
         (acc results : list ScenarioResult),
    simulate_loop settings PULP_AVAILABLE solve self forecast_df i scenarios
      acc = (self', Ok results) ->
    map scenario_name results
    = map scenario_name acc ++ scenario_labels i scenarios.
Proof.
  induction scenarios as [|scenario rest IH]; intros self self' i acc results H.
  - simpl in H. injection H as _ <-. simpl. now rewrite app_nil_r.
  - cbn [simulate_loop] in H. cbv zeta in H.
    destruct (optimize_schedule settings PULP_AVAILABLE solve
                (apply_overrides self scenario) forecast_df
                (dict_get (Scenario.initial_soc scenario) 0.5))
      as [out|e]; [|discriminate H].
    apply IH in H. rewrite H, map_app, <- app_assoc. reflexivity.
Qed.

(** The loop stops at the first scenario whose run raises, with the
    overrides of that scenario applied to the original optimizer. *)
Lemma simulate_loop_Raise (before : list Scenario.t) :
  forall (self : TOUOptimizer) (i : nat) (acc : list ScenarioResult)
         (scenario : Scenario.t) (after : list Scenario.t) (e : exn),
    (forall s, In s before ->
               exists out,
                 optimize_schedule settings PULP_AVAILABLE solve
                   (apply_overrides self s) forecast_df
                   (dict_get (Scenario.initial_soc s) 0.5) = Ok out) ->
    optimize_schedule settings PULP_AVAILABLE solve
      (apply_overrides self scenario) forecast_df
      (dict_get (Scenario.initial_soc scenario) 0.5) = Raise e ->
    simulate_loop settings PULP_AVAILABLE solve self forecast_df i
      (before ++ scenario :: after) acc
    = (apply_overrides self scenario, Raise e).
Proof.
  induction before as [|s before IH];
    intros self i acc scenario after e Hbefore Hraise.
  - apply simulate_loop_Raise_first. exact Hraise.
  - cbn [app simulate_loop]. cbv zeta.
    destruct (Hbefore s (or_introl eq_refl)) as [out ->].
    rewrite restore_apply_overrides.
    apply IH; [|exact Hraise].
    intros s' Hs'. apply Hbefore. now right.
Qed.

(** Whatever the outcome, the loop leaves the efficiency, the
    state-of-charge limits and the horizon of the optimizer alone. *)
Lemma simulate_loop_frame (scenarios : list Scenario.t) :
  forall (self : TOUOptimizer) (i : nat) (acc : list ScenarioResult),
    let self' := fst (simulate_loop settings PULP_AVAILABLE solve self
                        forecast_df i scenarios acc) in
    battery_efficiency self' = battery_efficiency self /\
    min_soc self' = min_soc self /\
    max_soc self' = max_soc self /\
    time_horizon self' = time_horizon self.
Proof.
  induction scenarios as [|scenario rest IH]; intros self i acc; cbv zeta.
  - simpl. auto.
  - cbn [simulate_loop]. cbv zeta.
    destruct (optimize_schedule settings PULP_AVAILABLE solve
                (apply_overrides self scenario) forecast_df
                (dict_get (Scenario.initial_soc scenario) 0.5)) as [out|e].
    + rewrite restore_apply_overrides. apply IH.
    + simpl. auto.
Qed.

End ScenarioLoop.

Lemma length_scenario_labels (i : nat) (scenarios : list Scenario.t) :
  length (scenario_labels i scenarios) = length scenarios.
Proof.
  revert i. induction scenarios as [|s rest IH]; intros i; simpl;
    [reflexivity | now rewrite IH].
Qed.

(** X22.  When [simulate_scenarios] returns there is one result per
    scenario, in order, and the result of scenario number [i]
    (counting from 0) is named by the [name] key of the scenario or,
    without that key, "Scenario_" followed by [i + 1]. *)
Theorem simulate_scenarios_result_names (settings : Settings.t)
    (PULP_AVAILABLE : bool) (solve : LpProblem -> LpSolution)
    (self self' : TOUOptimizer) (forecast_df : DataFrame)
    (scenarios : list Scenario.t) (results : list ScenarioResult) :
  simulate_scenarios settings PULP_AVAILABLE solve self forecast_df scenarios
    = (self', Ok results) ->
  length results = length scenarios /\
  map scenario_name results = scenario_labels 0 scenarios.
Proof.
  unfold simulate_scenarios. intros H.
  apply simulate_loop_names in H. simpl in H. split; [|exact H].
  rewrite <- (length_map scenario_name), H. apply length_scenario_labels.
Qed.

Lemma simulate_scenarios_result_names_witness :
  exists self' results,
    simulate_scenarios Settings.default false infeasible_run default_optimizer
      one_hour_frame [bigger_battery; smaller_contract]
      = (self', Ok results) /\
    map scenario_name results = ["Scenario_1"; "small contract"]%string.
Proof.
  destruct (simulate_scenarios Settings.default false infeasible_run
              default_optimizer one_hour_frame
              [bigger_battery; smaller_contract]) as [self' [results|e]] eqn:E.
  - exists self', results. split; [reflexivity|].
    exact (proj2 (simulate_scenarios_result_names _ _ _ _ _ _ _ _ E)).
  - vm_compute in E. discriminate E.
Defined.

(** X23.  When the runs of the scenarios before some scenario return
    and the run of that scenario raises, [simulate_scenarios] raises
    the same exception, the results gathered so far are lost, and the
    optimizer is left with the overrides of the failing scenario
    applied to its original configuration. *)
Theorem simulate_scenarios_stops_at_first_failure (settings : Settings.t)
    (PULP_AVAILABLE : bool) (solve : LpProblem -> LpSolution)
    (self : TOUOptimizer) (forecast_df : DataFrame)
    (before after : list Scenario.t) (scenario : Scenario.t) (e : exn) :
  (forall s, In s before ->
             exists out,
               optimize_schedule settings PULP_AVAILABLE solve
                 (apply_overrides self s) forecast_df
                 (dict_get (Scenario.initial_soc s) 0.5) = Ok out) ->
  optimize_schedule settings PULP_AVAILABLE solve
    (apply_overrides self scenario) forecast_df
    (dict_get (Scenario.initial_soc scenario) 0.5) = Raise e ->
  simulate_scenarios settings PULP_AVAILABLE solve self forecast_df
    (before ++ scenario :: after)
  = (apply_overrides self scenario, Raise e).
Proof.
  intros Hbefore Hraise. unfold simulate_scenarios.
  apply simulate_loop_Raise; assumption.
Qed.

Lemma simulate_scenarios_stops_at_first_failure_witness :
  simulate_scenarios Settings.default true idle_battery_run default_optimizer
    one_hour_frame ([bigger_battery] ++ no_battery :: [smaller_contract])
  = (apply_overrides default_optimizer no_battery, Raise ZeroDivisionError).
Proof.
  apply simulate_scenarios_stops_at_first_failure.
  - intros s [<-|[]]. eexists. vm_compute. reflexivity.
  - vm_compute. reflexivity.
Defined.

(** X24.  Whatever the outcome of [simulate_scenarios], an exception
    included, the optimizer keeps its efficiency, its state-of-charge
    limits and its horizon: the overrides only ever touch the battery
    capacity and the contract capacity. *)
Theorem simulate_scenarios_keeps_other_attributes (settings : Settings.t)
    (PULP_AVAILABLE : bool) (solve : LpProblem -> LpSolution)
    (self : TOUOptimizer) (forecast_df : DataFrame)
    (scenarios : list Scenario.t) :
  let self' := fst (simulate_scenarios settings PULP_AVAILABLE solve self
                      forecast_df scenarios) in
  battery_efficiency self' = battery_efficiency self /\
  min_soc self' = min_soc self /\
  max_soc self' = max_soc self /\
  time_horizon self' = time_horizon self.
Proof.
  unfold simulate_scenarios. apply simulate_loop_frame.
Qed.

(* ================================================================== *)
(** ** The optimization service                                        *)
(* ================================================================== *)

Lemma overrides_as_scenario (o : TOUOptimizer) (initial_soc : Q)
    (battery_capacity_kwh max_contract_kw : option Q) :
  override_with set_max_contract max_contract_kw
    (override_with set_battery_capacity battery_capacity_kwh o)
  = apply_overrides o
      (request_scenario initial_soc battery_capacity_kwh max_contract_kw).
Proof.
  destruct o, battery_capacity_kwh, max_contract_kw; reflexivity.
Qed.

Lemma restores_undo_overrides (o : TOUOptimizer)
    (battery_capacity_kwh max_contract_kw : option Q) :
  restore_with set_max_contract max_contract_kw
    (max_contract (override_with set_battery_capacity battery_capacity_kwh o))
    (restore_with set_battery_capacity battery_capacity_kwh
       (battery_capacity o)
       (override_with set_max_contract max_contract_kw
          (override_with set_battery_capacity battery_capacity_kwh o)))
  = o.
Proof.
  destruct o, battery_capacity_kwh, max_contract_kw; reflexivity.
Qed.

Lemma apply_overrides_plain (o : TOUOptimizer) (initial_soc : Q) :
  apply_overrides o (request_scenario initial_soc None None) = o.
Proof. destruct o; reflexivity. Qed.

(** The two outcomes of a call of the service, in terms of the run of
    [optimize_schedule] under the overrides of the call. *)
Lemma service_optimize_eq (settings : Settings.t) (PULP_AVAILABLE : bool)
    (solve : LpProblem -> LpSolution) (self : OptimizationService.t)
    (forecast_df : DataFrame) (initial_soc : Q)
    (battery_capacity_kwh max_contract_kw : option Q) :
  let o := service_optimizer settings (initialize settings self) in
  let o' := apply_overrides o
              (request_scenario initial_soc battery_capacity_kwh
                 max_contract_kw) in
  service_optimize settings PULP_AVAILABLE solve self forecast_df initial_soc
    battery_capacity_kwh max_contract_kw
  = match optimize_schedule settings PULP_AVAILABLE solve o' forecast_df
            initial_soc with
    | Ok out => ({| OptimizationService.optimizer := Some o |}, Ok out)
    | Raise e => ({| OptimizationService.optimizer := Some o' |}, Raise e)
    end.
Proof.
  cbv zeta. unfold service_optimize. cbv zeta.
  rewrite (overrides_as_scenario _ initial_soc).
  destruct (optimize_schedule settings PULP_AVAILABLE solve
              (apply_overrides
                 (service_optimizer settings (initialize settings self))
                 (request_scenario initial_soc battery_capacity_kwh
                    max_contract_kw))
              forecast_df initial_soc) as [out|e]; [|reflexivity].
  rewrite <- (overrides_as_scenario _ initial_soc).
  rewrite restores_undo_overrides. reflexivity.
Qed.

(** X25.  A call of [OptimizationService.optimize] that returns leaves
    the optimizer of the service with the configuration it had (the
    one built from the settings on first use), returns the run of
    [optimize_schedule] under the overrides of the call, and agrees
    with [simulate_scenarios] on the single scenario that carries
    these overrides. *)
Theorem service_optimize_restores_configuration (settings : Settings.t)
    (PULP_AVAILABLE : bool) (solve : LpProblem -> LpSolution)
    (self self' : OptimizationService.t) (forecast_df : DataFrame)
    (initial_soc : Q) (battery_capacity_kwh max_contract_kw : option Q)
    (out : ScheduleOutput) :
  service_optimize settings PULP_AVAILABLE solve self forecast_df initial_soc
    battery_capacity_kwh max_contract_kw = (self', Ok out) ->
  let o := match OptimizationService.optimizer self with
           | Some o => o
           | None => TOUOptimizer_init settings
           end in
  let scenario :=
    request_scenario initial_soc battery_capacity_kwh max_contract_kw in
  OptimizationService.optimizer self' = Some o /\
  optimize_schedule settings PULP_AVAILABLE solve (apply_overrides o scenario)
    forecast_df initial_soc = Ok out /\
  exists r,
    simulate_scenarios settings PULP_AVAILABLE solve o forecast_df [scenario]
    = (o, Ok [r]) /\
    scenario_output r = out.
Proof.
  intros H. cbv zeta.
  pose proof (service_optimize_eq settings PULP_AVAILABLE solve self
                forecast_df initial_soc battery_capacity_kwh max_contract_kw)
    as E. cbv zeta in E. rewrite E in H. clear E.
  assert (Ho : service_optimizer settings (initialize settings self)
               = match OptimizationService.optimizer self with
                 | Some o => o
                 | None => TOUOptimizer_init settings
                 end).
  { unfold service_optimizer, initialize.
    destruct (OptimizationService.optimizer self) eqn:Eo;
      [rewrite Eo|]; reflexivity. }
  rewrite Ho in H.
  destruct (optimize_schedule settings PULP_AVAILABLE solve
              (apply_overrides
                 match OptimizationService.optimizer self with
                 | Some o => o
                 | None => TOUOptimizer_init settings
                 end
                 (request_scenario initial_soc battery_capacity_kwh
                    max_contract_kw))
              forecast_df initial_soc) as [out'|e] eqn:Erun;
    [|discriminate H].
  injection H as <- <-. split; [reflexivity|]. split; [reflexivity|].
  eexists. split.
  - unfold simulate_scenarios. cbn [simulate_loop]. cbv zeta.
    cbn [request_scenario Scenario.initial_soc dict_get] in *.
    rewrite Erun. rewrite restore_apply_overrides. reflexivity.
  - reflexivity.
Qed.

Lemma service_optimize_restores_configuration_witness :
  exists self' out,
    service_optimize Settings.default false infeasible_run
      {| OptimizationService.optimizer := None |} one_hour_frame 0.5
      (Some 200) None = (self', Ok out) /\
    OptimizationService.optimizer self' = Some default_optimizer.
Proof.
  destruct (service_optimize Settings.default false infeasible_run
              {| OptimizationService.optimizer := None |} one_hour_frame 0.5
              (Some 200) None) as [self' [out|e]] eqn:E.
  - exists self', out. split; [reflexivity|].
    exact (proj1 (service_optimize_restores_configuration _ _ _ _ _ _ _ _ _ _
                    E)).
  - vm_compute in E. discriminate E.
Defined.

(** X26.  A call of [OptimizationService.optimize] that raises leaves
    the overrides of the call on the optimizer of the service, and a
    later call without overrides then runs under them. *)
Theorem service_optimize_failure_leaks_overrides (settings : Settings.t)
    (PULP_AVAILABLE : bool) (solve : LpProblem -> LpSolution)
    (self self' : OptimizationService.t) (forecast_df : DataFrame)
    (initial_soc : Q) (battery_capacity_kwh max_contract_kw : option Q)
    (e : exn) :
  service_optimize settings PULP_AVAILABLE solve self forecast_df initial_soc
    battery_capacity_kwh max_contract_kw = (self', Raise e) ->
  let o := match OptimizationService.optimizer self with
           | Some o => o
           | None => TOUOptimizer_init settings
           end in
  let leaked :=
    apply_overrides o
      (request_scenario initial_soc battery_capacity_kwh max_contract_kw) in
  OptimizationService.optimizer self' = Some leaked /\
  forall later_df later_soc,
    snd (service_optimize settings PULP_AVAILABLE solve self' later_df
           later_soc None None)
    = optimize_schedule settings PULP_AVAILABLE solve leaked later_df
        later_soc.
Proof.
  intros H. cbv zeta.
  pose proof (service_optimize_eq settings PULP_AVAILABLE solve self
                forecast_df initial_soc battery_capacity_kwh max_contract_kw)
    as E. cbv zeta in E. rewrite E in H. clear E.
  assert (Ho : service_optimizer settings (initialize settings self)
               = match OptimizationService.optimizer self with
                 | Some o => o
                 | None => TOUOptimizer_init settings
                 end).
  { unfold service_optimizer, initialize.
    destruct (OptimizationService.optimizer self) eqn:Eo;
      [rewrite Eo|]; reflexivity. }
  rewrite Ho in H.
  destruct (optimize_schedule settings PULP_AVAILABLE solve
              (apply_overrides
                 match OptimizationService.optimizer self with
                 | Some o => o
                 | None => TOUOptimizer_init settings
                 end
                 (request_scenario initial_soc battery_capacity_kwh
                    max_contract_kw))
              forecast_df initial_soc) as [out'|e'] eqn:Erun;
    [discriminate H|].
  injection H as <- <-. split; [reflexivity|].
  intros later_df later_soc.
  pose proof (service_optimize_eq settings PULP_AVAILABLE solve
                {| OptimizationService.optimizer :=
                     Some (apply_overrides
                             match OptimizationService.optimizer self with
                             | Some o => o
                             | None => TOUOptimizer_init settings
                             end
                             (request_scenario initial_soc
                                battery_capacity_kwh max_contract_kw)) |}
                later_df later_soc None None) as E.
  cbv zeta in E. rewrite E. clear E.
  cbn [initialize service_optimizer OptimizationService.optimizer].
  rewrite apply_overrides_plain.
  match goal with
  | |- snd match ?run with _ => _ end = _ => destruct run; reflexivity
  end.
Qed.

Lemma service_optimize_failure_leaks_overrides_witness :
  exists self',
    service_optimize Settings.default true idle_battery_run
      {| OptimizationService.optimizer := None |} one_hour_frame 0.5
      (Some 0) None = (self', Raise ZeroDivisionError) /\
    OptimizationService.optimizer self'
    = Some (set_battery_capacity default_optimizer 0).
Proof.
  destruct (service_optimize Settings.default true idle_battery_run
              {| OptimizationService.optimizer := None |} one_hour_frame 0.5
              (Some 0) None) as [self' [out|e]] eqn:E.
  - vm_compute in E. discriminate E.
  - assert (He : e = ZeroDivisionError)
      by (vm_compute in E; injection E as _ <-; reflexivity).
    subst e. exists self'. split; [reflexivity|].
    exact (proj1 (service_optimize_failure_leaks_overrides _ _ _ _ _ _ _ _ _ _
                    E)).
Defined.

(* ================================================================== *)
(** ** Time-of-use periods and tariffs                                 *)
(* ================================================================== *)

Lemma hour_of_day_cases (h : Z) :
  (0 <= h < 24)%Z ->
  (h = 0 \/ h = 1 \/ h = 2 \/ h = 3 \/ h = 4 \/ h = 5 \/ h = 6 \/ h = 7 \/ h = 8 \/ h = 9 \/ h = 10 \/ h = 11 \/ h = 12 \/ h = 13 \/ h = 14 \/ h = 15 \/ h = 16 \/ h = 17 \/ h = 18 \/ h = 19 \/ h = 20 \/ h = 21 \/ h = 22 \/ h = 23)%Z.
Proof. lia. Qed.

Lemma TOU_PERIODS_seasons (season : string)
    (periods : list (string * list (Z * Z))) :
  dict_lookup TOU_PERIODS season = Some periods ->
  periods = [ ("peak"%string, [(10, 12); (13, 17)]%Z);
              ("half_peak"%string, [(7, 10); (12, 13); (17, 23)]%Z);
              ("off_peak"%string, [(0, 7); (23, 24)]%Z) ].
Proof.
  unfold TOU_PERIODS. cbn [dict_lookup].
  destruct (String.eqb "summer" season);
    [intros H; injection H as <-; reflexivity|].
  destruct (String.eqb "non_summer" season);
    [intros H; injection H as <-; reflexivity|].
  discriminate.
Qed.


(** X27.  For an hour of the day, the period that [get_tou_period]
    names is the one whose hour ranges in [TOU_PERIODS] contain the
    hour, in either season of the table. *)
Theorem tou_period_agrees_with_table (season : string)
    (periods : list (string * list (Z * Z))) (period : string)
    (ranges : list (Z * Z)) (month h : Z) :
  dict_lookup TOU_PERIODS season = Some periods ->
  dict_lookup periods period = Some ranges ->
  (0 <= h < 24)%Z ->
  (in_ranges ranges h = true <->
   TaiwanPowerAPI.get_tou_period {| dt_month := month; dt_hour := h |}
   = period).
Proof.
  intros Hseason Hperiod Hh.
  apply TOU_PERIODS_seasons in Hseason. subst periods.
  cbn [dict_lookup] in Hperiod.
  destruct (String.eqb_spec "peak" period) as [<-|Hpeak].
  { injection Hperiod as <-.
    apply hour_of_day_cases in Hh.
    repeat (destruct Hh as [-> | Hh]); try subst h; vm_compute;
      (split; intros H; first [reflexivity | discriminate H]). }
  destruct (String.eqb_spec "half_peak" period) as [<-|Hhalf].
  { injection Hperiod as <-.
    apply hour_of_day_cases in Hh.
    repeat (destruct Hh as [-> | Hh]); try subst h; vm_compute;
      (split; intros H; first [reflexivity | discriminate H]). }
  destruct (String.eqb_spec "off_peak" period) as [<-|Hoff];
    [|discriminate Hperiod].
  injection Hperiod as <-.
  apply hour_of_day_cases in Hh.
  repeat (destruct Hh as [-> | Hh]); try subst h; vm_compute;
    (split; intros H; first [reflexivity | discriminate H]).
Qed.

Lemma tou_period_agrees_with_table_witness :
  in_ranges [(7, 10); (12, 13); (17, 23)]%Z 12 = true <->
  TaiwanPowerAPI.get_tou_period {| dt_month := 7; dt_hour := 12 |}
  = "half_peak"%string.
Proof.
  apply (tou_period_agrees_with_table "summer"
           [ ("peak"%string, [(10, 12); (13, 17)]%Z);
             ("half_peak"%string, [(7, 10); (12, 13); (17, 23)]%Z);
             ("off_peak"%string, [(0, 7); (23, 24)]%Z) ]
           "half_peak" [(7, 10); (12, 13); (17, 23)]%Z 7%Z 12%Z);
    [reflexivity | reflexivity | lia].
Defined.

(** X28.  The tariff the ETL pipeline computes for a row, from its
    summer flag and its period name, is the tariff [get_tou_tariff]
    gives for a timestamp with the month and the hour of the row; the
    period names of the two modules agree, the summer flag is 1
    exactly in the months [is_summer_season] accepts, and the peak
    period is the one [is_peak_hour] accepts. *)
Theorem etl_tariff_agrees_with_api (settings : TariffSettings.t)
    (month hour : Z) :
  let timestamp := {| dt_month := month; dt_hour := hour |} in
  EtlPipeline.get_tariff settings (EtlPipeline.is_summer month)
    (EtlPipeline.get_tou_period hour)
  = TaiwanPowerAPI.get_tou_tariff settings timestamp /\
  EtlPipeline.get_tou_period hour = TaiwanPowerAPI.get_tou_period timestamp /\
  (EtlPipeline.is_summer month = 1%Z <->
   Helpers.is_summer_season month = true) /\
  (TaiwanPowerAPI.get_tou_period timestamp = "peak"%string <->
   Helpers.is_peak_hour hour = true).
Proof.
  cbv zeta.
  assert (Hsummer : EtlPipeline.is_summer month
                    = if Helpers.is_summer_season month then 1%Z else 0%Z).
  { unfold EtlPipeline.is_summer, Helpers.is_summer_season.
    cbn [existsb].
    destruct (Z.leb_spec 6 month) as [H6|H6];
      destruct (Z.leb_spec month 9) as [H9|H9]; cbn [andb].
    - assert (Hm : (month = 6 \/ month = 7 \/ month = 8 \/ month = 9)%Z)
        by lia.
      destruct Hm as [-> | [-> | [-> | ->]]]; reflexivity.
    - destruct (Z.eqb_spec month 6); [lia|].
      destruct (Z.eqb_spec month 7); [lia|].
      destruct (Z.eqb_spec month 8); [lia|].
      destruct (Z.eqb_spec month 9); [lia|]. reflexivity.
    - destruct (Z.eqb_spec month 6); [lia|].
      destruct (Z.eqb_spec month 7); [lia|].
      destruct (Z.eqb_spec month 8); [lia|].
      destruct (Z.eqb_spec month 9); [lia|]. reflexivity.
    - destruct (Z.eqb_spec month 6); [lia|].
      destruct (Z.eqb_spec month 7); [lia|].
      destruct (Z.eqb_spec month 8); [lia|].
      destruct (Z.eqb_spec month 9); [lia|]. reflexivity. }
  split; [|split; [reflexivity|split]].
  - rewrite Hsummer.
    unfold EtlPipeline.get_tariff, EtlPipeline.get_tou_period,
      TaiwanPowerAPI.get_tou_tariff, Helpers.is_summer_season.
    cbn [dt_month dt_hour].
    destruct (Z.leb 6 month && Z.leb month 9)%bool;
      destruct (in_hours 10 12 hour || in_hours 13 17 hour)%bool;
      destruct (in_hours 7 10 hour || in_hours 12 13 hour
                || in_hours 17 23 hour)%bool; reflexivity.
  - rewrite Hsummer.
    destruct (Helpers.is_summer_season month); split; intros H;
      first [reflexivity | discriminate H].
  - unfold TaiwanPowerAPI.get_tou_period, Helpers.is_peak_hour.
    cbn [dt_hour].
    destruct (in_hours 10 12 hour || in_hours 13 17 hour)%bool;
      destruct (in_hours 7 10 hour || in_hours 12 13 hour
                || in_hours 17 23 hour)%bool; split; intros H;
      first [reflexivity | discriminate H].
Qed.







